(** * HL7 SIU^S12 parser: a shallow embedding of the Python sources

    The development follows the layout of the package:
    [exceptions.py], [timestamps.py], [tokenizer.py], [models.py],
    [extractors.py] and [parser.py] each become a module of the same
    name (classes become nested modules), followed by the facts proved
    about them.

    Modelling conventions.
    - A Python [str] is a Rocq [string]; its characters are the code
      points 0..255 (Latin-1), and the character predicates below are
      Python's on that range.
    - A Python [int] is a [Z]; list lengths are [nat].
    - A raised exception is the [Raise] outcome of [result]; the classes
      of [exceptions.py] and the built-in [ValueError] / [IndexError] are
      constructors of [exn].
    - The tokenizer object owns a mutable [Delimiters] instance; every
      method of the tokenizer and of the parser that can touch it takes
      the current value and returns the new one (type [M]). *)

From Stdlib Require Import ZArith Ascii String List Bool Lia.
From stdpp Require Import gmap strings list.

Local Open Scope Z_scope.

(* ===================================================================== *)
(** * Exceptions ([exceptions.py] plus the built-ins that can escape)    *)
(* ===================================================================== *)

Inductive exn : Type :=
| InvalidMessageTypeError (expected actual : string)
| MissingSegmentError (segment_type : string)
| MalformedSegmentError (segment_type reason : string)
| InvalidTimestampError (value reason : string)
| ValueError (msg : string)
| IndexError (msg : string).

(** [HL7ParseError.__init__]: the message with its bracketed details.  The
    subclasses only ever pass [segment]. *)
Definition HL7ParseError_message (message segment : string) : string :=
  match segment with
  | EmptyString => message
  | _ => message +:+ " [segment=" +:+ segment +:+ "]"
  end.

(** [str(e)] for the classes of [exceptions.py]. *)
Definition exn_str (e : exn) : string :=
  match e with
  | InvalidMessageTypeError expected actual =>
      HL7ParseError_message
        ("Invalid message type: expected '" +:+ expected +:+ "', got '"
         +:+ actual +:+ "'") "MSH"
  | MissingSegmentError segment_type =>
      HL7ParseError_message
        ("Required segment '" +:+ segment_type +:+ "' not found in message")
        segment_type
  | MalformedSegmentError segment_type reason =>
      HL7ParseError_message ("Malformed segment: " +:+ reason) segment_type
  | InvalidTimestampError value reason =>
      HL7ParseError_message
        ("Invalid HL7 timestamp: '" +:+ value +:+ "'"
         +:+ match reason with EmptyString => "" | _ => " - " +:+ reason end)
        EmptyString
  | ValueError msg => msg
  | IndexError msg => msg
  end.

Inductive result (A : Type) : Type :=
| Ok (a : A)
| Raise (e : exn).
Arguments Ok {A} a.
Arguments Raise {A} e.

Definition bind {A B} (r : result A) (k : A -> result B) : result B :=
  match r with
  | Ok a => k a
  | Raise e => Raise e
  end.

Notation "'let*' x ':=' r 'in' k" := (bind r (fun x => k))
  (at level 10, x name, r at level 100, k at level 200, only parsing).
Notation "'let*' ' pat ':=' r 'in' k" :=
  (bind r (fun x => match x with pat => k end))
  (at level 10, pat pattern, r at level 100, k at level 200, only parsing).

(** [try: ... except Exception: <handler>] *)
Definition try_except {A} (r : result A) (handler : A) : A :=
  match r with
  | Ok a => a
  | Raise _ => handler
  end.

(** [isinstance(e, HL7ParseError)] *)
Definition is_HL7ParseError (e : exn) : bool :=
  match e with
  | ValueError _ | IndexError _ => false
  | _ => true
  end.

(* ===================================================================== *)
(** * Python built-ins used by the package                               *)
(* ===================================================================== *)

Module Py.

Definition code (c : ascii) : nat := nat_of_ascii c.

Definition between (lo hi n : nat) : bool := Nat.leb lo n && Nat.leb n hi.

(** [c.isspace()] for a one-character string. *)
Definition isspace (c : ascii) : bool :=
  let n := code c in
  between 9 13 n || between 28 32 n || Nat.eqb n 133 || Nat.eqb n 160.

(** [c.isalnum()] for a one-character string. *)
Definition isalnum (c : ascii) : bool :=
  let n := code c in
  between 48 57 n || between 65 90 n || between 97 122 n
  || Nat.eqb n 170 || between 178 179 n || Nat.eqb n 181
  || between 185 186 n || between 188 190 n
  || between 192 214 n || between 216 246 n || between 248 255 n.

(** The class [\d] of [re] and the decimal digits [int] accepts. *)
Definition is_digit (c : ascii) : bool := between 48 57 (code c).

Definition digit_val (c : ascii) : nat := code c - 48.

(** [c.lower()] *)
Definition lower_char (c : ascii) : ascii :=
  let n := code c in
  if between 65 90 n || between 192 214 n || between 216 222 n
  then ascii_of_nat (n + 32) else c.

Fixpoint forall_chars (p : ascii -> bool) (s : string) : bool :=
  match s with
  | EmptyString => true
  | String c s' => p c && forall_chars p s'
  end.

(** [bool(s)]: a string is truthy when it is not empty. *)
Definition truthy (s : string) : bool :=
  match s with EmptyString => false | _ => true end.

(** [s.isalnum()] and [s.isspace()]: false on the empty string. *)
Definition str_isalnum (s : string) : bool := truthy s && forall_chars isalnum s.
Definition str_isspace (s : string) : bool := truthy s && forall_chars isspace s.

Definition lower (s : string) : string :=
  string_of_list_ascii (map lower_char (list_ascii_of_string s)).

Fixpoint lstrip (s : string) : string :=
  match s with
  | EmptyString => EmptyString
  | String c s' => if isspace c then lstrip s' else s
  end.

(** [rstrip]: a character is kept when something non-blank follows or
    it is itself non-blank. *)
Fixpoint rstrip (s : string) : string :=
  match s with
  | EmptyString => EmptyString
  | String c s' =>
      match rstrip s' with
      | EmptyString => if isspace c then EmptyString else String c EmptyString
      | t => String c t
      end
  end.

(** [s.strip()] *)
Definition strip (s : string) : string := rstrip (lstrip s).

(** [p in s] on strings. *)
Fixpoint contains (s p : string) : bool :=
  String.prefix p s
  || match s with
     | EmptyString => false
     | String _ s' => contains s' p
     end.

(** [s.startswith(p)] *)
Definition startswith (s p : string) : bool := String.prefix p s.

(** [s[i]] as a one-character string, for [0 <= i < len(s)]; every use
    in the package sits behind a length test. *)
Definition item (s : string) (i : nat) : string :=
  match String.get i s with
  | Some c => String c EmptyString
  | None => EmptyString
  end.

(** [x or y] on strings. *)
Definition or_else (x y : string) : string := if truthy x then x else y.

(** [s[a:b]] for [0 <= a <= b]. *)
Definition slice (s : string) (a b : nat) : string := String.substring a (b - a) s.

(** [sep.join(parts)] *)
Definition join (sep : string) (parts : list string) : string :=
  String.concat sep parts.

(** [s.split(sep)] for a non-empty [sep]: occurrences are found left to
    right and do not overlap.  [skip] counts the characters of a
    separator occurrence still to be dropped. *)
Fixpoint split_from (sep s : string) (skip : nat) : list string :=
  match s with
  | EmptyString => [EmptyString]
  | String c s' =>
      match skip with
      | S k => split_from sep s' k
      | O =>
          if String.prefix sep s
          then EmptyString :: split_from sep s' (String.length sep - 1)
          else match split_from sep s' 0 with
               | p :: ps => String c p :: ps
               | [] => [String c EmptyString]
               end
      end
  end.

Definition split_on (sep s : string) : list string := split_from sep s 0.

(** [s.split(sep)]: an empty separator raises [ValueError]. *)
Definition split (s sep : string) : result (list string) :=
  if truthy sep then Ok (split_on sep s) else Raise (ValueError "empty separator").

(** [s.replace(old, new)] for a non-empty [old]. *)
Fixpoint replace_from (old new s : string) (skip : nat) : string :=
  match s with
  | EmptyString => EmptyString
  | String c s' =>
      match skip with
      | S k => replace_from old new s' k
      | O =>
          if String.prefix old s
          then new +:+ replace_from old new s' (String.length old - 1)
          else String c (replace_from old new s' 0)
      end
  end.

Definition replace (s old new : string) : string := replace_from old new s 0.

(** [l[i]] with Python's negative indices. *)
Definition getitem {A} (l : list A) (i : Z) : result A :=
  let n := Z.of_nat (length l) in
  let j := if i <? 0 then i + n else i in
  if (j <? 0) || (n <=? j) then Raise (IndexError "list index out of range")
  else match l !! Z.to_nat j with
       | Some a => Ok a
       | None => Raise (IndexError "list index out of range")
       end.

(** [l[:n]] *)
Definition take_first {A} (n : nat) (l : list A) : list A := firstn n l.

(** [s.ljust(w, fill)] *)
Definition ljust (s : string) (w : nat) (fill : ascii) : string :=
  s +:+ string_of_list_ascii (repeat fill (w - String.length s)).

(** Decimal digits of a natural number, most significant first; [fuel]
    bounds the number of digits. *)
Fixpoint digits_of (fuel n : nat) : string :=
  match fuel with
  | O => EmptyString
  | S f =>
      if Nat.ltb n 10 then String (ascii_of_nat (48 + n)) EmptyString
      else digits_of f (n / 10) +:+ String (ascii_of_nat (48 + n mod 10)) EmptyString
  end.

(** [str(n)] for an integer. *)
Definition str_of_int (z : Z) : string :=
  let n := Z.abs_nat z in
  let d := digits_of (S n) n in
  if z <? 0 then String "-"%char d else d.

(** [f"{z:0{w}d}"]: the sign comes first, then zeros up to width [w]. *)
Definition format_0d (w : nat) (z : Z) : string :=
  let n := Z.abs_nat z in
  let d := digits_of (S n) n in
  if z <? 0
  then String "-"%char (string_of_list_ascii (repeat "0"%char (w - 1 - String.length d)) +:+ d)
  else string_of_list_ascii (repeat "0"%char (w - String.length d)) +:+ d.

(** [int(s)]: surrounding blanks are dropped, one sign is allowed, and
    digits may be separated by single underscores. *)
Fixpoint int_digits (acc : nat) (after_digit : bool) (s : string) : option nat :=
  match s with
  | EmptyString => if after_digit then Some acc else None
  | String c s' =>
      if is_digit c then int_digits (acc * 10 + digit_val c) true s'
      else if Ascii.eqb c "_"%char && after_digit then int_digits acc false s'
      else None
  end.

Definition int (s : string) : result Z :=
  let t := strip s in
  let '(neg, body) :=
    match t with
    | String c r =>
        if Ascii.eqb c "+"%char then (false, r)
        else if Ascii.eqb c "-"%char then (true, r)
        else (false, t)
    | EmptyString => (false, t)
    end in
  match int_digits 0 false body with
  | Some n => Ok (if neg then - Z.of_nat n else Z.of_nat n)
  | None => Raise (ValueError ("invalid literal for int() with base 10: '" +:+ s +:+ "'"))
  end.

End Py.

(** CPython's [datetime(year, month, day)] constructor, as far as the
    package relies on it: it only checks its arguments. *)
Module datetime.

Definition MINYEAR : Z := 1.
Definition MAXYEAR : Z := 9999.

Definition is_leap (year : Z) : bool :=
  (year mod 4 =? 0) && (negb (year mod 100 =? 0) || (year mod 400 =? 0)).

Definition days_in_month (year month : Z) : Z :=
  if month =? 2 then (if is_leap year then 29 else 28)
  else if (month =? 4) || (month =? 6) || (month =? 9) || (month =? 11) then 30
  else 31.

Definition check_date (year month day : Z) : result unit :=
  if negb ((MINYEAR <=? year) && (year <=? MAXYEAR))
  then Raise (ValueError ("year " +:+ Py.str_of_int year +:+ " is out of range"))
  else if negb ((1 <=? month) && (month <=? 12))
  then Raise (ValueError "month must be in 1..12")
  else if negb ((1 <=? day) && (day <=? days_in_month year month))
  then Raise (ValueError "day is out of range for month")
  else Ok tt.

End datetime.

(* ===================================================================== *)
(** * [timestamps.py]                                                    *)
(* ===================================================================== *)

Module timestamps.

(** The format names of the table (strings in the source). *)
Inductive format_type : Type :=
| ft_full_with_tz_fraction | ft_full_with_tz | ft_minutes_with_tz
| ft_full_with_fraction | ft_full | ft_minutes | ft_hours | ft_date | ft_month | ft_year.

(** Every regular expression of the table has the same shape: [^], a run
    of [(\d{n})] groups, optionally [\.(\d+)], optionally
    [([+-]\d{4})], then [$].  A pattern records the widths and the two
    options. *)
Record pattern : Type := Pattern {
  digit_groups : list nat;
  fraction_group : bool;
  tz_group : bool
}.

Definition HL7_TIMESTAMP_PATTERNS : list (pattern * format_type) :=
  [ (Pattern [4; 2; 2; 2; 2; 2]%nat true true, ft_full_with_tz_fraction);
    (Pattern [4; 2; 2; 2; 2; 2]%nat false true, ft_full_with_tz);
    (Pattern [4; 2; 2; 2; 2]%nat false true, ft_minutes_with_tz);
    (Pattern [4; 2; 2; 2; 2; 2]%nat true false, ft_full_with_fraction);
    (Pattern [4; 2; 2; 2; 2; 2]%nat false false, ft_full);
    (Pattern [4; 2; 2; 2; 2]%nat false false, ft_minutes);
    (Pattern [4; 2; 2; 2]%nat false false, ft_hours);
    (Pattern [4; 2; 2]%nat false false, ft_date);
    (Pattern [4; 2]%nat false false, ft_month);
    (Pattern [4]%nat false false, ft_year) ].

(** [(\d{n})]: the group and the rest of the subject. *)
Fixpoint take_digits (n : nat) (s : string) : option (string * string) :=
  match n with
  | O => Some (EmptyString, s)
  | S k =>
      match s with
      | String c s' =>
          if Py.is_digit c
          then match take_digits k s' with
               | Some (g, r) => Some (String c g, r)
               | None => None
               end
          else None
      | EmptyString => None
      end
  end.

(** [\d*], greedy.  What follows a [(\d+)] in the table is a sign or the
    end of the subject, neither of which is a digit, so the greedy
    choice is the only one the matcher can succeed with. *)
Fixpoint span_digits (s : string) : string * string :=
  match s with
  | String c s' =>
      if Py.is_digit c
      then let '(g, r) := span_digits s' in (String c g, r)
      else (EmptyString, s)
  | EmptyString => (EmptyString, EmptyString)
  end.

Fixpoint match_digit_groups (ws : list nat) (s : string)
  : option (list string * string) :=
  match ws with
  | [] => Some ([], s)
  | w :: ws' =>
      match take_digits w s with
      | Some (g, r) =>
          match match_digit_groups ws' r with
          | Some (gs, r') => Some (g :: gs, r')
          | None => None
          end
      | None => None
      end
  end.

(** [\.(\d+)] *)
Definition match_fraction (s : string) : option (string * string) :=
  match s with
  | String "."%char r =>
      let '(g, r') := span_digits r in
      if Py.truthy g then Some (g, r') else None
  | _ => None
  end.

(** [([+-]\d{4})] *)
Definition match_tz (s : string) : option (string * string) :=
  match s with
  | String c r =>
      if Ascii.eqb c "+"%char || Ascii.eqb c "-"%char
      then match take_digits 4 r with
           | Some (g, r') => Some (String c g, r')
           | None => None
           end
      else None
  | EmptyString => None
  end.

(** [re.match(pattern, value)]: the groups of the match.  The subject
    has been stripped by the caller, so [$] can only match at its very
    end, and [match.group(0)] is the subject itself. *)
Definition re_match (p : pattern) (value : string) : option (list string) :=
  match match_digit_groups (digit_groups p) value with
  | None => None
  | Some (gs, r) =>
      let after_fraction :=
        if fraction_group p
        then match match_fraction r with
             | Some (g, r') => Some (gs ++ [g], r')
             | None => None
             end
        else Some (gs, r) in
      match after_fraction with
      | None => None
      | Some (gs1, r1) =>
          let after_tz :=
            if tz_group p
            then match match_tz r1 with
                 | Some (g, r') => Some (gs1 ++ [g], r')
                 | None => None
                 end
            else Some (gs1, r1) in
          match after_tz with
          | Some (gs2, EmptyString) => Some gs2
          | _ => None
          end
      end
  end.

Definition _validate_date (year month day : Z) : result unit :=
  if negb ((1 <=? month) && (month <=? 12))
  then Raise (ValueError ("month must be 1-12, got " +:+ Py.str_of_int month))
  else if negb ((1 <=? day) && (day <=? 31))
  then Raise (ValueError ("day must be 1-31, got " +:+ Py.str_of_int day))
  else datetime.check_date year month day.

Definition _validate_time (hour minute second : Z) : result unit :=
  if negb ((0 <=? hour) && (hour <=? 23))
  then Raise (ValueError ("hour must be 0-23, got " +:+ Py.str_of_int hour))
  else if negb ((0 <=? minute) && (minute <=? 59))
  then Raise (ValueError ("minute must be 0-59, got " +:+ Py.str_of_int minute))
  else if negb ((0 <=? second) && (second <=? 59))
  then Raise (ValueError ("second must be 0-59, got " +:+ Py.str_of_int second))
  else Ok tt.

Definition _convert_tz_offset (hl7_offset : string) : string :=
  if negb (Py.truthy hl7_offset) then "Z"
  else if String.eqb hl7_offset "Z" || String.eqb hl7_offset "+0000"
          || String.eqb hl7_offset "-0000" then "Z"
  else
    let sign := Py.item hl7_offset 0 in
    let hours := Py.slice hl7_offset 1 3 in
    let minutes := Py.slice hl7_offset 3 5 in
    sign +:+ hours +:+ ":" +:+ minutes.

(** [[int(g) for g in groups]] *)
Fixpoint ints (groups : list string) : result (list Z) :=
  match groups with
  | [] => Ok []
  | g :: gs => let* n := Py.int g in let* ns := ints gs in Ok (n :: ns)
  end.

(** Tuple unpacking of a list: a length mismatch is a [ValueError]. *)
Definition unpack_error {A} (expected : nat) (got : list Z) : result A :=
  if Nat.ltb (length got) expected
  then Raise (ValueError ("not enough values to unpack (expected "
                +:+ Py.str_of_int (Z.of_nat expected) +:+ ", got "
                +:+ Py.str_of_int (Z.of_nat (length got)) +:+ ")"))
  else Raise (ValueError ("too many values to unpack (expected "
                +:+ Py.str_of_int (Z.of_nat expected) +:+ ")")).

Definition unpack4 (l : list Z) : result (Z * Z * Z * Z) :=
  match l with [a; b; c; d] => Ok (a, b, c, d) | _ => unpack_error 4 l end.
Definition unpack5 (l : list Z) : result (Z * Z * Z * Z * Z) :=
  match l with [a; b; c; d; e] => Ok (a, b, c, d, e) | _ => unpack_error 5 l end.
Definition unpack6 (l : list Z) : result (Z * Z * Z * Z * Z * Z) :=
  match l with [a; b; c; d; e; f] => Ok (a, b, c, d, e, f) | _ => unpack_error 6 l end.

Definition tz_suffix_of (assume_utc : bool) : string :=
  if assume_utc then "Z" else "".

Definition fmt_date (year month day : Z) : string :=
  Py.format_0d 4 year +:+ "-" +:+ Py.format_0d 2 month +:+ "-" +:+ Py.format_0d 2 day.

(** The body of the [try] block of [_convert_matched_timestamp]. *)
Definition convert_body (groups : list string) (ft : format_type)
    (assume_utc : bool) : result string :=
  match ft with
  | ft_year =>
      let* g0 := Py.getitem groups 0 in
      let* year := Py.int g0 in
      Ok (Py.format_0d 4 year)
  | ft_month =>
      let* g0 := Py.getitem groups 0 in
      let* year := Py.int g0 in
      let* g1 := Py.getitem groups 1 in
      let* month := Py.int g1 in
      Ok (Py.format_0d 4 year +:+ "-" +:+ Py.format_0d 2 month)
  | ft_date =>
      let* g0 := Py.getitem groups 0 in
      let* year := Py.int g0 in
      let* g1 := Py.getitem groups 1 in
      let* month := Py.int g1 in
      let* g2 := Py.getitem groups 2 in
      let* day := Py.int g2 in
      let* _ := _validate_date year month day in
      Ok (fmt_date year month day)
  | ft_hours =>
      let* ns := ints groups in
      let* '(year, month, day, hour) := unpack4 ns in
      let* _ := _validate_date year month day in
      let* _ := _validate_time hour 0 0 in
      let tz_suffix := tz_suffix_of assume_utc in
      Ok (fmt_date year month day +:+ "T" +:+ Py.format_0d 2 hour
          +:+ ":00:00" +:+ tz_suffix)
  | ft_minutes =>
      let* ns := ints groups in
      let* '(year, month, day, hour, minute) := unpack5 ns in
      let* _ := _validate_date year month day in
      let* _ := _validate_time hour minute 0 in
      let tz_suffix := tz_suffix_of assume_utc in
      Ok (fmt_date year month day +:+ "T" +:+ Py.format_0d 2 hour
          +:+ ":" +:+ Py.format_0d 2 minute +:+ ":00" +:+ tz_suffix)
  | ft_full =>
      let* ns := ints groups in
      let* '(year, month, day, hour, minute, second) := unpack6 ns in
      let* _ := _validate_date year month day in
      let* _ := _validate_time hour minute second in
      let tz_suffix := tz_suffix_of assume_utc in
      Ok (fmt_date year month day +:+ "T" +:+ Py.format_0d 2 hour
          +:+ ":" +:+ Py.format_0d 2 minute +:+ ":" +:+ Py.format_0d 2 second
          +:+ tz_suffix)
  | ft_full_with_fraction =>
      let* ns := ints (Py.take_first 6 groups) in
      let* '(year, month, day, hour, minute, second) := unpack6 ns in
      let* fraction := Py.getitem groups 6 in
      let* _ := _validate_date year month day in
      let* _ := _validate_time hour minute second in
      let tz_suffix := tz_suffix_of assume_utc in
      let fraction := Py.ljust (Py.slice fraction 0 3) 3 "0"%char in
      Ok (fmt_date year month day +:+ "T" +:+ Py.format_0d 2 hour
          +:+ ":" +:+ Py.format_0d 2 minute +:+ ":" +:+ Py.format_0d 2 second
          +:+ "." +:+ fraction +:+ tz_suffix)
  | ft_minutes_with_tz =>
      let* ns := ints (Py.take_first 5 groups) in
      let* '(year, month, day, hour, minute) := unpack5 ns in
      let* tz_offset := Py.getitem groups 5 in
      let* _ := _validate_date year month day in
      let* _ := _validate_time hour minute 0 in
      let iso_tz := _convert_tz_offset tz_offset in
      Ok (fmt_date year month day +:+ "T" +:+ Py.format_0d 2 hour
          +:+ ":" +:+ Py.format_0d 2 minute +:+ ":00" +:+ iso_tz)
  | ft_full_with_tz =>
      let* ns := ints (Py.take_first 6 groups) in
      let* '(year, month, day, hour, minute, second) := unpack6 ns in
      let* tz_offset := Py.getitem groups 6 in
      let* _ := _validate_date year month day in
      let* _ := _validate_time hour minute second in
      let iso_tz := _convert_tz_offset tz_offset in
      Ok (fmt_date year month day +:+ "T" +:+ Py.format_0d 2 hour
          +:+ ":" +:+ Py.format_0d 2 minute +:+ ":" +:+ Py.format_0d 2 second
          +:+ iso_tz)
  | ft_full_with_tz_fraction =>
      let* ns := ints (Py.take_first 6 groups) in
      let* '(year, month, day, hour, minute, second) := unpack6 ns in
      let* fraction := Py.getitem groups 6 in
      let* tz_offset := Py.getitem groups 7 in
      let* _ := _validate_date year month day in
      let* _ := _validate_time hour minute second in
      let iso_tz := _convert_tz_offset tz_offset in
      let fraction := Py.ljust (Py.slice fraction 0 3) 3 "0"%char in
      Ok (fmt_date year month day +:+ "T" +:+ Py.format_0d 2 hour
          +:+ ":" +:+ Py.format_0d 2 minute +:+ ":" +:+ Py.format_0d 2 second
          +:+ "." +:+ fraction +:+ iso_tz)
  end.

(** [group0] is [match.group(0)].  [except ValueError as e] rewraps the
    error; anything else propagates.  Every format type of the table
    has a branch, so the trailing "unhandled format type" raise is
    never reached. *)
Definition _convert_matched_timestamp (group0 : string) (groups : list string)
    (ft : format_type) (assume_utc : bool) : result string :=
  match convert_body groups ft assume_utc with
  | Raise (ValueError msg) => Raise (InvalidTimestampError group0 msg)
  | r => r
  end.

(** The [for pattern, format_type in HL7_TIMESTAMP_PATTERNS] loop. *)
Fixpoint first_match (table : list (pattern * format_type)) (value : string)
  : option (list string * format_type) :=
  match table with
  | [] => None
  | (p, ft) :: rest =>
      match re_match p value with
      | Some groups => Some (groups, ft)
      | None => first_match rest value
      end
  end.

Definition parse_hl7_timestamp (value : string) (assume_utc : bool)
  : result (option string) :=
  if negb (Py.truthy value) || negb (Py.truthy (Py.strip value)) then Ok None
  else
    let value := Py.strip value in
    match first_match HL7_TIMESTAMP_PATTERNS value with
    | Some (groups, ft) =>
        let* iso := _convert_matched_timestamp value groups ft assume_utc in
        Ok (Some iso)
    | None =>
        Raise (InvalidTimestampError value
                 "does not match any known HL7 timestamp format")
    end.

Definition parse_hl7_date (value : string) : result (option string) :=
  if negb (Py.truthy value) || negb (Py.truthy (Py.strip value)) then Ok None
  else
    let value := Py.strip value in
    if Nat.eqb (String.length value) 8 then
      let year := Py.slice value 0 4 in
      let month := Py.slice value 4 6 in
      let day := Py.slice value 6 8 in
      (* [except (ValueError, InvalidTimestampError)]: only [ValueError]
         can come out of this body. *)
      let body :=
        let* y := Py.int year in
        let* m := Py.int month in
        let* d := Py.int day in
        let* _ := _validate_date y m d in
        Ok (Some (fmt_date y m d)) in
      match body with
      | Raise (ValueError msg) => Raise (InvalidTimestampError value msg)
      | r => r
      end
    else
      let* result := parse_hl7_timestamp value false in
      match result with
      | Some result =>
          if Py.truthy result
          then Ok (Some (if Nat.leb 10 (String.length result)
                         then Py.slice result 0 10 else result))
          else Ok None
      | None => Ok None
      end.

End timestamps.

(* ===================================================================== *)
(** * [tokenizer.py]                                                     *)
(* ===================================================================== *)

Module tokenizer.

Definition DEFAULT_FIELD_SEPARATOR : string := "|".
Definition DEFAULT_COMPONENT_SEPARATOR : string := "^".
Definition DEFAULT_REPETITION_SEPARATOR : string := "~".
Definition DEFAULT_ESCAPE_CHARACTER : string := "\".
Definition DEFAULT_SUBCOMPONENT_SEPARATOR : string := "&".

Record Delimiters : Type := mkDelimiters {
  field : string;
  component : string;
  repetition : string;
  escape : string;
  subcomponent : string
}.

(** [Delimiters()] *)
Definition Delimiters_new : Delimiters :=
  mkDelimiters DEFAULT_FIELD_SEPARATOR DEFAULT_COMPONENT_SEPARATOR
    DEFAULT_REPETITION_SEPARATOR DEFAULT_ESCAPE_CHARACTER
    DEFAULT_SUBCOMPONENT_SEPARATOR.

Definition set_field (d : Delimiters) (v : string) : Delimiters :=
  mkDelimiters v (component d) (repetition d) (escape d) (subcomponent d).
Definition set_component (d : Delimiters) (v : string) : Delimiters :=
  mkDelimiters (field d) v (repetition d) (escape d) (subcomponent d).
Definition set_repetition (d : Delimiters) (v : string) : Delimiters :=
  mkDelimiters (field d) (component d) v (escape d) (subcomponent d).
Definition set_escape (d : Delimiters) (v : string) : Delimiters :=
  mkDelimiters (field d) (component d) (repetition d) v (subcomponent d).
Definition set_subcomponent (d : Delimiters) (v : string) : Delimiters :=
  mkDelimiters (field d) (component d) (repetition d) (escape d) v.

Record Segment : Type := mkSegment {
  segment_type : string;
  fields : list string;
  raw_text : string
}.

Definition get_field (self : Segment) (index : Z) (default : string)
  : result string :=
  if (index <? 0) || (Z.of_nat (length (fields self)) <=? index) then Ok default
  else
    let* v := Py.getitem (fields self) index in
    Ok (Py.or_else v default).

Definition get_component (self : Segment) (field_index component_index : Z)
    (separator default : string) : result string :=
  let* field_value := get_field self field_index "" in
  if negb (Py.truthy field_value) then Ok default
  else
    let* components := Py.split field_value separator in
    if (component_index <? 0) || (Z.of_nat (length components) <=? component_index)
    then Ok default
    else
      let* v := Py.getitem components component_index in
      Ok (Py.or_else v default).

Definition get_subcomponent (self : Segment)
    (field_index component_index subcomponent_index : Z)
    (component_sep subcomponent_sep default : string) : result string :=
  let* component := get_component self field_index component_index component_sep "" in
  if negb (Py.truthy component) then Ok default
  else
    let* subcomponents := Py.split component subcomponent_sep in
    if (subcomponent_index <? 0)
       || (Z.of_nat (length subcomponents) <=? subcomponent_index)
    then Ok default
    else
      let* v := Py.getitem subcomponents subcomponent_index in
      Ok (Py.or_else v default).

(** A method of an object that owns a [Delimiters] instance: it is run
    on the current value of [self.delimiters] and yields the value the
    attribute has afterwards (also when it raises) and its outcome. *)
Definition M (A : Type) : Type := Delimiters -> Delimiters * result A.

Module HL7Tokenizer.

Definition SEGMENT_TERMINATORS : list string :=
  [String "013" (String "010" EmptyString); String "013" EmptyString;
   String "010" EmptyString]%char.

Definition LF : string := String "010"%char EmptyString.
Definition CR : string := String "013"%char EmptyString.
Definition CRLF : string := String "013"%char (String "010"%char EmptyString).

Definition _normalize_line_endings (text : string) : string :=
  Py.replace (Py.replace text CRLF LF) CR LF.

(** The two loops of [_validate_delimiters]. *)
Fixpoint check_special (delimiters : list (string * string)) : result unit :=
  match delimiters with
  | [] => Ok tt
  | (name, char) :: rest =>
      if negb (Py.truthy char) || Py.str_isalnum char || Py.str_isspace char
      then Raise (MalformedSegmentError "MSH"
             ("Invalid " +:+ name +:+ " delimiter '" +:+ char
              +:+ "': must be a non-alphanumeric, non-whitespace character"))
      else check_special rest
  end.

Fixpoint check_conflicts (delimiters : list (string * string))
    (chars_used : gset string) : result unit :=
  match delimiters with
  | [] => Ok tt
  | (name, char) :: rest =>
      if bool_decide (char ∈ chars_used)
      then Raise (MalformedSegmentError "MSH"
             ("Conflicting delimiter: '" +:+ char
              +:+ "' used for multiple purposes"))
      else check_conflicts rest (chars_used ∪ {[char]})
  end.

Definition _validate_delimiters (self : Delimiters) : result unit :=
  let delimiters :=
    [ ("field", field self);
      ("component", component self);
      ("repetition", repetition self);
      ("escape", escape self);
      ("subcomponent", subcomponent self) ] in
  let* _ := check_special delimiters in
  check_conflicts delimiters ∅.

(** The body of the [if raw.startswith("MSH")] branch: the assignments
    made to [self.delimiters] from one header line. *)
Definition assign_from_header (raw : string) (d : Delimiters) : Delimiters :=
  let d := if Nat.leb 4 (String.length raw)
           then set_field d (Py.item raw 3) else d in
  if Nat.leb 8 (String.length raw) then
    let encoding := Py.slice raw 4 8 in
    let d := if Nat.leb 1 (String.length encoding)
             then set_component d (Py.item encoding 0) else d in
    let d := if Nat.leb 2 (String.length encoding)
             then set_repetition d (Py.item encoding 1) else d in
    let d := if Nat.leb 3 (String.length encoding)
             then set_escape d (Py.item encoding 2) else d in
    let d := if Nat.leb 4 (String.length encoding)
             then set_subcomponent d (Py.item encoding 3) else d in
    d
  else d.

(** The [for raw in raw_segments] loop, left at the first header. *)
Fixpoint detect_loop (raw_segments : list string) (d : Delimiters) : Delimiters :=
  match raw_segments with
  | [] => d
  | raw :: rest =>
      if Py.startswith raw "MSH" then assign_from_header raw d
      else detect_loop rest d
  end.

Definition _detect_delimiters (raw_segments : list string) : M unit :=
  fun d =>
    let d' := detect_loop raw_segments d in
    (d', _validate_delimiters d').

Definition _parse_msh_segment (self : Delimiters) (raw_text : string)
  : result Segment :=
  let sep := if Nat.ltb 3 (String.length raw_text)
             then Py.item raw_text 3 else field self in
  let* parts := Py.split raw_text sep in
  let* fields :=
    match parts with
    | [] => Ok ["MSH"; sep]
    | _ :: parts_tail =>
        let* p0 := Py.getitem parts 0 in
        Ok ([p0; sep] ++ parts_tail)
    end in
  Ok (mkSegment "MSH" fields raw_text).

Definition _parse_segment (self : Delimiters) (raw_text : string)
  : result (option Segment) :=
  if negb (Py.truthy raw_text) then Ok None
  else if Py.startswith raw_text "MSH" then
    let* seg := _parse_msh_segment self raw_text in
    Ok (Some seg)
  else
    let* fields := Py.split raw_text (field self) in
    match fields with
    | [] => Ok None
    | _ =>
        let* segment_type := Py.getitem fields 0 in
        Ok (Some (mkSegment segment_type fields raw_text))
    end.

(** [[s.strip() for s in normalized.split("\n") if s.strip()]] *)
Definition non_blank_lines (normalized : string) : list string :=
  List.filter Py.truthy (List.map Py.strip (Py.split_on LF normalized)).

(** The [for raw in raw_segments] loop of [tokenize]. *)
Fixpoint parse_segments (self : Delimiters) (raw_segments : list string)
  : result (list Segment) :=
  match raw_segments with
  | [] => Ok []
  | raw :: rest =>
      let* segment := _parse_segment self raw in
      let* segments := parse_segments self rest in
      Ok (match segment with
          | Some seg => seg :: segments
          | None => segments
          end)
  end.

Definition tokenize (message_text : string) : M (list Segment) :=
  fun d =>
    let normalized := _normalize_line_endings message_text in
    let raw_segments := non_blank_lines normalized in
    match raw_segments with
    | [] => (d, Ok [])
    | _ =>
        let '(d', r) := _detect_delimiters raw_segments d in
        (d', let* _ := r in parse_segments d' raw_segments)
    end.

End HL7Tokenizer.

(** The loop of [split_hl7_messages], on the pair
    [(messages, current_message_lines)]. *)
Fixpoint split_loop (lines : list string)
    (messages current_message_lines : list string)
  : list string * list string :=
  match lines with
  | [] => (messages, current_message_lines)
  | line :: rest =>
      let stripped := Py.strip line in
      if negb (Py.truthy stripped) then split_loop rest messages current_message_lines
      else if Py.startswith stripped "MSH" then
        let messages :=
          match current_message_lines with
          | [] => messages
          | _ => messages ++ [Py.join HL7Tokenizer.LF current_message_lines]
          end in
        split_loop rest messages [stripped]
      else
        match current_message_lines with
        | [] => split_loop rest messages current_message_lines
        | _ => split_loop rest messages (current_message_lines ++ [stripped])
        end
  end.

Definition split_hl7_messages (content : string) : list string :=
  let normalized :=
    Py.replace (Py.replace content HL7Tokenizer.CRLF HL7Tokenizer.LF)
      HL7Tokenizer.CR HL7Tokenizer.LF in
  let lines := Py.split_on HL7Tokenizer.LF normalized in
  let '(messages, current_message_lines) := split_loop lines [] [] in
  match current_message_lines with
  | [] => messages
  | _ => messages ++ [Py.join HL7Tokenizer.LF current_message_lines]
  end.

End tokenizer.

(* ===================================================================== *)
(** * [models.py]                                                        *)
(* ===================================================================== *)

Module models.

(** What [to_dict] builds: strings, integers, lists and dictionaries.  A
    dictionary keeps its keys in insertion order. *)
Unset Elimination Schemes.
Inductive value : Type :=
| VStr (s : string)
| VInt (z : Z)
| VList (l : list value)
| VDict (d : list (string * value)).
Set Elimination Schemes.

Definition dict : Type := list (string * value).

(** [d.get(k)] / [k in d] *)
Fixpoint dict_get (d : dict) (k : string) : option value :=
  match d with
  | [] => None
  | (k', v) :: rest => if String.eqb k' k then Some v else dict_get rest k
  end.

(** One entry of [{k: v for k, v in asdict(self).items() if v is not None}] *)
Definition entry_if_some (k : string) (v : option string) : dict :=
  match v with
  | Some s => [(k, VStr s)]
  | None => []
  end.

(** One [if self.x: result["x"] = self.x] step for an optional string. *)
Definition entry_if_truthy (k : string) (v : option string) : dict :=
  match v with
  | Some s => if Py.truthy s then [(k, VStr s)] else []
  | None => []
  end.

Module Patient.
Record t : Type := mk {
  id : string;
  first_name : option string;
  last_name : option string;
  dob : option string;
  gender : option string
}.

Definition to_dict (self : t) : dict :=
  [("id", VStr (id self))]
  ++ entry_if_some "first_name" (first_name self)
  ++ entry_if_some "last_name" (last_name self)
  ++ entry_if_some "dob" (dob self)
  ++ entry_if_some "gender" (gender self).
End Patient.

Module Provider.
Record t : Type := mk {
  id : string;
  name : option string
}.

Definition to_dict (self : t) : dict :=
  [("id", VStr (id self))] ++ entry_if_some "name" (name self).
End Provider.

Module Appointment.
Record t : Type := mk {
  appointment_id : string;
  appointment_datetime : option string;
  patient : option Patient.t;
  provider : option Provider.t;
  location : option string;
  reason : option string;
  message_control_id : option string;
  message_datetime : option string
}.

Definition to_dict (self : t) : dict :=
  (if Py.truthy (appointment_id self)
   then [("appointment_id", VStr (appointment_id self))] else [])
  ++ entry_if_truthy "appointment_datetime" (appointment_datetime self)
  ++ match patient self with
     | Some p => [("patient", VDict (Patient.to_dict p))]
     | None => []
     end
  ++ match provider self with
     | Some p => [("provider", VDict (Provider.to_dict p))]
     | None => []
     end
  ++ entry_if_truthy "location" (location self)
  ++ entry_if_truthy "reason" (reason self)
  ++ entry_if_truthy "message_control_id" (message_control_id self)
  ++ entry_if_truthy "message_datetime" (message_datetime self).
End Appointment.

Module ParseResult.
Record t : Type := mk {
  appointment : Appointment.t;
  warnings : list string;
  source_message_index : Z
}.

Definition to_dict (self : t) : dict :=
  [("appointment", VDict (Appointment.to_dict (appointment self)));
   ("message_index", VInt (source_message_index self))]
  ++ match warnings self with
     | [] => []
     | ws => [("warnings", VList (List.map VStr ws))]
     end.
End ParseResult.

End models.

(* ===================================================================== *)
(** * [extractors.py]                                                    *)
(* ===================================================================== *)

Module extractors.
Import tokenizer.

(** The base class: an extractor holds the delimiters it was built with. *)
Record SegmentExtractor : Type := mkExtractor { delimiters : Delimiters }.

(** [SegmentExtractor.__init__(delimiters=None)]: a [Delimiters]
    instance is always truthy, so [delimiters or Delimiters()] only
    replaces [None]. *)
Definition SegmentExtractor_new (delimiters : option Delimiters) : SegmentExtractor :=
  mkExtractor (match delimiters with Some d => d | None => Delimiters_new end).

Definition component_sep (self : SegmentExtractor) : string :=
  component (delimiters self).
Definition subcomponent_sep (self : SegmentExtractor) : string :=
  subcomponent (delimiters self).

(** [components[i] if len(components) > i else ""]; also the value
    looked at by a test [len(components) > i and components[i]]. *)
Definition item_or_empty (components : list string) (i : nat) : result string :=
  if Nat.ltb i (length components) then Py.getitem components (Z.of_nat i)
  else Ok EmptyString.

(** [s or None] *)
Definition or_None (s : string) : option string :=
  if Py.truthy s then Some s else None.

Module MSHExtractor.

Definition extract_message_type (self : SegmentExtractor) (segment : Segment)
  : result (string * string) :=
  let* msg_type_field := get_field segment 9 "" in
  if negb (Py.truthy msg_type_field) then Ok (EmptyString, EmptyString)
  else
    let* components := Py.split msg_type_field (component_sep self) in
    let* message_type := item_or_empty components 0 in
    let* trigger_event := item_or_empty components 1 in
    Ok (message_type, trigger_event).

Definition extract_control_id (self : SegmentExtractor) (segment : Segment)
  : result string :=
  get_field segment 10 "".

Definition extract_timestamp (self : SegmentExtractor) (segment : Segment)
  : result (option string) :=
  let* raw_ts := get_field segment 7 "" in
  if negb (Py.truthy raw_ts) then Ok None
  else Ok (try_except (timestamps.parse_hl7_timestamp raw_ts true) None).

End MSHExtractor.

Module SCHExtractor.

Definition extract_appointment_id (self : SegmentExtractor) (segment : Segment)
  : result string :=
  let* filler_id := get_component segment 2 0 (component_sep self) "" in
  if Py.truthy filler_id then Ok filler_id
  else
    let* placer_id := get_component segment 1 0 (component_sep self) "" in
    Ok (Py.or_else placer_id "").

(** One [try: return parse_hl7_timestamp(c) except Exception: pass]
    behind its guard: [Some r] when the function returns [r] here. *)
Definition try_component (guard : bool) (c : string) : option (option string) :=
  if guard then
    match timestamps.parse_hl7_timestamp c true with
    | Ok r => Some r
    | Raise _ => None
    end
  else None.

(** The [for field_index in [10, 11]] loop. *)
Fixpoint datetime_loop (self : SegmentExtractor) (segment : Segment)
    (indices : list Z) : result (option string) :=
  match indices with
  | [] => Ok None
  | field_index :: rest =>
      let* timing_field := get_field segment field_index "" in
      if negb (Py.truthy timing_field) then datetime_loop self segment rest
      else
        let* components := Py.split timing_field (component_sep self) in
        let* c3 := item_or_empty components 3 in
        match try_component (Nat.ltb 3 (length components) && Py.truthy c3) c3 with
        | Some r => Ok r
        | None =>
            let* c0 := item_or_empty components 0 in
            match try_component (Nat.ltb 0 (length components) && Py.truthy c0) c0 with
            | Some r => Ok r
            | None => datetime_loop self segment rest
            end
        end
  end.

Definition extract_appointment_datetime (self : SegmentExtractor)
    (segment : Segment) : result (option string) :=
  datetime_loop self segment [10; 11].

(** The [for field_index in [6, 7]] loop. *)
Fixpoint reason_loop (self : SegmentExtractor) (segment : Segment)
    (indices : list Z) : result string :=
  match indices with
  | [] => Ok EmptyString
  | field_index :: rest =>
      let* reason_field := get_field segment field_index "" in
      if negb (Py.truthy reason_field) then reason_loop self segment rest
      else
        let* components := Py.split reason_field (component_sep self) in
        let* c1 := item_or_empty components 1 in
        if Nat.ltb 1 (length components) && Py.truthy c1 then Ok (Py.strip c1)
        else
          let* c0 := item_or_empty components 0 in
          if Nat.ltb 0 (length components) && Py.truthy c0 then Ok (Py.strip c0)
          else reason_loop self segment rest
  end.

Definition extract_reason (self : SegmentExtractor) (segment : Segment)
  : result string :=
  reason_loop self segment [6; 7].

Definition extract_location (self : SegmentExtractor) (segment : Segment)
  : result string :=
  let* location := get_field segment 23 "" in
  if Py.truthy location then
    let* components := Py.split location (component_sep self) in
    let parts :=
      List.filter Py.truthy (List.map Py.strip (Py.take_first 3 components)) in
    Ok (match parts with
        | [] => Py.strip location
        | _ => Py.join " " parts
        end)
  else Ok EmptyString.

End SCHExtractor.

Module PIDExtractor.

Definition _extract_patient_id (self : SegmentExtractor) (segment : Segment)
  : result string :=
  let* id_field := get_field segment 3 "" in
  if negb (Py.truthy id_field) then Ok EmptyString
  else
    let* reps := Py.split id_field (repetition (delimiters self)) in
    let* first_id := Py.getitem reps 0 in
    let* comps := Py.split first_id (component_sep self) in
    let* id_value := Py.getitem comps 0 in
    Ok id_value.

Definition _extract_name (self : SegmentExtractor) (segment : Segment)
  : result (string * string) :=
  let* name_field := get_field segment 5 "" in
  if negb (Py.truthy name_field) then Ok (EmptyString, EmptyString)
  else
    let* reps := Py.split name_field (repetition (delimiters self)) in
    let* first_name_entry := Py.getitem reps 0 in
    let* components := Py.split first_name_entry (component_sep self) in
    let* family_name := item_or_empty components 0 in
    let* given_name := item_or_empty components 1 in
    let* family_name :=
      if Py.contains family_name (subcomponent_sep self) then
        let* subs := Py.split family_name (subcomponent_sep self) in
        Py.getitem subs 0
      else Ok family_name in
    Ok (given_name, family_name).

Definition _extract_dob (self : SegmentExtractor) (segment : Segment)
  : result (option string) :=
  let* dob_field := get_field segment 7 "" in
  if negb (Py.truthy dob_field) then Ok None
  else Ok (try_except (timestamps.parse_hl7_date dob_field) None).

Definition _extract_gender (self : SegmentExtractor) (segment : Segment)
  : result string :=
  get_field segment 8 "".

Definition extract_patient (self : SegmentExtractor) (segment : Segment)
  : result models.Patient.t :=
  let* patient_id := _extract_patient_id self segment in
  let* '(first_name, last_name) := _extract_name self segment in
  let* dob := _extract_dob self segment in
  let* gender := _extract_gender self segment in
  Ok (models.Patient.mk patient_id (or_None first_name) (or_None last_name)
        dob (or_None gender)).

End PIDExtractor.

Module PV1Extractor.

(** [if x: name_parts.append(x)] *)
Definition append_if (name_parts : list string) (x : string) : list string :=
  if Py.truthy x then name_parts ++ [x] else name_parts.

Definition _extract_xcn_field (self : SegmentExtractor) (segment : Segment)
    (field_index : Z) : result (string * string) :=
  let* field_value := get_field segment field_index "" in
  if negb (Py.truthy field_value) then Ok (EmptyString, EmptyString)
  else
    let* reps := Py.split field_value (repetition (delimiters self)) in
    let* first_entry := Py.getitem reps 0 in
    let* components := Py.split first_entry (component_sep self) in
    let* provider_id := item_or_empty components 0 in
    let* family_name := item_or_empty components 1 in
    let* given_name := item_or_empty components 2 in
    let* middle_name := item_or_empty components 3 in
    let* suffix := item_or_empty components 4 in
    let* prefix := item_or_empty components 5 in
    let* degree := item_or_empty components 6 in
    let name_parts := [] in
    let name_parts := append_if name_parts prefix in
    let name_parts := append_if name_parts degree in
    let name_parts := append_if name_parts given_name in
    let name_parts := append_if name_parts middle_name in
    let name_parts := append_if name_parts family_name in
    let name_parts := append_if name_parts suffix in
    let provider_name := Py.join " " name_parts in
    Ok (provider_id, provider_name).

Definition extract_provider (self : SegmentExtractor) (segment : Segment)
  : result (option models.Provider.t) :=
  let* '(provider_id, provider_name) := _extract_xcn_field self segment 7 in
  let* '(provider_id, provider_name) :=
    if negb (Py.truthy provider_id) then _extract_xcn_field self segment 17
    else Ok (provider_id, provider_name) in
  let* '(provider_id, provider_name) :=
    if negb (Py.truthy provider_id) then _extract_xcn_field self segment 8
    else Ok (provider_id, provider_name) in
  if negb (Py.truthy provider_id) && negb (Py.truthy provider_name) then Ok None
  else Ok (Some (models.Provider.mk (Py.or_else provider_id "UNKNOWN")
                   (or_None provider_name))).

Definition extract_location (self : SegmentExtractor) (segment : Segment)
  : result string :=
  let* location_field := get_field segment 3 "" in
  if negb (Py.truthy location_field) then Ok EmptyString
  else
    let* components := Py.split location_field (component_sep self) in
    let location_parts := [] in
    let* c3 := item_or_empty components 3 in
    let location_parts :=
      if Nat.ltb 3 (length components) && Py.truthy c3
      then location_parts ++ [c3] else location_parts in
    let* c0 := item_or_empty components 0 in
    let location_parts :=
      if Nat.ltb 0 (length components) && Py.truthy c0
      then location_parts ++ [c0] else location_parts in
    let* c1 := item_or_empty components 1 in
    let location_parts :=
      if Nat.ltb 1 (length components) && Py.truthy c1 then
        let room_part := Py.strip c1 in
        if Py.startswith (Py.lower room_part) "room"
        then location_parts ++ [room_part]
        else location_parts ++ ["Room " +:+ room_part]
      else location_parts in
    let* c2 := item_or_empty components 2 in
    let location_parts :=
      if Nat.ltb 2 (length components) && Py.truthy c2
      then location_parts ++ ["Bed " +:+ c2] else location_parts in
    Ok (Py.join " " location_parts).

End PV1Extractor.

End extractors.

(* ===================================================================== *)
(** * [parser.py]                                                        *)
(* ===================================================================== *)

Module parser.
Import tokenizer extractors.

Definition EXPECTED_MESSAGE_TYPE : string := "SIU".
Definition EXPECTED_TRIGGER_EVENT : string := "S12".

Module SIUParser.

(** The parser object: [strict_mode] is fixed at construction; its
    tokenizer is represented by the [Delimiters] value threaded
    through [M]. *)

Fixpoint build_loop (segments : list Segment) (segment_map : gmap string Segment)
  : gmap string Segment :=
  match segments with
  | [] => segment_map
  | segment :: rest =>
      let seg_type := segment_type segment in
      match segment_map !! seg_type with
      | None => build_loop rest (<[seg_type := segment]> segment_map)
      | Some _ => build_loop rest segment_map
      end
  end.

Definition _build_segment_map (segments : list Segment) : gmap string Segment :=
  build_loop segments ∅.

(** [self.tokenizer.delimiters] is only read here. *)
Definition _validate_message_type (tokenizer_delimiters : Delimiters)
    (segment_map : gmap string Segment) : result unit :=
  match segment_map !! "MSH" with
  | None => Raise (MissingSegmentError "MSH")
  | Some msh_segment =>
      (* [len(fields) < 3 or not fields[2]], left to right *)
      let* malformed :=
        if Nat.ltb (length (fields msh_segment)) 3 then Ok true
        else
          let* f2 := Py.getitem (fields msh_segment) 2 in
          Ok (negb (Py.truthy f2)) in
      if malformed
      then Raise (MalformedSegmentError "MSH"
                    "MSH segment missing required encoding characters")
      else
        let extractor := SegmentExtractor_new (Some tokenizer_delimiters) in
        let* '(message_type, trigger_event) :=
          MSHExtractor.extract_message_type extractor msh_segment in
        let expected := EXPECTED_MESSAGE_TYPE +:+ "^" +:+ EXPECTED_TRIGGER_EVENT in
        let actual :=
          if Py.truthy trigger_event
          then message_type +:+ "^" +:+ trigger_event
          else message_type in
        if negb (String.eqb message_type EXPECTED_MESSAGE_TYPE)
        then Raise (InvalidMessageTypeError expected actual)
        else if Py.truthy trigger_event
                && negb (String.eqb trigger_event EXPECTED_TRIGGER_EVENT)
        then Raise (InvalidMessageTypeError expected actual)
        else Ok tt
  end.

(** The values [_parse_single_message] has in hand after its
    [SCH] block. *)
Record sch_state : Type := mkSch {
  sch_appointment_id : string;
  sch_appointment_datetime : option string;
  sch_reason : string;
  sch_location : string;
  sch_warnings : list string
}.

(** [sch_segment = segment_map.get("SCH")] and the [if]/[else] on it;
    a [Segment] instance is always truthy, so the test is on [None]. *)
Definition sch_block (strict_mode : bool) (sch_extractor : SegmentExtractor)
    (segment_map : gmap string Segment) (warnings : list string)
  : result sch_state :=
  match segment_map !! "SCH" with
  | Some sch_segment =>
      let* appointment_id :=
        SCHExtractor.extract_appointment_id sch_extractor sch_segment in
      let* appointment_datetime :=
        SCHExtractor.extract_appointment_datetime sch_extractor sch_segment in
      let* reason := SCHExtractor.extract_reason sch_extractor sch_segment in
      let* location := SCHExtractor.extract_location sch_extractor sch_segment in
      Ok (mkSch appointment_id appointment_datetime reason location warnings)
  | None =>
      if strict_mode then Raise (MissingSegmentError "SCH")
      else
        Ok (mkSch "UNKNOWN" None EmptyString EmptyString
              (warnings ++
               ["SCH segment not found - appointment details may be incomplete"]))
  end.

(** The [PID] block: the patient and the warnings. *)
Definition pid_block (strict_mode : bool) (pid_extractor : SegmentExtractor)
    (segment_map : gmap string Segment) (warnings : list string)
  : result (option models.Patient.t * list string) :=
  match segment_map !! "PID" with
  | Some pid_segment =>
      let* patient := PIDExtractor.extract_patient pid_extractor pid_segment in
      Ok (Some patient, warnings)
  | None =>
      if strict_mode then Raise (MissingSegmentError "PID")
      else
        Ok (None, warnings ++
              ["PID segment not found - patient information unavailable"])
  end.

(** The [PV1] block: the provider, the location and the warnings. *)
Definition pv1_block (pv1_extractor : SegmentExtractor)
    (segment_map : gmap string Segment) (location : string)
    (warnings : list string)
  : result (option models.Provider.t * string * list string) :=
  match segment_map !! "PV1" with
  | Some pv1_segment =>
      let* provider := PV1Extractor.extract_provider pv1_extractor pv1_segment in
      let* location :=
        if negb (Py.truthy location)
        then PV1Extractor.extract_location pv1_extractor pv1_segment
        else Ok location in
      Ok (provider, location, warnings)
  | None =>
      Ok (None, location, warnings ++
            ["PV1 segment not found - provider information unavailable"])
  end.

(** The [MSH] metadata block. *)
Definition msh_block (msh_extractor : SegmentExtractor)
    (segment_map : gmap string Segment)
  : result (option string * option string) :=
  match segment_map !! "MSH" with
  | Some msh_segment =>
      let* message_control_id :=
        MSHExtractor.extract_control_id msh_extractor msh_segment in
      let* message_datetime :=
        MSHExtractor.extract_timestamp msh_extractor msh_segment in
      Ok (Some message_control_id, message_datetime)
  | None => Ok (None, None)
  end.

(** [_parse_single_message] from the creation of the extractors on;
    [delimiters] is [self.tokenizer.delimiters] after tokenizing. *)
Definition extract_and_assemble (strict_mode : bool) (delimiters : Delimiters)
    (segment_map : gmap string Segment) (message_index : Z)
    (warnings : list string) : result models.ParseResult.t :=
  let msh_extractor := SegmentExtractor_new (Some delimiters) in
  let sch_extractor := SegmentExtractor_new (Some delimiters) in
  let pid_extractor := SegmentExtractor_new (Some delimiters) in
  let pv1_extractor := SegmentExtractor_new (Some delimiters) in
  let* sch := sch_block strict_mode sch_extractor segment_map warnings in
  let* '(patient, warnings) :=
    pid_block strict_mode pid_extractor segment_map (sch_warnings sch) in
  let* '(provider, location, warnings) :=
    pv1_block pv1_extractor segment_map (sch_location sch) warnings in
  let* '(message_control_id, message_datetime) :=
    msh_block msh_extractor segment_map in
  let appointment :=
    models.Appointment.mk (sch_appointment_id sch)
      (sch_appointment_datetime sch) patient provider
      (or_None location) (or_None (sch_reason sch))
      message_control_id message_datetime in
  Ok (models.ParseResult.mk appointment warnings message_index).

Definition _parse_single_message (strict_mode : bool) (message_text : string)
    (message_index : Z) : M models.ParseResult.t :=
  fun d =>
    let warnings := [] in
    let '(d', tokenized) := HL7Tokenizer.tokenize message_text d in
    (d',
     let* segments := tokenized in
     match segments with
     | [] => Raise (MalformedSegmentError "" "Message contains no valid segments")
     | _ =>
         let segment_map := _build_segment_map segments in
         let* _ := _validate_message_type d' segment_map in
         extract_and_assemble strict_mode d' segment_map message_index warnings
     end).

(** The [for idx, message_text in enumerate(messages)] loop; an
    exception leaves it at once. *)
Fixpoint parse_loop (strict_mode : bool) (messages : list string) (idx : Z)
    (results : list models.ParseResult.t) : M (list models.ParseResult.t) :=
  fun d =>
    match messages with
    | [] => (d, Ok results)
    | message_text :: rest =>
        match _parse_single_message strict_mode message_text idx d with
        | (d', Ok result) => parse_loop strict_mode rest (idx + 1) (results ++ [result]) d'
        | (d', Raise e) => (d', Raise e)
        end
    end.

Definition parse (strict_mode : bool) (content : string)
  : M (list models.ParseResult.t) :=
  fun d =>
    if negb (Py.truthy content) || negb (Py.truthy (Py.strip content))
    then (d, Ok [])
    else parse_loop strict_mode (split_hl7_messages content) 0 [] d.

End SIUParser.

(** [SIUParser(strict_mode=strict).parse(content)]: a new parser owns a
    new tokenizer, whose delimiters are the defaults. *)
Definition parse_hl7_message (content : string) (strict : bool)
  : result (list models.ParseResult.t) :=
  snd (SIUParser.parse strict content Delimiters_new).

End parser.

(* ===================================================================== *)
(** * [io_handler.py]                                                    *)
(* ===================================================================== *)

Module io_handler.
Import tokenizer parser.

(** [s.rstrip(chars)]: a character is kept when something outside
    [chars] follows or it is itself outside [chars]. *)
Fixpoint rstrip_chars (chars : list ascii) (s : string) : string :=
  match s with
  | EmptyString => EmptyString
  | String c s' =>
      match rstrip_chars chars s' with
      | EmptyString =>
          if existsb (Ascii.eqb c) chars then EmptyString else String c EmptyString
      | t => String c t
      end
  end.

(** What a consumer that exhausts the generator observes: the results
    yielded, in order, and the exception that ended the iteration, if
    any. *)
Record outcome : Type := mkOutcome {
  yielded : list models.ParseResult.t;
  raised : option exn
}.

(** The [for line_num, line in enumerate(file_handle, 1)] loop of
    [stream_hl7_file] and the code after it, on the lines the file
    handle delivers; [out] collects what has been yielded so far. *)
Fixpoint stream_loop (strict : bool) (lines : list string)
    (current_message_lines : list string) (message_idx : Z)
    (out : list models.ParseResult.t) (d : Delimiters) : Delimiters * outcome :=
  match lines with
  | [] =>
      match current_message_lines with
      | [] => (d, mkOutcome out None)
      | _ =>
          let message_text := Py.join HL7Tokenizer.LF current_message_lines in
          match SIUParser._parse_single_message strict message_text message_idx d with
          | (d', Ok result) => (d', mkOutcome (out ++ [result]) None)
          | (d', Raise e) => (d', mkOutcome out (Some e))
          end
      end
  | line :: rest =>
      let stripped :=
        Py.strip (rstrip_chars ["013"; "010"]%char line) in
      if negb (Py.truthy stripped)
      then stream_loop strict rest current_message_lines message_idx out d
      else if Py.startswith stripped "MSH" then
        match current_message_lines with
        | [] => stream_loop strict rest [stripped] message_idx out d
        | _ =>
            let message_text := Py.join HL7Tokenizer.LF current_message_lines in
            match SIUParser._parse_single_message strict message_text message_idx d with
            | (d', Ok result) =>
                stream_loop strict rest [stripped] (message_idx + 1)
                  (out ++ [result]) d'
            | (d', Raise e) => (d', mkOutcome out (Some e))
            end
        end
      else
        match current_message_lines with
        | [] => stream_loop strict rest current_message_lines message_idx out d
        | _ =>
            stream_loop strict rest (current_message_lines ++ [stripped])
              message_idx out d
        end
  end.

(** [stream_hl7_file] once the file is open, [lines] being the lines
    its handle delivers: a new parser, whose tokenizer holds the
    default delimiters. *)
Definition stream_lines (lines : list string) (strict : bool) : outcome :=
  snd (stream_loop strict lines [] 0 [] Delimiters_new).

End io_handler.

(* ===================================================================== *)
(** * Vocabulary of the specification                                    *)
(* ===================================================================== *)

Module Spec.

(** A run of exactly [w] decimal digits, such as the [YYYY] or [MM] part
    of a timestamp. *)
Definition digit_group (w : nat) (g : string) : Prop :=
  String.length g = w /\ Py.forall_chars Py.is_digit g = true.

(** The number a run of digits denotes. *)
Fixpoint value_from (acc : nat) (g : string) : nat :=
  match g with
  | EmptyString => acc
  | String c g' => value_from (acc * 10 + Py.digit_val c) g'
  end.

Definition value_of (g : string) : Z := Z.of_nat (value_from 0 g).

(** The character of a decimal digit, [str(n)] and [f"{n:0{w}d}"] for a
    natural number [n]. *)
Definition digit_char (n : nat) : ascii := ascii_of_nat (48 + n).
Definition dec (n : nat) : string := Py.digits_of (S n) n.
Definition zeros (k : nat) : string := string_of_list_ascii (repeat "0"%char k).
Definition padded (w n : nat) : string := zeros (w - String.length (dec n)) +:+ dec n.

(** Calendar validity: month 1..12 and a day that exists in that month
    of that year (years 1..9999). *)
Definition valid_date (y m d : Z) : Prop :=
  1 <= y <= 9999 /\ 1 <= m <= 12 /\ 1 <= d <= datetime.days_in_month y m.

Definition valid_time (h mi s : Z) : Prop :=
  0 <= h <= 23 /\ 0 <= mi <= 59 /\ 0 <= s <= 59.

(** A [+HHMM] / [-HHMM] offset and the digits of a fraction. *)
Definition tz_offset (z : string) : Prop :=
  exists sign hhmm,
    z = String sign hhmm /\ (sign = "+"%char \/ sign = "-"%char)
    /\ digit_group 4 hhmm.

Definition fraction_digits (f : string) : Prop :=
  f <> EmptyString /\ Py.forall_chars Py.is_digit f = true.

(** The five delimiter characters are legal: none is alphanumeric or
    whitespace, and no two are the same. *)
Definition legal_delimiters (cs : list ascii) : Prop :=
  Forall (fun c => Py.isalnum c = false /\ Py.isspace c = false) cs /\ NoDup cs.

(** The [Delimiters] value holding five given characters, in the order
    field, component, repetition, escape, subcomponent. *)
Definition delimiters_of (c1 c2 c3 c4 c5 : ascii) : tokenizer.Delimiters :=
  tokenizer.mkDelimiters (String c1 EmptyString) (String c2 EmptyString)
    (String c3 EmptyString) (String c4 EmptyString) (String c5 EmptyString).

(** Nothing usable is stored at position [i]: the index is out of
    bounds or the stored string is empty. *)
Definition absent (l : list string) (i : Z) : Prop :=
  i < 0 \/ Z.of_nat (length l) <= i \/ l !! Z.to_nat i = Some EmptyString.

(** What the safe accessors compute on a list of strings. *)
Definition lookup_or (l : list string) (i : Z) (default : string) : string :=
  if (i <? 0) || (Z.of_nat (length l) <=? i) then default
  else match l !! Z.to_nat i with
       | Some v => Py.or_else v default
       | None => default
       end.

(** The delimiters an extractor splits on are not empty. *)
Definition splittable (self : extractors.SegmentExtractor) : Prop :=
  tokenizer.component (extractors.delimiters self) <> EmptyString
  /\ tokenizer.repetition (extractors.delimiters self) <> EmptyString
  /\ tokenizer.subcomponent (extractors.delimiters self) <> EmptyString.

(** The three warnings of [_parse_single_message]. *)
Definition SCH_WARNING : string :=
  "SCH segment not found - appointment details may be incomplete".
Definition PID_WARNING : string :=
  "PID segment not found - patient information unavailable".
Definition PV1_WARNING : string :=
  "PV1 segment not found - provider information unavailable".

(** The normalizer accepts a value: it returns a string, it does not
    raise and does not answer "no value". *)
Definition accepted (value : string) (assume_utc : bool) : Prop :=
  exists iso, timestamps.parse_hl7_timestamp value assume_utc = Ok (Some iso).

End Spec.

(* ===================================================================== *)
(** * Further vocabulary, for the properties beyond the claims           *)
(* ===================================================================== *)

Module SpecMore.

(** [s[k:]] *)
Fixpoint drop_chars (k : nat) (s : string) : string :=
  match k, s with
  | O, _ => s
  | S k', String _ s' => drop_chars k' s'
  | S _, EmptyString => EmptyString
  end.

(** The first segment of a list with a given type. *)
Fixpoint first_of_type (t : string) (segments : list tokenizer.Segment)
  : option tokenizer.Segment :=
  match segments with
  | [] => None
  | seg :: rest =>
      if String.eqb (tokenizer.segment_type seg) t then Some seg
      else first_of_type t rest
  end.

(** A line opens a message: stripped, it starts with [MSH]. *)
Definition opens_message (line : string) : bool :=
  Py.startswith (Py.strip line) "MSH".


(** The first three digits of a fraction, with zeros for the missing
    ones: the milliseconds. *)
Definition millis (f : string) : string :=
  match f with
  | String a (String b (String c _)) => String a (String b (String c EmptyString))
  | String a (String b EmptyString) => String a (String b "0")
  | String a EmptyString => String a "00"
  | EmptyString => "000"
  end.

(** The ISO 8601 form of an offset [sign HH MM]. *)
Definition iso_offset (sign : ascii) (HH MM : string) : string :=
  if String.eqb (HH +:+ MM) "0000" then "Z"
  else String sign (HH +:+ ":" +:+ MM).

(** A computation whose only possible exception is [ValueError]. *)
Definition value_error_only {A} (r : result A) : Prop :=
  match r with
  | Ok _ | Raise (ValueError _) => True
  | Raise _ => False
  end.

(** A computation that, when it returns, returns a non-empty string. *)
Definition returns_nonempty (r : result string) : Prop :=
  match r with
  | Ok s => s <> EmptyString
  | Raise _ => True
  end.

(** How many groups a match of each format carries. *)
Definition group_count (ft : timestamps.format_type) : nat :=
  match ft with
  | timestamps.ft_full_with_tz_fraction => 8
  | timestamps.ft_full_with_tz | timestamps.ft_full_with_fraction => 7
  | timestamps.ft_minutes_with_tz | timestamps.ft_full => 6
  | timestamps.ft_minutes => 5
  | timestamps.ft_hours => 4
  | timestamps.ft_date => 3
  | timestamps.ft_month => 2
  | timestamps.ft_year => 1
  end.


(** The ten forms of the pattern table, with the validity the
    conversion checks. *)
Inductive timestamp_shape : string -> Prop :=
| shape_year Y :
    Spec.digit_group 4 Y -> timestamp_shape Y
| shape_month Y M :
    Spec.digit_group 4 Y -> Spec.digit_group 2 M -> timestamp_shape (Y +:+ M)
| shape_date Y M D :
    Spec.digit_group 4 Y -> Spec.digit_group 2 M -> Spec.digit_group 2 D ->
    Spec.valid_date (Spec.value_of Y) (Spec.value_of M) (Spec.value_of D) ->
    timestamp_shape (Y +:+ M +:+ D)
| shape_hours Y M D h :
    Spec.digit_group 4 Y -> Spec.digit_group 2 M -> Spec.digit_group 2 D -> Spec.digit_group 2 h ->
    Spec.valid_date (Spec.value_of Y) (Spec.value_of M) (Spec.value_of D) ->
    Spec.valid_time (Spec.value_of h) 0 0 ->
    timestamp_shape (Y +:+ M +:+ D +:+ h)
| shape_minutes Y M D h mi :
    Spec.digit_group 4 Y -> Spec.digit_group 2 M -> Spec.digit_group 2 D ->
    Spec.digit_group 2 h -> Spec.digit_group 2 mi ->
    Spec.valid_date (Spec.value_of Y) (Spec.value_of M) (Spec.value_of D) ->
    Spec.valid_time (Spec.value_of h) (Spec.value_of mi) 0 ->
    timestamp_shape (Y +:+ M +:+ D +:+ h +:+ mi)
| shape_minutes_tz Y M D h mi z :
    Spec.digit_group 4 Y -> Spec.digit_group 2 M -> Spec.digit_group 2 D ->
    Spec.digit_group 2 h -> Spec.digit_group 2 mi -> Spec.tz_offset z ->
    Spec.valid_date (Spec.value_of Y) (Spec.value_of M) (Spec.value_of D) ->
    Spec.valid_time (Spec.value_of h) (Spec.value_of mi) 0 ->
    timestamp_shape (Y +:+ M +:+ D +:+ h +:+ mi +:+ z)
| shape_full Y M D h mi s :
    Spec.digit_group 4 Y -> Spec.digit_group 2 M -> Spec.digit_group 2 D ->
    Spec.digit_group 2 h -> Spec.digit_group 2 mi -> Spec.digit_group 2 s ->
    Spec.valid_date (Spec.value_of Y) (Spec.value_of M) (Spec.value_of D) ->
    Spec.valid_time (Spec.value_of h) (Spec.value_of mi) (Spec.value_of s) ->
    timestamp_shape (Y +:+ M +:+ D +:+ h +:+ mi +:+ s)
| shape_full_tz Y M D h mi s z :
    Spec.digit_group 4 Y -> Spec.digit_group 2 M -> Spec.digit_group 2 D ->
    Spec.digit_group 2 h -> Spec.digit_group 2 mi -> Spec.digit_group 2 s -> Spec.tz_offset z ->
    Spec.valid_date (Spec.value_of Y) (Spec.value_of M) (Spec.value_of D) ->
    Spec.valid_time (Spec.value_of h) (Spec.value_of mi) (Spec.value_of s) ->
    timestamp_shape (Y +:+ M +:+ D +:+ h +:+ mi +:+ s +:+ z)
| shape_full_fraction Y M D h mi s f :
    Spec.digit_group 4 Y -> Spec.digit_group 2 M -> Spec.digit_group 2 D ->
    Spec.digit_group 2 h -> Spec.digit_group 2 mi -> Spec.digit_group 2 s -> Spec.fraction_digits f ->
    Spec.valid_date (Spec.value_of Y) (Spec.value_of M) (Spec.value_of D) ->
    Spec.valid_time (Spec.value_of h) (Spec.value_of mi) (Spec.value_of s) ->
    timestamp_shape (Y +:+ M +:+ D +:+ h +:+ mi +:+ s +:+ "." +:+ f)
| shape_full_fraction_tz Y M D h mi s f z :
    Spec.digit_group 4 Y -> Spec.digit_group 2 M -> Spec.digit_group 2 D ->
    Spec.digit_group 2 h -> Spec.digit_group 2 mi -> Spec.digit_group 2 s -> Spec.fraction_digits f ->
    Spec.tz_offset z ->
    Spec.valid_date (Spec.value_of Y) (Spec.value_of M) (Spec.value_of D) ->
    Spec.valid_time (Spec.value_of h) (Spec.value_of mi) (Spec.value_of s) ->
    timestamp_shape (Y +:+ M +:+ D +:+ h +:+ mi +:+ s +:+ "." +:+ f +:+ z).

(** The lines a splitter looks at: stripped, blank ones dropped. *)
Definition significant (lines : list string) : list string :=
  List.filter Py.truthy (List.map Py.strip lines).

(** The grouping of [split_hl7_messages] on significant lines. *)
Fixpoint group_loop (stripped : list string)
    (messages current : list string) : list string * list string :=
  match stripped with
  | [] => (messages, current)
  | line :: rest =>
      if Py.startswith line "MSH" then
        group_loop rest
          (match current with
           | [] => messages
           | _ => messages ++ [Py.join tokenizer.HL7Tokenizer.LF current]
           end) [line]
      else
        match current with
        | [] => group_loop rest messages current
        | _ => group_loop rest messages (current ++ [line])
        end
  end.

Definition finish (state : list string * list string) : list string :=
  match snd state with
  | [] => fst state
  | _ => fst state ++ [Py.join tokenizer.HL7Tokenizer.LF (snd state)]
  end.

(** Parsing a list of messages one after the other, keeping what was
    obtained before an exception. *)
Fixpoint collect (strict : bool) (messages : list string) (idx : Z)
    (out : list models.ParseResult.t) (d : tokenizer.Delimiters)
  : tokenizer.Delimiters * io_handler.outcome :=
  match messages with
  | [] => (d, io_handler.mkOutcome out None)
  | message_text :: rest =>
      match parser.SIUParser._parse_single_message strict message_text idx d with
      | (d', Ok result) => collect strict rest (idx + 1) (out ++ [result]) d'
      | (d', Raise e) => (d', io_handler.mkOutcome out (Some e))
      end
  end.

(** The loop of [stream_hl7_file] on significant lines. *)
Fixpoint stream_group (strict : bool) (stripped : list string)
    (current : list string) (idx : Z) (out : list models.ParseResult.t)
    (d : tokenizer.Delimiters) : tokenizer.Delimiters * io_handler.outcome :=
  match stripped with
  | [] =>
      match current with
      | [] => (d, io_handler.mkOutcome out None)
      | _ =>
          match parser.SIUParser._parse_single_message strict
                  (Py.join tokenizer.HL7Tokenizer.LF current) idx d with
          | (d', Ok result) => (d', io_handler.mkOutcome (out ++ [result]) None)
          | (d', Raise e) => (d', io_handler.mkOutcome out (Some e))
          end
      end
  | line :: rest =>
      if Py.startswith line "MSH" then
        match current with
        | [] => stream_group strict rest [line] idx out d
        | _ =>
            match parser.SIUParser._parse_single_message strict
                    (Py.join tokenizer.HL7Tokenizer.LF current) idx d with
            | (d', Ok result) =>
                stream_group strict rest [line] (idx + 1) (out ++ [result]) d'
            | (d', Raise e) => (d', io_handler.mkOutcome out (Some e))
            end
        end
      else
        match current with
        | [] => stream_group strict rest current idx out d
        | _ => stream_group strict rest (current ++ [line]) idx out d
        end
  end.

(** The errors [parse] can end with. *)
Definition parse_error (strict : bool) (e : exn) : Prop :=
  (exists reason, e = MalformedSegmentError "MSH" reason)
  \/ (exists actual, e = InvalidMessageTypeError "SIU^S12" actual)
  \/ (strict = true
      /\ (e = MissingSegmentError "SCH" \/ e = MissingSegmentError "PID")).

(** No carriage return and no line feed. *)
Definition no_line_break (s : string) : Prop :=
  Py.forall_chars
    (fun c => negb (Ascii.eqb c "013"%char) && negb (Ascii.eqb c "010"%char)) s
  = true.

(** The values [extract_appointment_datetime] tries in one timing
    field: component 4, then component 1, when they are not empty. *)
Definition timing_candidates (sep : string) (segment : tokenizer.Segment)
    (field_index : Z) : list string :=
  let timing_field := Spec.lookup_or (tokenizer.fields segment) field_index "" in
  if Py.truthy timing_field then
    let components := Py.split_on sep timing_field in
    List.filter Py.truthy
      [ match components !! 3%nat with Some c => c | None => EmptyString end;
        match components !! 0%nat with Some c => c | None => EmptyString end ]
  else [].

(** The first candidate the normalizer does not reject. *)
Fixpoint first_parsed (candidates : list string) : option string :=
  match candidates with
  | [] => None
  | c :: rest =>
      match timestamps.parse_hl7_timestamp c true with
      | Ok r => r
      | Raise _ => first_parsed rest
      end
  end.

End SpecMore.

(* ===================================================================== *)
(** * Facts about the built-ins                                          *)
(* ===================================================================== *)

Section PyFacts.
Import Py.

Lemma lstrip_blank s : forall_chars isspace s = true -> lstrip s = EmptyString.
Proof.
  induction s as [|c s IH]; simpl; [reflexivity|].
  intros H. apply andb_true_iff in H as [Hc Hs]. rewrite Hc. auto.
Qed.

Lemma strip_blank s : forall_chars isspace s = true -> strip s = EmptyString.
Proof. intros H. unfold strip. rewrite lstrip_blank by assumption. reflexivity. Qed.

Lemma truthy_true s : truthy s = true <-> s <> EmptyString.
Proof. destruct s; simpl; split; intros; congruence. Qed.

Lemma truthy_false s : truthy s = false <-> s = EmptyString.
Proof. destruct s; simpl; split; intros; congruence. Qed.

Lemma or_else_empty d : or_else EmptyString d = d.
Proof. reflexivity. Qed.

(** A string without blanks at either end is its own [strip]. *)
Lemma rstrip_no_blank s :
  forall_chars (fun c => negb (isspace c)) s = true -> rstrip s = s.
Proof.
  induction s as [|c s IH]; simpl; [reflexivity|].
  intros H. apply andb_true_iff in H as [Hc Hs]. rewrite IH by assumption.
  destruct s; [|reflexivity].
  apply negb_true_iff in Hc. rewrite Hc. reflexivity.
Qed.

Lemma strip_no_blank s :
  forall_chars (fun c => negb (isspace c)) s = true -> strip s = s.
Proof.
  intros H. unfold strip.
  assert (lstrip s = s) as ->.
  { destruct s as [|c s]; [reflexivity|]. simpl in *.
    apply andb_true_iff in H as [Hc _]. apply negb_true_iff in Hc.
    rewrite Hc. reflexivity. }
  apply rstrip_no_blank; assumption.
Qed.

Lemma forall_chars_impl (p q : ascii -> bool) s :
  (forall c, p c = true -> q c = true) ->
  forall_chars p s = true -> forall_chars q s = true.
Proof.
  intros Hpq. induction s as [|c s IH]; simpl; [reflexivity|].
  intros H. apply andb_true_iff in H as [Hc Hs].
  rewrite (Hpq _ Hc), IH by assumption. reflexivity.
Qed.

Lemma forall_chars_app p s t :
  forall_chars p (s +:+ t) = forall_chars p s && forall_chars p t.
Proof.
  induction s as [|c s IH]; [reflexivity|].
  change (String c s +:+ t) with (String c (s +:+ t)).
  cbn [forall_chars]. rewrite IH. destruct (p c); reflexivity.
Qed.

Lemma is_digit_code c : is_digit c = true <-> (48 <= code c <= 57)%nat.
Proof.
  unfold is_digit, between. rewrite andb_true_iff, !Nat.leb_le. reflexivity.
Qed.

Lemma digit_not_space c : is_digit c = true -> isspace c = false.
Proof.
  intros H. apply is_digit_code in H. unfold isspace, between.
  repeat match goal with
         | |- context [Nat.leb ?a ?b] => destruct (Nat.leb_spec a b)
         | |- context [Nat.eqb ?a ?b] => destruct (Nat.eqb_spec a b)
         end; simpl; try reflexivity; lia.
Qed.

Lemma digit_not_sign c :
  is_digit c = true ->
  Ascii.eqb c "+"%char = false /\ Ascii.eqb c "-"%char = false
  /\ Ascii.eqb c "."%char = false /\ Ascii.eqb c "_"%char = false.
Proof.
  intros H. apply is_digit_code in H.
  repeat split; apply Ascii.eqb_neq; intros ->; vm_compute in H; lia.
Qed.

End PyFacts.

Section DigitFacts.
Import Py Spec.

Lemma digit_char_val c : is_digit c = true -> digit_char (digit_val c) = c.
Proof.
  intros H. apply is_digit_code in H. unfold digit_char, digit_val.
  replace (48 + (code c - 48))%nat with (code c) by lia.
  apply ascii_nat_embedding.
Qed.

Lemma digit_val_lt c : is_digit c = true -> (digit_val c < 10)%nat.
Proof. intros H. apply is_digit_code in H. unfold digit_val. lia. Qed.

Lemma digits_of_fuel f1 : forall f2 n,
  (n < f1)%nat -> (n < f2)%nat -> digits_of f1 n = digits_of f2 n.
Proof.
  induction f1 as [|f1 IH]; intros f2 n H1 H2; [lia|].
  destruct f2 as [|f2]; [lia|]. cbn [digits_of].
  destruct (Nat.ltb_spec n 10) as [Hlt|Hge]; [reflexivity|].
  assert (n / 10 < n)%nat by (apply Nat.div_lt; lia).
  rewrite (IH f2) by lia. reflexivity.
Qed.

Lemma dec_small n : (n < 10)%nat -> dec n = String (digit_char n) EmptyString.
Proof.
  intros H. unfold dec. cbn [digits_of].
  destruct (Nat.ltb_spec n 10); [reflexivity | lia].
Qed.

Lemma dec_big n :
  (10 <= n)%nat ->
  dec n = dec (n / 10) +:+ String (digit_char (n mod 10)) EmptyString.
Proof.
  intros H. unfold dec at 1. cbn [digits_of].
  destruct (Nat.ltb_spec n 10); [lia|].
  assert (n / 10 < n)%nat by (apply Nat.div_lt; lia).
  rewrite (digits_of_fuel n (S (n / 10))) by lia. reflexivity.
Qed.

Lemma zeros_S k : zeros (S k) = zeros k +:+ "0".
Proof.
  induction k as [|k IH]; [reflexivity|].
  change (zeros (S (S k))) with (String "0"%char (zeros (S k))).
  rewrite IH at 1. reflexivity.
Qed.

Lemma app_cons (x : ascii) (a b : string) : String x a +:+ b = String x (a +:+ b).
Proof. reflexivity. Qed.

Lemma app_assoc_str (a b c : string) : (a +:+ b) +:+ c = a +:+ (b +:+ c).
Proof.
  induction a as [|x a IH]; [reflexivity|]. rewrite !app_cons, IH. reflexivity.
Qed.

Lemma app_empty_r (a : string) : a +:+ EmptyString = a.
Proof.
  induction a as [|x a IH]; [reflexivity|]. rewrite app_cons, IH. reflexivity.
Qed.

Lemma length_app_str (a b : string) :
  String.length (a +:+ b) = (String.length a + String.length b)%nat.
Proof.
  induction a as [|x a IH]; [reflexivity|].
  rewrite app_cons. cbn [String.length]. rewrite IH. reflexivity.
Qed.

Lemma format_0d_nat w n : format_0d w (Z.of_nat n) = padded w n.
Proof.
  unfold format_0d, padded, dec, zeros.
  destruct (Z.ltb_spec (Z.of_nat n) 0) as [Hneg|_]; [lia|].
  rewrite Zabs2Nat.id. reflexivity.
Qed.

Lemma padded_step w n :
  (1 <= w)%nat ->
  padded (S w) n = padded w (n / 10) +:+ String (digit_char (n mod 10)) EmptyString.
Proof.
  intros Hw. unfold padded.
  destruct (Nat.lt_ge_cases n 10) as [Hlt|Hge].
  - rewrite (dec_small n Hlt). rewrite Nat.div_small, Nat.mod_small by assumption.
    rewrite (dec_small 0) by lia. cbn [String.length].
    replace (S w - 1)%nat with w by lia.
    destruct w as [|w]; [lia|]. replace (S w - 1)%nat with w by lia.
    rewrite zeros_S. rewrite !app_assoc_str. reflexivity.
  - rewrite (dec_big n Hge). rewrite length_app_str. cbn [String.length].
    replace (S w - (String.length (dec (n / 10)) + 1))%nat
      with (w - String.length (dec (n / 10)))%nat by lia.
    rewrite app_assoc_str. reflexivity.
Qed.

Lemma value_from_snoc s : forall acc c,
  value_from acc (s +:+ String c EmptyString)
  = (value_from acc s * 10 + digit_val c)%nat.
Proof.
  induction s as [|x s IH]; intros acc c; [reflexivity|].
  rewrite app_cons. cbn [value_from]. apply IH.
Qed.

Lemma snoc_decompose s w :
  String.length s = S w ->
  exists s' c, s = s' +:+ String c EmptyString /\ String.length s' = w.
Proof.
  revert s. induction w as [|w IH]; intros s H.
  - destruct s as [|c [|]]; try discriminate. exists EmptyString, c. auto.
  - destruct s as [|x s]; [discriminate|]. cbn in H. injection H as H.
    destruct (IH s H) as (s' & c & -> & Hl).
    exists (String x s'), c. cbn. auto.
Qed.

(** Formatting the value of a digit group at its own width gives the
    group back: leading zeros are restored. *)
Lemma padded_value w : forall g,
  digit_group (S w) g -> padded (S w) (value_from 0 g) = g.
Proof.
  induction w as [|w IH]; intros g [Hlen Hdig].
  - destruct g as [|c [|]]; try discriminate. cbn in Hdig.
    rewrite andb_true_r in Hdig. cbn [value_from]. simpl Nat.mul. simpl Nat.add.
    unfold padded. rewrite dec_small by (apply digit_val_lt; assumption).
    cbn [String.length]. cbn. rewrite digit_char_val by assumption. reflexivity.
  - destruct (snoc_decompose g (S w) Hlen) as (g' & c & -> & Hl).
    rewrite forall_chars_app in Hdig. apply andb_true_iff in Hdig as [Hg' Hc].
    cbn in Hc. rewrite andb_true_r in Hc.
    rewrite padded_step by lia. rewrite value_from_snoc.
    pose proof (digit_val_lt c Hc) as Hlt.
    replace ((value_from 0 g' * 10 + digit_val c) / 10)%nat with (value_from 0 g').
    2:{ rewrite Nat.div_add_l by lia.
        rewrite (Nat.div_small (digit_val c)) by lia. lia. }
    replace ((value_from 0 g' * 10 + digit_val c) mod 10)%nat with (digit_val c).
    2:{ rewrite Nat.add_comm. rewrite Nat.Div0.mod_add.
        symmetry. apply Nat.mod_small. lia. }
    rewrite IH by (split; assumption).
    rewrite digit_char_val by assumption. reflexivity.
Qed.

Lemma format_0d_value w g :
  digit_group (S w) g -> format_0d (S w) (value_of g) = g.
Proof. intros H. unfold value_of. rewrite format_0d_nat. apply padded_value, H. Qed.

Lemma int_digits_group g : forall acc b,
  forall_chars is_digit g = true ->
  (g <> EmptyString \/ b = true) ->
  int_digits acc b g = Some (value_from acc g).
Proof.
  induction g as [|c g IH]; intros acc b Hd Hne.
  - destruct Hne as [Hne| ->]; [congruence | reflexivity].
  - cbn in Hd. apply andb_true_iff in Hd as [Hc Hg]. cbn. rewrite Hc.
    apply IH; auto.
Qed.

Lemma digits_no_blank g :
  forall_chars is_digit g = true ->
  forall_chars (fun c => negb (isspace c)) g = true.
Proof.
  apply forall_chars_impl. intros c H. rewrite (digit_not_space c H). reflexivity.
Qed.

(** [int] of a non-empty run of digits is its value. *)
Lemma int_group g :
  forall_chars is_digit g = true -> g <> EmptyString ->
  int g = Ok (value_of g).
Proof.
  intros Hd Hne. unfold int. rewrite strip_no_blank by (apply digits_no_blank, Hd).
  destruct g as [|c g]; [congruence|].
  pose proof Hd as Hd'. cbn in Hd'. apply andb_true_iff in Hd' as [Hc _].
  destruct (digit_not_sign c Hc) as (-> & -> & _).
  rewrite (int_digits_group _ 0%nat false Hd) by (left; congruence).
  reflexivity.
Qed.

End DigitFacts.

(* ===================================================================== *)
(** * Facts about [timestamps.py]                                        *)
(* ===================================================================== *)

Section TimestampFacts.
Import Py Spec timestamps.

Lemma digit_group_nonempty w g : digit_group (S w) g -> g <> EmptyString.
Proof. intros [Hl _] ->. discriminate. Qed.

Lemma take_digits_app w : forall g r,
  digit_group w g -> take_digits w (g +:+ r) = Some (g, r).
Proof.
  induction w as [|w IH]; intros g r [Hl Hd].
  - destruct g; [reflexivity | discriminate].
  - destruct g as [|c g]; [discriminate|].
    cbn in Hl. injection Hl as Hl. cbn in Hd.
    apply andb_true_iff in Hd as [Hc Hg].
    rewrite app_cons. cbn [take_digits]. rewrite Hc.
    rewrite IH by (split; assumption). reflexivity.
Qed.

Lemma span_digits_app f r :
  forall_chars is_digit f = true ->
  (forall c r', r = String c r' -> is_digit c = false) ->
  span_digits (f +:+ r) = (f, r).
Proof.
  intros Hf Hr. induction f as [|c f IH].
  - change (EmptyString +:+ r) with r. destruct r as [|c r']; [reflexivity|].
    cbn [span_digits]. rewrite (Hr c r' eq_refl). reflexivity.
  - cbn in Hf. apply andb_true_iff in Hf as [Hc Hf].
    rewrite app_cons. cbn [span_digits]. rewrite Hc, IH by assumption. reflexivity.
Qed.

Lemma match_tz_digit w g r : digit_group (S w) g -> match_tz (g +:+ r) = None.
Proof.
  intros [Hl Hd]. destruct g as [|c g]; [discriminate|].
  cbn in Hd. apply andb_true_iff in Hd as [Hc _].
  rewrite app_cons. unfold match_tz.
  destruct (digit_not_sign c Hc) as (-> & -> & _). reflexivity.
Qed.

Lemma validate_date_ok y m d : valid_date y m d -> _validate_date y m d = Ok tt.
Proof.
  intros (Hy & Hm & Hd). unfold _validate_date, datetime.check_date,
    datetime.MINYEAR, datetime.MAXYEAR.
  assert (datetime.days_in_month y m <= 31) as Hdim.
  { unfold datetime.days_in_month.
    repeat match goal with |- context [if ?b then _ else _] => destruct b end; lia. }
  repeat match goal with
         | |- context [?a <=? ?b] => destruct (Z.leb_spec a b); try lia
         end.
  reflexivity.
Qed.

Lemma validate_time_ok h mi s : valid_time h mi s -> _validate_time h mi s = Ok tt.
Proof.
  intros (Hh & Hm & Hs). unfold _validate_time.
  repeat match goal with
         | |- context [?a <=? ?b] => destruct (Z.leb_spec a b); try lia
         end.
  reflexivity.
Qed.

(** On a non-empty run of digits the guard and the [strip] of
    [parse_hl7_timestamp] do nothing. *)
Lemma parse_hl7_timestamp_digits value assume_utc :
  forall_chars (fun c => negb (isspace c)) value = true ->
  value <> EmptyString ->
  parse_hl7_timestamp value assume_utc =
  match first_match HL7_TIMESTAMP_PATTERNS value with
  | Some (groups, ft) =>
      let* iso := _convert_matched_timestamp value groups ft assume_utc in
      Ok (Some iso)
  | None =>
      Raise (InvalidTimestampError value
               "does not match any known HL7 timestamp format")
  end.
Proof.
  intros Hb Hne. unfold parse_hl7_timestamp.
  rewrite strip_no_blank by assumption.
  apply truthy_true in Hne. rewrite Hne. reflexivity.
Qed.

Lemma take_digits_empty w : take_digits (S w) EmptyString = None.
Proof. reflexivity. Qed.

Lemma match_tz_empty : match_tz EmptyString = None.
Proof. reflexivity. Qed.

Lemma match_fraction_empty : match_fraction EmptyString = None.
Proof. reflexivity. Qed.

Lemma match_fraction_digit w g r : digit_group (S w) g -> match_fraction (g +:+ r) = None.
Proof.
  intros [Hl Hd]. destruct g as [|c g]; [discriminate|].
  cbn in Hd. apply andb_true_iff in Hd as [Hc _].
  rewrite app_cons. unfold match_fraction.
  destruct (digit_not_sign c Hc) as (_ & _ & Hdot & _).
  apply Ascii.eqb_neq in Hdot.
  destruct c as [[] [] [] [] [] [] [] []]; try reflexivity. congruence.
Qed.

(** Walks the pattern table on a subject written as a concatenation of
    digit groups ending in the empty string. *)
Ltac walk_table :=
  repeat first
    [ rewrite take_digits_app by assumption
    | rewrite take_digits_empty
    | match goal with
      | H : digit_group (S _) ?g |- context [match_tz (?g +:+ ?r)] =>
          rewrite (match_tz_digit _ g r H)
      | H : digit_group (S _) ?g |- context [match_fraction (?g +:+ ?r)] =>
          rewrite (match_fraction_digit _ g r H)
      end
    | rewrite match_tz_empty
    | rewrite match_fraction_empty
    | progress unfold re_match
    | progress cbn [first_match digit_groups fraction_group tz_group
                    match_digit_groups List.app] ].

Ltac digits_hyps :=
  repeat match goal with
         | H : digit_group _ _ |- _ => destruct H as [? ?]
         end.

Lemma group_no_blank w g :
  digit_group w g -> forall_chars (fun c => negb (isspace c)) g = true.
Proof. intros [_ H]. apply digits_no_blank, H. Qed.

Lemma int_of_group w g : digit_group (S w) g -> int g = Ok (value_of g).
Proof.
  intros H. apply int_group; [apply H | eapply digit_group_nonempty, H].
Qed.

Lemma app_nonempty_l (a b : string) : a <> EmptyString -> a +:+ b <> EmptyString.
Proof. destruct a; [congruence | discriminate]. Qed.

Ltac no_blank_goal :=
  repeat rewrite forall_chars_app;
  repeat match goal with
         | H : digit_group _ ?g |- context [forall_chars _ ?g] =>
             rewrite (group_no_blank _ _ H)
         end;
  reflexivity.

Ltac nonempty_goal :=
  first [ apply app_nonempty_l | idtac ];
  match goal with
  | H : digit_group (S _) ?g |- ?g <> EmptyString => exact (digit_group_nonempty _ _ H)
  end.

(** Runs the [try] block of [_convert_matched_timestamp] on groups whose
    digit runs are known. *)
Ltac run_convert :=
  unfold _convert_matched_timestamp, convert_body, take_first;
  cbn [firstn ints bind];
  repeat match goal with
         | |- context [getitem ?l ?i] =>
             let r := eval vm_compute in (getitem l i) in
             change (getitem l i) with r; cbn [bind]
         | H : digit_group (S _) ?g |- context [int ?g] =>
             rewrite (int_of_group _ _ H); cbn [bind ints]
         end;
  cbn [unpack4 unpack5 unpack6 bind];
  repeat first [ rewrite validate_date_ok by assumption
               | rewrite validate_time_ok by assumption ];
  cbn [bind]; unfold fmt_date;
  repeat rewrite format_0d_value by assumption.

Ltac solve_precision Hm :=
  rewrite parse_hl7_timestamp_digits by (first [no_blank_goal | nonempty_goal]);
  rewrite app_empty_r in Hm; rewrite Hm;
  run_convert; repeat rewrite app_assoc_str; reflexivity.

Lemma year_precision Y assume_utc :
  digit_group 4 Y ->
  parse_hl7_timestamp Y assume_utc = Ok (Some Y).
Proof.
  intros HY.
  assert (first_match HL7_TIMESTAMP_PATTERNS (Y +:+ "") = Some ([Y], ft_year)) as Hm.
  { unfold HL7_TIMESTAMP_PATTERNS. walk_table. reflexivity. }
  solve_precision Hm.
Qed.

Lemma month_precision Y M assume_utc :
  digit_group 4 Y -> digit_group 2 M ->
  parse_hl7_timestamp (Y +:+ M) assume_utc = Ok (Some (Y +:+ "-" +:+ M)).
Proof.
  intros HY HM.
  assert (first_match HL7_TIMESTAMP_PATTERNS (Y +:+ M +:+ "")
          = Some ([Y; M], ft_month)) as Hm.
  { unfold HL7_TIMESTAMP_PATTERNS. walk_table. reflexivity. }
  solve_precision Hm.
Qed.

Lemma date_precision Y M D assume_utc :
  digit_group 4 Y -> digit_group 2 M -> digit_group 2 D ->
  valid_date (value_of Y) (value_of M) (value_of D) ->
  parse_hl7_timestamp (Y +:+ M +:+ D) assume_utc
  = Ok (Some (Y +:+ "-" +:+ M +:+ "-" +:+ D)).
Proof.
  intros HY HM HD Hdate.
  assert (first_match HL7_TIMESTAMP_PATTERNS (Y +:+ M +:+ D +:+ "")
          = Some ([Y; M; D], ft_date)) as Hm.
  { unfold HL7_TIMESTAMP_PATTERNS. walk_table. reflexivity. }
  solve_precision Hm.
Qed.

Lemma hours_precision Y M D h assume_utc :
  digit_group 4 Y -> digit_group 2 M -> digit_group 2 D -> digit_group 2 h ->
  valid_date (value_of Y) (value_of M) (value_of D) ->
  valid_time (value_of h) 0 0 ->
  parse_hl7_timestamp (Y +:+ M +:+ D +:+ h) assume_utc
  = Ok (Some (Y +:+ "-" +:+ M +:+ "-" +:+ D +:+ "T" +:+ h +:+ ":00:00"
              +:+ tz_suffix_of assume_utc)).
Proof.
  intros HY HM HD Hh Hdate Htime.
  assert (first_match HL7_TIMESTAMP_PATTERNS (Y +:+ M +:+ D +:+ h +:+ "")
          = Some ([Y; M; D; h], ft_hours)) as Hm.
  { unfold HL7_TIMESTAMP_PATTERNS. walk_table. reflexivity. }
  solve_precision Hm.
Qed.

Lemma minutes_precision Y M D h mi assume_utc :
  digit_group 4 Y -> digit_group 2 M -> digit_group 2 D ->
  digit_group 2 h -> digit_group 2 mi ->
  valid_date (value_of Y) (value_of M) (value_of D) ->
  valid_time (value_of h) (value_of mi) 0 ->
  parse_hl7_timestamp (Y +:+ M +:+ D +:+ h +:+ mi) assume_utc
  = Ok (Some (Y +:+ "-" +:+ M +:+ "-" +:+ D +:+ "T" +:+ h +:+ ":" +:+ mi
              +:+ ":00" +:+ tz_suffix_of assume_utc)).
Proof.
  intros HY HM HD Hh Hmi Hdate Htime.
  assert (first_match HL7_TIMESTAMP_PATTERNS (Y +:+ M +:+ D +:+ h +:+ mi +:+ "")
          = Some ([Y; M; D; h; mi], ft_minutes)) as Hm.
  { unfold HL7_TIMESTAMP_PATTERNS. walk_table. reflexivity. }
  solve_precision Hm.
Qed.

Lemma full_precision Y M D h mi s assume_utc :
  digit_group 4 Y -> digit_group 2 M -> digit_group 2 D ->
  digit_group 2 h -> digit_group 2 mi -> digit_group 2 s ->
  valid_date (value_of Y) (value_of M) (value_of D) ->
  valid_time (value_of h) (value_of mi) (value_of s) ->
  parse_hl7_timestamp (Y +:+ M +:+ D +:+ h +:+ mi +:+ s) assume_utc
  = Ok (Some (Y +:+ "-" +:+ M +:+ "-" +:+ D +:+ "T" +:+ h +:+ ":" +:+ mi
              +:+ ":" +:+ s +:+ tz_suffix_of assume_utc)).
Proof.
  intros HY HM HD Hh Hmi Hs Hdate Htime.
  assert (first_match HL7_TIMESTAMP_PATTERNS
            (Y +:+ M +:+ D +:+ h +:+ mi +:+ s +:+ "")
          = Some ([Y; M; D; h; mi; s], ft_full)) as Hm.
  { unfold HL7_TIMESTAMP_PATTERNS. walk_table. reflexivity. }
  solve_precision Hm.
Qed.

Lemma match_fraction_dot r :
  match_fraction ("." +:+ r)
  = let '(g, r') := span_digits r in if truthy g then Some (g, r') else None.
Proof. reflexivity. Qed.

Lemma match_tz_dot r : match_tz ("." +:+ r) = None.
Proof. reflexivity. Qed.

Lemma match_tz_sign sign hhmm r :
  sign = "+"%char \/ sign = "-"%char -> digit_group 4 hhmm ->
  match_tz (String sign hhmm +:+ r) = Some (String sign hhmm, r).
Proof.
  intros Hs Hz. rewrite app_cons. unfold match_tz.
  rewrite (take_digits_app 4 hhmm r Hz).
  destruct Hs as [-> | ->]; reflexivity.
Qed.

Lemma match_fraction_sign sign r :
  sign = "+"%char \/ sign = "-"%char -> match_fraction (String sign r) = None.
Proof. intros [-> | ->]; reflexivity. Qed.

Lemma take_digits_sign w sign r :
  sign = "+"%char \/ sign = "-"%char -> take_digits (S w) (String sign r) = None.
Proof. intros [-> | ->]; reflexivity. Qed.

Lemma fraction_then_end f :
  fraction_digits f ->
  match_fraction ("." +:+ f +:+ "") = Some (f, EmptyString).
Proof.
  intros [Hne Hd]. rewrite match_fraction_dot.
  rewrite span_digits_app by (assumption || discriminate).
  apply truthy_true in Hne. rewrite Hne. reflexivity.
Qed.

Lemma fraction_then_sign f sign hhmm r :
  fraction_digits f -> sign = "+"%char \/ sign = "-"%char ->
  match_fraction ("." +:+ f +:+ String sign hhmm +:+ r)
  = Some (f, String sign hhmm +:+ r).
Proof.
  intros [Hne Hd] Hs. rewrite match_fraction_dot.
  rewrite span_digits_app; [|assumption|].
  - apply truthy_true in Hne. rewrite Hne. reflexivity.
  - intros c r' Heq. rewrite app_cons in Heq. injection Heq as <- _.
    destruct Hs as [-> | ->]; reflexivity.
Qed.

Lemma sign_no_blank sign :
  sign = "+"%char \/ sign = "-"%char -> isspace sign = false.
Proof. intros [-> | ->]; reflexivity. Qed.

Lemma match_fraction_sign_app sign hhmm r :
  sign = "+"%char \/ sign = "-"%char -> match_fraction (String sign hhmm +:+ r) = None.
Proof. intros H. rewrite app_cons. apply match_fraction_sign, H. Qed.

Lemma take_digits_sign_app w sign hhmm r :
  sign = "+"%char \/ sign = "-"%char ->
  take_digits (S w) (String sign hhmm +:+ r) = None.
Proof. intros H. rewrite app_cons. apply take_digits_sign, H. Qed.

(** The table walk when the subject ends in a fraction, an offset, or
    both. *)
Ltac walk_suffix :=
  repeat first
    [ rewrite take_digits_app by assumption
    | rewrite take_digits_empty
    | rewrite take_digits_sign_app by assumption
    | rewrite match_tz_sign by assumption
    | rewrite match_fraction_sign_app by assumption
    | rewrite fraction_then_sign by assumption
    | rewrite fraction_then_end by assumption
    | rewrite match_tz_dot
    | rewrite match_tz_empty
    | rewrite match_fraction_empty
    | match goal with
      | H : digit_group (S _) ?g |- context [match_tz (?g +:+ ?r)] =>
          rewrite (match_tz_digit _ g r H)
      | H : digit_group (S _) ?g |- context [match_fraction (?g +:+ ?r)] =>
          rewrite (match_fraction_digit _ g r H)
      end
    | progress unfold re_match
    | progress cbn [first_match digit_groups fraction_group tz_group
                    match_digit_groups List.app] ].

Ltac no_blank_suffix :=
  repeat rewrite forall_chars_app;
  repeat match goal with
         | H : digit_group _ ?g |- context [forall_chars _ ?g] =>
             rewrite (group_no_blank _ _ H)
         | H : forall_chars is_digit ?g = true |- context [forall_chars _ ?g] =>
             rewrite (digits_no_blank _ H)
         end;
  cbn [forall_chars];
  repeat match goal with
         | H : _ = "+"%char \/ _ = "-"%char |- _ =>
             rewrite (sign_no_blank _ H)
         | H : digit_group _ ?g |- context [forall_chars _ ?g] =>
             rewrite (group_no_blank _ _ H)
         end;
  reflexivity.

Ltac solve_suffix Hm :=
  rewrite parse_hl7_timestamp_digits by (first [no_blank_suffix | nonempty_goal]);
  rewrite app_empty_r in Hm; rewrite Hm;
  run_convert; repeat rewrite app_assoc_str; reflexivity.

Lemma full_with_tz_accepted Y M D h mi s sign hhmm assume_utc :
  digit_group 4 Y -> digit_group 2 M -> digit_group 2 D ->
  digit_group 2 h -> digit_group 2 mi -> digit_group 2 s ->
  sign = "+"%char \/ sign = "-"%char -> digit_group 4 hhmm ->
  valid_date (value_of Y) (value_of M) (value_of D) ->
  valid_time (value_of h) (value_of mi) (value_of s) ->
  parse_hl7_timestamp (Y +:+ M +:+ D +:+ h +:+ mi +:+ s +:+ String sign hhmm)
    assume_utc
  = Ok (Some (Y +:+ "-" +:+ M +:+ "-" +:+ D +:+ "T" +:+ h +:+ ":" +:+ mi
              +:+ ":" +:+ s +:+ _convert_tz_offset (String sign hhmm))).
Proof.
  intros HY HM HD Hh Hmi Hs Hsign Hz Hdate Htime.
  assert (first_match HL7_TIMESTAMP_PATTERNS
            (Y +:+ M +:+ D +:+ h +:+ mi +:+ s +:+ String sign hhmm +:+ "")
          = Some ([Y; M; D; h; mi; s; String sign hhmm], ft_full_with_tz)) as Hm.
  { unfold HL7_TIMESTAMP_PATTERNS. walk_suffix. reflexivity. }
  solve_suffix Hm.
Qed.

Lemma minutes_with_tz_accepted Y M D h mi sign hhmm assume_utc :
  digit_group 4 Y -> digit_group 2 M -> digit_group 2 D ->
  digit_group 2 h -> digit_group 2 mi ->
  sign = "+"%char \/ sign = "-"%char -> digit_group 4 hhmm ->
  valid_date (value_of Y) (value_of M) (value_of D) ->
  valid_time (value_of h) (value_of mi) 0 ->
  parse_hl7_timestamp (Y +:+ M +:+ D +:+ h +:+ mi +:+ String sign hhmm)
    assume_utc
  = Ok (Some (Y +:+ "-" +:+ M +:+ "-" +:+ D +:+ "T" +:+ h +:+ ":" +:+ mi
              +:+ ":00" +:+ _convert_tz_offset (String sign hhmm))).
Proof.
  intros HY HM HD Hh Hmi Hsign Hz Hdate Htime.
  assert (first_match HL7_TIMESTAMP_PATTERNS
            (Y +:+ M +:+ D +:+ h +:+ mi +:+ String sign hhmm +:+ "")
          = Some ([Y; M; D; h; mi; String sign hhmm], ft_minutes_with_tz)) as Hm.
  { unfold HL7_TIMESTAMP_PATTERNS. walk_suffix. reflexivity. }
  solve_suffix Hm.
Qed.

Lemma full_with_fraction_accepted Y M D h mi s f assume_utc :
  digit_group 4 Y -> digit_group 2 M -> digit_group 2 D ->
  digit_group 2 h -> digit_group 2 mi -> digit_group 2 s ->
  fraction_digits f ->
  valid_date (value_of Y) (value_of M) (value_of D) ->
  valid_time (value_of h) (value_of mi) (value_of s) ->
  parse_hl7_timestamp (Y +:+ M +:+ D +:+ h +:+ mi +:+ s +:+ "." +:+ f) assume_utc
  = Ok (Some (Y +:+ "-" +:+ M +:+ "-" +:+ D +:+ "T" +:+ h +:+ ":" +:+ mi
              +:+ ":" +:+ s +:+ "." +:+ ljust (slice f 0 3) 3 "0"%char
              +:+ tz_suffix_of assume_utc)).
Proof.
  intros HY HM HD Hh Hmi Hs Hf Hdate Htime.
  assert (first_match HL7_TIMESTAMP_PATTERNS
            (Y +:+ M +:+ D +:+ h +:+ mi +:+ s +:+ "." +:+ f +:+ "")
          = Some ([Y; M; D; h; mi; s; f], ft_full_with_fraction)) as Hm.
  { unfold HL7_TIMESTAMP_PATTERNS. walk_suffix. reflexivity. }
  destruct Hf as [Hfne Hfd].
  solve_suffix Hm.
Qed.

Lemma full_with_tz_fraction_accepted Y M D h mi s f sign hhmm assume_utc :
  digit_group 4 Y -> digit_group 2 M -> digit_group 2 D ->
  digit_group 2 h -> digit_group 2 mi -> digit_group 2 s ->
  fraction_digits f ->
  sign = "+"%char \/ sign = "-"%char -> digit_group 4 hhmm ->
  valid_date (value_of Y) (value_of M) (value_of D) ->
  valid_time (value_of h) (value_of mi) (value_of s) ->
  parse_hl7_timestamp
    (Y +:+ M +:+ D +:+ h +:+ mi +:+ s +:+ "." +:+ f +:+ String sign hhmm)
    assume_utc
  = Ok (Some (Y +:+ "-" +:+ M +:+ "-" +:+ D +:+ "T" +:+ h +:+ ":" +:+ mi
              +:+ ":" +:+ s +:+ "." +:+ ljust (slice f 0 3) 3 "0"%char
              +:+ _convert_tz_offset (String sign hhmm))).
Proof.
  intros HY HM HD Hh Hmi Hs Hf Hsign Hz Hdate Htime.
  assert (first_match HL7_TIMESTAMP_PATTERNS
            (Y +:+ M +:+ D +:+ h +:+ mi +:+ s +:+ "." +:+ f
             +:+ String sign hhmm +:+ "")
          = Some ([Y; M; D; h; mi; s; f; String sign hhmm],
                  ft_full_with_tz_fraction)) as Hm.
  { unfold HL7_TIMESTAMP_PATTERNS. walk_suffix. reflexivity. }
  destruct Hf as [Hfne Hfd].
  solve_suffix Hm.
Qed.

(** What [match_digit_groups] consumed is a run of digits. *)
Lemma take_digits_inv w : forall s g r,
  take_digits w s = Some (g, r) -> s = g +:+ r /\ forall_chars is_digit g = true.
Proof.
  induction w as [|w IH]; intros s g r H.
  - cbn in H. injection H as <- <-. split; reflexivity.
  - cbn [take_digits] in H. destruct s as [|c s]; [discriminate|].
    destruct (is_digit c) eqn:Hc; [|discriminate].
    destruct (take_digits w s) as [[g' r']|] eqn:Ht; [|discriminate].
    injection H as <- <-. destruct (IH _ _ _ Ht) as [-> Hg].
    split; [reflexivity|]. cbn. rewrite Hc, Hg. reflexivity.
Qed.

Lemma match_digit_groups_inv ws : forall s gs r,
  match_digit_groups ws s = Some (gs, r) ->
  exists d, s = d +:+ r /\ forall_chars is_digit d = true.
Proof.
  induction ws as [|w ws IH]; intros s gs r H.
  - cbn in H. injection H as <- <-. exists EmptyString. split; reflexivity.
  - cbn [match_digit_groups] in H.
    destruct (take_digits w s) as [[g r1]|] eqn:Ht; [|discriminate].
    destruct (match_digit_groups ws r1) as [[gs' r2]|] eqn:Hm; [|discriminate].
    injection H as <- <-.
    destruct (take_digits_inv _ _ _ _ Ht) as [-> Hg].
    destruct (IH _ _ _ Hm) as (d & -> & Hd).
    exists (g +:+ d). split.
    + symmetry. apply app_assoc_str.
    + rewrite forall_chars_app, Hg, Hd. reflexivity.
Qed.

(** A pattern without fraction and offset only matches runs of digits. *)
Lemma re_match_plain_nondigit ws value :
  forall_chars is_digit value = false ->
  re_match (Pattern ws false false) value = None.
Proof.
  intros Hv. unfold re_match. cbn [digit_groups fraction_group tz_group].
  destruct (match_digit_groups ws value) as [[gs r]|] eqn:Hm; [|reflexivity].
  destruct r; [|reflexivity].
  destruct (match_digit_groups_inv _ _ _ _ Hm) as (d & -> & Hd).
  rewrite app_empty_r in Hv. congruence.
Qed.

Lemma take_digits_dot w r : take_digits (S w) ("." +:+ r) = None.
Proof. reflexivity. Qed.

Ltac has_dot :=
  repeat rewrite forall_chars_app;
  repeat match goal with
         | H : digit_group _ ?g |- context [forall_chars is_digit ?g] =>
             rewrite (proj2 H)
         end;
  reflexivity.

Ltac walk_dot :=
  repeat first
    [ rewrite re_match_plain_nondigit by has_dot
    | rewrite take_digits_app by assumption
    | rewrite take_digits_dot
    | rewrite match_tz_dot
    | progress unfold re_match
    | progress cbn [first_match digit_groups fraction_group tz_group
                    match_digit_groups List.app] ].

Ltac no_blank_dot Hrest :=
  repeat rewrite forall_chars_app;
  repeat match goal with
         | H : digit_group _ ?g |- context [forall_chars _ ?g] =>
             rewrite (group_no_blank _ _ H)
         end;
  rewrite Hrest; reflexivity.

Ltac solve_rejected Hrest :=
  rewrite parse_hl7_timestamp_digits
    by (first [no_blank_dot Hrest | nonempty_goal]);
  unfold HL7_TIMESTAMP_PATTERNS; walk_dot; reflexivity.

(** A decimal point after fewer than fourteen digits matches no
    pattern, whatever follows it. *)
Lemma fraction_after_year_rejected Y rest assume_utc :
  digit_group 4 Y ->
  forall_chars (fun c => negb (isspace c)) rest = true ->
  parse_hl7_timestamp (Y +:+ "." +:+ rest) assume_utc
  = Raise (InvalidTimestampError (Y +:+ "." +:+ rest)
             "does not match any known HL7 timestamp format").
Proof. intros HY Hrest. solve_rejected Hrest. Qed.

Lemma fraction_after_month_rejected Y M rest assume_utc :
  digit_group 4 Y -> digit_group 2 M ->
  forall_chars (fun c => negb (isspace c)) rest = true ->
  parse_hl7_timestamp (Y +:+ M +:+ "." +:+ rest) assume_utc
  = Raise (InvalidTimestampError (Y +:+ M +:+ "." +:+ rest)
             "does not match any known HL7 timestamp format").
Proof. intros HY HM Hrest. solve_rejected Hrest. Qed.

Lemma fraction_after_date_rejected Y M D rest assume_utc :
  digit_group 4 Y -> digit_group 2 M -> digit_group 2 D ->
  forall_chars (fun c => negb (isspace c)) rest = true ->
  parse_hl7_timestamp (Y +:+ M +:+ D +:+ "." +:+ rest) assume_utc
  = Raise (InvalidTimestampError (Y +:+ M +:+ D +:+ "." +:+ rest)
             "does not match any known HL7 timestamp format").
Proof. intros HY HM HD Hrest. solve_rejected Hrest. Qed.

Lemma fraction_after_hours_rejected Y M D h rest assume_utc :
  digit_group 4 Y -> digit_group 2 M -> digit_group 2 D -> digit_group 2 h ->
  forall_chars (fun c => negb (isspace c)) rest = true ->
  parse_hl7_timestamp (Y +:+ M +:+ D +:+ h +:+ "." +:+ rest) assume_utc
  = Raise (InvalidTimestampError (Y +:+ M +:+ D +:+ h +:+ "." +:+ rest)
             "does not match any known HL7 timestamp format").
Proof. intros HY HM HD Hh Hrest. solve_rejected Hrest. Qed.

Lemma fraction_after_minutes_rejected Y M D h mi rest assume_utc :
  digit_group 4 Y -> digit_group 2 M -> digit_group 2 D ->
  digit_group 2 h -> digit_group 2 mi ->
  forall_chars (fun c => negb (isspace c)) rest = true ->
  parse_hl7_timestamp (Y +:+ M +:+ D +:+ h +:+ mi +:+ "." +:+ rest) assume_utc
  = Raise (InvalidTimestampError (Y +:+ M +:+ D +:+ h +:+ mi +:+ "." +:+ rest)
             "does not match any known HL7 timestamp format").
Proof. intros HY HM HD Hh Hmi Hrest. solve_rejected Hrest. Qed.

End TimestampFacts.

(** C1.  At each of the six precision levels the normalizer returns the
    input's own digit groups at exactly that granularity: [YYYY];
    [YYYY-MM]; [YYYY-MM-DD] for a calendar-valid date; the date plus
    [THH:00:00] for a valid hour; plus [THH:MM:00] for a valid hour and
    minute; and the full [YYYY-MM-DDTHH:MM:SS] for a valid time.  A
    result with a time part ends with the UTC designator [Z] exactly when
    the caller asked for the UTC assumption, and nothing else is added. *)
Theorem C1_precision_levels (Y M D h mi s : string) (assume_utc : bool) :
  Spec.digit_group 4 Y -> Spec.digit_group 2 M -> Spec.digit_group 2 D ->
  Spec.digit_group 2 h -> Spec.digit_group 2 mi -> Spec.digit_group 2 s ->
  timestamps.parse_hl7_timestamp Y assume_utc = Ok (Some Y)
  /\ timestamps.parse_hl7_timestamp (Y +:+ M) assume_utc
     = Ok (Some (Y +:+ "-" +:+ M))
  /\ (Spec.valid_date (Spec.value_of Y) (Spec.value_of M) (Spec.value_of D) ->
      timestamps.parse_hl7_timestamp (Y +:+ M +:+ D) assume_utc
      = Ok (Some (Y +:+ "-" +:+ M +:+ "-" +:+ D))
      /\ (Spec.valid_time (Spec.value_of h) 0 0 ->
          timestamps.parse_hl7_timestamp (Y +:+ M +:+ D +:+ h) assume_utc
          = Ok (Some (Y +:+ "-" +:+ M +:+ "-" +:+ D +:+ "T" +:+ h +:+ ":00:00"
                      +:+ timestamps.tz_suffix_of assume_utc)))
      /\ (Spec.valid_time (Spec.value_of h) (Spec.value_of mi) 0 ->
          timestamps.parse_hl7_timestamp (Y +:+ M +:+ D +:+ h +:+ mi) assume_utc
          = Ok (Some (Y +:+ "-" +:+ M +:+ "-" +:+ D +:+ "T" +:+ h +:+ ":" +:+ mi
                      +:+ ":00" +:+ timestamps.tz_suffix_of assume_utc)))
      /\ (Spec.valid_time (Spec.value_of h) (Spec.value_of mi) (Spec.value_of s) ->
          timestamps.parse_hl7_timestamp (Y +:+ M +:+ D +:+ h +:+ mi +:+ s) assume_utc
          = Ok (Some (Y +:+ "-" +:+ M +:+ "-" +:+ D +:+ "T" +:+ h +:+ ":" +:+ mi
                      +:+ ":" +:+ s +:+ timestamps.tz_suffix_of assume_utc)))).
Proof.
  intros HY HM HD Hh Hmi Hs.
  split; [apply year_precision; assumption|].
  split; [apply month_precision; assumption|].
  intros Hdate.
  split; [apply date_precision; assumption|].
  split; [intros Ht; apply hours_precision; assumption|].
  split; [intros Ht; apply minutes_precision; assumption|].
  intros Ht; apply full_precision; assumption.
Qed.

Lemma C1_precision_levels_witness :
  timestamps.parse_hl7_timestamp "2025" true = Ok (Some "2025")
  /\ timestamps.parse_hl7_timestamp "202505" true = Ok (Some "2025-05")
  /\ timestamps.parse_hl7_timestamp "20250502" true = Ok (Some "2025-05-02")
  /\ timestamps.parse_hl7_timestamp "2025050213" false
     = Ok (Some "2025-05-02T13:00:00")
  /\ timestamps.parse_hl7_timestamp "202505021307" false
     = Ok (Some "2025-05-02T13:07:00")
  /\ timestamps.parse_hl7_timestamp "20250502130745" false
     = Ok (Some "2025-05-02T13:07:45").
Proof.
  assert (Spec.valid_date (Spec.value_of "2025") (Spec.value_of "05")
            (Spec.value_of "02")) as Hdate
    by (vm_compute; repeat split; discriminate).
  assert (Spec.valid_time (Spec.value_of "13") (Spec.value_of "07")
            (Spec.value_of "45")) as Htime
    by (vm_compute; repeat split; discriminate).
  assert (Spec.valid_time (Spec.value_of "13") (Spec.value_of "07") 0) as Htime1
    by (vm_compute; repeat split; discriminate).
  assert (Spec.valid_time (Spec.value_of "13") 0 0) as Htime0
    by (vm_compute; repeat split; discriminate).
  destruct (C1_precision_levels "2025" "05" "02" "13" "07" "45" true)
    as (H1 & H2 & H3); try (split; reflexivity).
  destruct (C1_precision_levels "2025" "05" "02" "13" "07" "45" false)
    as (_ & _ & H4); try (split; reflexivity).
  destruct (H3 Hdate) as (H5 & _).
  destruct (H4 Hdate) as (_ & H6 & H7 & H8).
  exact (conj H1 (conj H2 (conj H5 (conj (H6 Htime0) (conj (H7 Htime1) (H8 Htime)))))).
Defined.

(** C2, as stated, fails: a fraction after ten digits is not accepted. *)
Lemma C2_fraction_after_hours_counterexample :
  Spec.digit_group 10 "2025050213"
  /\ Spec.fraction_digits "5"
  /\ timestamps.parse_hl7_timestamp "2025050213.5" true
     = Raise (InvalidTimestampError "2025050213.5"
                "does not match any known HL7 timestamp format")
  /\ ~ Spec.accepted "2025050213.5" true.
Proof.
  split; [split; reflexivity|].
  split; [split; [discriminate | reflexivity]|].
  split; [reflexivity|].
  intros [iso H]. vm_compute in H. discriminate.
Qed.

(** C2, amended.  The normalizer accepts: every digit string of length 4
    or 6; every calendar-valid digit string of length 8, and of length
    10, 12 or 14 with a valid time; a valid 14-digit string followed by a
    decimal point and at least one fraction digit; and a valid 12- or
    14-digit string, the latter with or without its fraction, followed by
    a [+HHMM] or [-HHMM] offset.  A decimal point after 4, 6, 8, 10 or 12
    digits is rejected with [InvalidTimestampError]. *)
Theorem C2_accepted_forms (Y M D h mi s f z rest : string) (assume_utc : bool) :
  Spec.digit_group 4 Y -> Spec.digit_group 2 M -> Spec.digit_group 2 D ->
  Spec.digit_group 2 h -> Spec.digit_group 2 mi -> Spec.digit_group 2 s ->
  Spec.fraction_digits f -> Spec.tz_offset z ->
  Py.forall_chars (fun c => negb (Py.isspace c)) rest = true ->
  (Spec.accepted Y assume_utc
   /\ Spec.accepted (Y +:+ M) assume_utc
   /\ (Spec.valid_date (Spec.value_of Y) (Spec.value_of M) (Spec.value_of D) ->
       Spec.accepted (Y +:+ M +:+ D) assume_utc
       /\ (Spec.valid_time (Spec.value_of h) 0 0 ->
           Spec.accepted (Y +:+ M +:+ D +:+ h) assume_utc)
       /\ (Spec.valid_time (Spec.value_of h) (Spec.value_of mi) 0 ->
           Spec.accepted (Y +:+ M +:+ D +:+ h +:+ mi) assume_utc
           /\ Spec.accepted (Y +:+ M +:+ D +:+ h +:+ mi +:+ z) assume_utc)
       /\ (Spec.valid_time (Spec.value_of h) (Spec.value_of mi) (Spec.value_of s) ->
           Spec.accepted (Y +:+ M +:+ D +:+ h +:+ mi +:+ s) assume_utc
           /\ Spec.accepted (Y +:+ M +:+ D +:+ h +:+ mi +:+ s +:+ z) assume_utc
           /\ Spec.accepted (Y +:+ M +:+ D +:+ h +:+ mi +:+ s +:+ "." +:+ f)
                assume_utc
           /\ Spec.accepted
                (Y +:+ M +:+ D +:+ h +:+ mi +:+ s +:+ "." +:+ f +:+ z)
                assume_utc)))
  /\ (forall value,
        value = Y +:+ "." +:+ rest
        \/ value = Y +:+ M +:+ "." +:+ rest
        \/ value = Y +:+ M +:+ D +:+ "." +:+ rest
        \/ value = Y +:+ M +:+ D +:+ h +:+ "." +:+ rest
        \/ value = Y +:+ M +:+ D +:+ h +:+ mi +:+ "." +:+ rest ->
        timestamps.parse_hl7_timestamp value assume_utc
        = Raise (InvalidTimestampError value
                   "does not match any known HL7 timestamp format")).
Proof.
  intros HY HM HD Hh Hmi Hs Hf (sign & hhmm & -> & Hsign & Hz) Hrest.
  split.
  - split; [eexists; apply year_precision; assumption|].
    split; [eexists; apply month_precision; assumption|].
    intros Hdate.
    split; [eexists; apply date_precision; assumption|].
    split; [intros Ht; eexists; apply hours_precision; assumption|].
    split.
    + intros Ht. split; eexists.
      * apply minutes_precision; assumption.
      * apply minutes_with_tz_accepted; assumption.
    + intros Ht. repeat split; eexists.
      * apply full_precision; assumption.
      * apply full_with_tz_accepted; assumption.
      * apply full_with_fraction_accepted; assumption.
      * apply full_with_tz_fraction_accepted; assumption.
  - intros value [-> | [-> | [-> | [-> | ->]]]].
    + apply fraction_after_year_rejected; assumption.
    + apply fraction_after_month_rejected; assumption.
    + apply fraction_after_date_rejected; assumption.
    + apply fraction_after_hours_rejected; assumption.
    + apply fraction_after_minutes_rejected; assumption.
Qed.

Lemma C2_accepted_forms_witness :
  Spec.accepted "20250502130745.1234+0500" true
  /\ Spec.accepted "202505021307-0800" false
  /\ timestamps.parse_hl7_timestamp "202505.5" true
     = Raise (InvalidTimestampError "202505.5"
                "does not match any known HL7 timestamp format").
Proof.
  assert (Spec.tz_offset "+0500") as Hz1
    by (exists "+"%char, "0500"; repeat split; auto).
  assert (Spec.tz_offset "-0800") as Hz2
    by (exists "-"%char, "0800"; repeat split; auto).
  assert (Spec.fraction_digits "1234") as Hf
    by (split; [discriminate | reflexivity]).
  assert (Spec.valid_date (Spec.value_of "2025") (Spec.value_of "05")
            (Spec.value_of "02")) as Hdate
    by (vm_compute; repeat split; discriminate).
  assert (Spec.valid_time (Spec.value_of "13") (Spec.value_of "07")
            (Spec.value_of "45")) as Htime
    by (vm_compute; repeat split; discriminate).
  assert (Spec.valid_time (Spec.value_of "13") (Spec.value_of "07") 0) as Htime1
    by (vm_compute; repeat split; discriminate).
  destruct (C2_accepted_forms "2025" "05" "02" "13" "07" "45" "1234" "+0500" "5"
              true) as ((_ & _ & H1) & H2); try (split; reflexivity); auto.
  destruct (C2_accepted_forms "2025" "05" "02" "13" "07" "45" "1234" "-0800" "5"
              false) as ((_ & _ & H3) & _); try (split; reflexivity); auto.
  destruct (H1 Hdate) as (_ & _ & _ & H4).
  destruct (H3 Hdate) as (_ & _ & H5 & _).
  destruct (H4 Htime) as (_ & _ & _ & H6).
  destruct (H5 Htime1) as (_ & H7).
  exact (conj H6 (conj H7 (H2 "202505.5" (or_intror (or_introl eq_refl))))).
Defined.

(* ===================================================================== *)
(** * Facts about [parser.py] and [tokenizer.py]                         *)
(* ===================================================================== *)

(** C8.  Content that is empty or made of whitespace only gives an empty
    list of results: [parse] does not raise, and it leaves the
    tokenizer's delimiters alone.  The three inputs of the scenario, [""],
    ["   "] and two line feeds, are instances. *)
Theorem C8_blank_content_no_results (strict_mode : bool) (content : string)
    (d : tokenizer.Delimiters) :
  Py.forall_chars Py.isspace content = true ->
  parser.SIUParser.parse strict_mode content d = (d, Ok [])
  /\ parser.parse_hl7_message content strict_mode = Ok [].
Proof.
  intros Hblank.
  assert (forall d', parser.SIUParser.parse strict_mode content d' = (d', Ok [])) as H.
  { intros d'. unfold parser.SIUParser.parse.
    rewrite (strip_blank content Hblank). cbn [Py.truthy negb].
    rewrite orb_true_r. reflexivity. }
  split; [apply H|].
  unfold parser.parse_hl7_message. rewrite H. reflexivity.
Qed.

Lemma C8_blank_content_no_results_witness :
  parser.parse_hl7_message "" false = Ok []
  /\ parser.parse_hl7_message "   " false = Ok []
  /\ parser.parse_hl7_message
       (String "010"%char (String "010"%char EmptyString)) true = Ok [].
Proof.
  exact (conj
    (proj2 (C8_blank_content_no_results false "" tokenizer.Delimiters_new eq_refl))
    (conj
      (proj2 (C8_blank_content_no_results false "   " tokenizer.Delimiters_new eq_refl))
      (proj2 (C8_blank_content_no_results true
                (String "010"%char (String "010"%char EmptyString))
                tokenizer.Delimiters_new eq_refl)))).
Defined.

Section DelimiterFacts.
Import Py Spec tokenizer tokenizer.HL7Tokenizer.

Lemma special_test_char c :
  negb (truthy (String c EmptyString)) || str_isalnum (String c EmptyString)
  || str_isspace (String c EmptyString)
  = isalnum c || isspace c.
Proof.
  unfold str_isalnum, str_isspace. cbn.
  destruct (isalnum c), (isspace c); reflexivity.
Qed.

(** The conflict loop succeeds exactly when the delimiters are pairwise
    different and none is in [chars_used] already. *)
Lemma check_conflicts_cases (l : list (string * string)) :
  forall used : gset string,
    (NoDup (l.*2) /\ (forall x, x ∈ l.*2 -> x ∉ used)
     /\ check_conflicts l used = Ok tt)
    \/ (~ (NoDup (l.*2) /\ (forall x, x ∈ l.*2 -> x ∉ used))
        /\ exists reason,
             check_conflicts l used = Raise (MalformedSegmentError "MSH" reason)).
Proof.
  induction l as [|[name char] l IH]; intros used.
  - left. cbn. split; [constructor|]. split; [|reflexivity].
    intros x Hx. inversion Hx.
  - cbn [check_conflicts fmap list_fmap snd].
    case_bool_decide as Hin.
    + right. split; [|eexists; reflexivity].
      intros [_ Hfresh]. apply (Hfresh char); [left | assumption].
    + destruct (IH (used ∪ {[char]})) as [(Hnd & Hfresh & Hok) | (Hbad & reason & Hr)].
      * left. split; [|split; [|exact Hok]].
        -- apply NoDup_cons. split; [|exact Hnd].
           intros Hc. apply (Hfresh char Hc).
           apply elem_of_union. right. apply elem_of_singleton. reflexivity.
        -- intros x Hx. apply elem_of_cons in Hx as [-> | Hx]; [exact Hin|].
           intros Hu. apply (Hfresh x Hx). apply elem_of_union. left. exact Hu.
      * right. split; [|exists reason; exact Hr].
        intros [Hnd Hfresh]. apply Hbad. apply NoDup_cons in Hnd as [Hnotin Hnd].
        split; [exact Hnd|].
        intros x Hx Hu. apply elem_of_union in Hu as [Hu | Hu].
        -- apply (Hfresh x); [right; exact Hx | exact Hu].
        -- apply elem_of_singleton in Hu as ->. contradiction.
Qed.

Lemma NoDup_one_char (cs : list ascii) :
  NoDup ((fun c => String c EmptyString) <$> cs) <-> NoDup cs.
Proof.
  split.
  - apply NoDup_fmap_1.
  - apply NoDup_fmap_2. intros a b H. injection H as ->. reflexivity.
Qed.

(** Validation of five one-character delimiters succeeds exactly on the
    legal sets, and any failure is a [MalformedSegmentError] on [MSH]. *)
Lemma validate_delimiters_cases c1 c2 c3 c4 c5 :
  (legal_delimiters [c1; c2; c3; c4; c5]
   /\ _validate_delimiters (delimiters_of c1 c2 c3 c4 c5) = Ok tt)
  \/ (~ legal_delimiters [c1; c2; c3; c4; c5]
      /\ exists reason,
           _validate_delimiters (delimiters_of c1 c2 c3 c4 c5)
           = Raise (MalformedSegmentError "MSH" reason)).
Proof.
  unfold _validate_delimiters, delimiters_of, legal_delimiters.
  cbn [field component repetition escape subcomponent check_special].
  rewrite !special_test_char.
  destruct (isalnum c1 || isspace c1) eqn:E1.
  { right. split; [|eexists; reflexivity].
    intros [HF _]. rewrite !Forall_cons in HF. destruct HF as ([Ha Hb] & _).
    rewrite Ha, Hb in E1. discriminate. }
  destruct (isalnum c2 || isspace c2) eqn:E2.
  { right. split; [|eexists; reflexivity].
    intros [HF _]. rewrite !Forall_cons in HF. destruct HF as (_ & [Ha Hb] & _).
    rewrite Ha, Hb in E2. discriminate. }
  destruct (isalnum c3 || isspace c3) eqn:E3.
  { right. split; [|eexists; reflexivity].
    intros [HF _]. rewrite !Forall_cons in HF.
    destruct HF as (_ & _ & [Ha Hb] & _).
    rewrite Ha, Hb in E3. discriminate. }
  destruct (isalnum c4 || isspace c4) eqn:E4.
  { right. split; [|eexists; reflexivity].
    intros [HF _]. rewrite !Forall_cons in HF.
    destruct HF as (_ & _ & _ & [Ha Hb] & _).
    rewrite Ha, Hb in E4. discriminate. }
  destruct (isalnum c5 || isspace c5) eqn:E5.
  { right. split; [|eexists; reflexivity].
    intros [HF _]. rewrite !Forall_cons in HF.
    destruct HF as (_ & _ & _ & _ & [Ha Hb] & _).
    rewrite Ha, Hb in E5. discriminate. }
  apply orb_false_iff in E1 as [A1 S1], E2 as [A2 S2], E3 as [A3 S3],
    E4 as [A4 S4], E5 as [A5 S5].
  cbn [bind].
  match goal with
  | |- context [check_conflicts ?l ∅] =>
      destruct (check_conflicts_cases l ∅) as [(Hnd & _ & Hok) | (Hbad & reason & Hr)]
  end.
  - left. split; [|exact Hok]. split.
    + repeat constructor; assumption.
    + apply NoDup_one_char. exact Hnd.
  - right. split; [|exists reason; exact Hr].
    intros [_ Hnd]. apply Hbad. split.
    + apply (proj2 (NoDup_one_char [c1; c2; c3; c4; c5])). exact Hnd.
    + intros x _ Hx. apply elem_of_empty in Hx. exact Hx.
Qed.

End DelimiterFacts.

(** C9.  For five delimiter characters, validation passes when none is
    alphanumeric or whitespace and all are different, and raises
    [MalformedSegmentError] otherwise; and tokenizing a message whose
    detected delimiters are such an illegal set raises that error. *)
Theorem C9_delimiter_validation (c1 c2 c3 c4 c5 : ascii) :
  let d := Spec.delimiters_of c1 c2 c3 c4 c5 in
  (Spec.legal_delimiters [c1; c2; c3; c4; c5] <->
   tokenizer.HL7Tokenizer._validate_delimiters d = Ok tt)
  /\ (~ Spec.legal_delimiters [c1; c2; c3; c4; c5] <->
      exists reason,
        tokenizer.HL7Tokenizer._validate_delimiters d
        = Raise (MalformedSegmentError "MSH" reason))
  /\ (forall (message_text : string) (d0 : tokenizer.Delimiters),
        let raw_segments :=
          tokenizer.HL7Tokenizer.non_blank_lines
            (tokenizer.HL7Tokenizer._normalize_line_endings message_text) in
        raw_segments <> [] ->
        tokenizer.HL7Tokenizer.detect_loop raw_segments d0 = d ->
        ~ Spec.legal_delimiters [c1; c2; c3; c4; c5] ->
        exists reason,
          tokenizer.HL7Tokenizer.tokenize message_text d0
          = (d, Raise (MalformedSegmentError "MSH" reason))).
Proof.
  intros d. subst d.
  destruct (validate_delimiters_cases c1 c2 c3 c4 c5)
    as [(Hlegal & Hok) | (Hillegal & reason & Hr)].
  - split; [tauto|]. split.
    + split; [tauto|]. intros [reason Hr]. rewrite Hok in Hr. discriminate.
    + intros; contradiction.
  - split; [|split].
    + split; [tauto|]. intros Hok. rewrite Hr in Hok. discriminate.
    + split; [eauto | tauto].
    + intros message_text d0 raw_segments Hne Hdet _. exists reason.
      unfold tokenizer.HL7Tokenizer.tokenize. fold raw_segments.
      destruct raw_segments as [|raw rest] eqn:Eraws; [congruence|].
      unfold tokenizer.HL7Tokenizer._detect_delimiters.
      rewrite Hdet, Hr. reflexivity.
Qed.

Section AccessorFacts.
Import Py Spec tokenizer.

Lemma getitem_in_range {A} (l : list A) (i : Z) :
  0 <= i < Z.of_nat (length l) ->
  exists a, l !! Z.to_nat i = Some a /\ getitem l i = Ok a.
Proof.
  intros Hi. unfold getitem.
  destruct (Z.ltb_spec i 0) as [|_]; [lia|].
  destruct (Z.ltb_spec i 0) as [|_]; [lia|].
  destruct (Z.leb_spec (Z.of_nat (length l)) i) as [|_]; [lia|].
  cbn [orb].
  destruct (l !! Z.to_nat i) as [a|] eqn:Hl; [eauto|].
  apply lookup_ge_None in Hl. lia.
Qed.

Lemma lookup_or_absent l i d : absent l i -> lookup_or l i d = d.
Proof.
  unfold absent, lookup_or. intros H.
  destruct (Z.ltb_spec i 0); [reflexivity|].
  destruct (Z.leb_spec (Z.of_nat (length l)) i); [reflexivity|]. cbn [orb].
  destruct H as [H | [H | H]]; try lia. rewrite H. reflexivity.
Qed.

Lemma safe_index_eq (l : list string) (i : Z) (d : string) :
  (if (i <? 0) || (Z.of_nat (length l) <=? i) then Ok d
   else let* v := getitem l i in Ok (or_else v d))
  = Ok (lookup_or l i d).
Proof.
  unfold lookup_or.
  destruct (Z.ltb_spec i 0); [reflexivity|].
  destruct (Z.leb_spec (Z.of_nat (length l)) i); [reflexivity|]. cbn [orb].
  destruct (getitem_in_range l i) as (a & Hl & Hg); [lia|].
  rewrite Hg, Hl. reflexivity.
Qed.

Lemma get_field_eq self index default :
  get_field self index default = Ok (lookup_or (fields self) index default).
Proof. apply safe_index_eq. Qed.

Lemma split_nonempty_sep s sep :
  sep <> EmptyString -> split s sep = Ok (split_on sep s).
Proof. intros H. unfold split. apply truthy_true in H. rewrite H. reflexivity. Qed.

Lemma get_component_eq self field_index component_index separator default :
  separator <> EmptyString ->
  get_component self field_index component_index separator default
  = Ok (match lookup_or (fields self) field_index "" with
        | EmptyString => default
        | f => lookup_or (split_on separator f) component_index default
        end).
Proof.
  intros Hsep. unfold get_component. rewrite get_field_eq. cbn [bind].
  destruct (lookup_or (fields self) field_index "") as [|c f]; [reflexivity|].
  cbn [truthy negb]. rewrite split_nonempty_sep by assumption. cbn [bind].
  apply safe_index_eq.
Qed.

Lemma get_subcomponent_eq self field_index component_index subcomponent_index
    component_sep subcomponent_sep default :
  component_sep <> EmptyString -> subcomponent_sep <> EmptyString ->
  get_subcomponent self field_index component_index subcomponent_index
    component_sep subcomponent_sep default
  = Ok (match (match lookup_or (fields self) field_index "" with
               | EmptyString => EmptyString
               | f => lookup_or (split_on component_sep f) component_index ""
               end) with
        | EmptyString => default
        | c => lookup_or (split_on subcomponent_sep c) subcomponent_index default
        end).
Proof.
  intros Hc Hs. unfold get_subcomponent. rewrite get_component_eq by assumption.
  cbn [bind].
  match goal with |- context [truthy ?x] => destruct x as [|c0 comp] end;
    [reflexivity|].
  cbn [truthy negb]. rewrite split_nonempty_sep by assumption. cbn [bind].
  apply safe_index_eq.
Qed.

(** When the stored string is there, [lookup_or] with default [""]
    returns it. *)
Lemma lookup_or_present l i f :
  0 <= i -> l !! Z.to_nat i = Some f -> lookup_or l i "" = f.
Proof.
  intros Hi Hl. unfold lookup_or.
  destruct (Z.ltb_spec i 0); [lia|].
  pose proof (lookup_lt_Some _ _ _ Hl).
  destruct (Z.leb_spec (Z.of_nat (length l)) i); [lia|]. cbn [orb].
  rewrite Hl. destruct f; reflexivity.
Qed.

End AccessorFacts.

(** C6.  The three accessors of [Segment] never raise, whatever the
    segment, the integer indices (negative and too large ones included)
    and the default, for separators that are not the empty string; and
    each returns the supplied default as soon as, at one of its levels,
    the index is out of bounds or the string stored there is empty. *)
Theorem C6_accessors_total (self : tokenizer.Segment)
    (field_index component_index subcomponent_index : Z)
    (component_sep subcomponent_sep default : string) :
  component_sep <> EmptyString -> subcomponent_sep <> EmptyString ->
  (exists v,
     tokenizer.get_field self field_index default = Ok v
     /\ (Spec.absent (tokenizer.fields self) field_index -> v = default))
  /\ (exists v,
        tokenizer.get_component self field_index component_index
          component_sep default = Ok v
        /\ (Spec.absent (tokenizer.fields self) field_index -> v = default)
        /\ (forall f,
              0 <= field_index ->
              tokenizer.fields self !! Z.to_nat field_index = Some f ->
              Spec.absent (Py.split_on component_sep f) component_index ->
              v = default))
  /\ (exists v,
        tokenizer.get_subcomponent self field_index component_index
          subcomponent_index component_sep subcomponent_sep default = Ok v
        /\ (Spec.absent (tokenizer.fields self) field_index -> v = default)
        /\ (forall f,
              0 <= field_index ->
              tokenizer.fields self !! Z.to_nat field_index = Some f ->
              Spec.absent (Py.split_on component_sep f) component_index ->
              v = default)
        /\ (forall f c,
              0 <= field_index ->
              tokenizer.fields self !! Z.to_nat field_index = Some f ->
              0 <= component_index ->
              Py.split_on component_sep f !! Z.to_nat component_index = Some c ->
              Spec.absent (Py.split_on subcomponent_sep c) subcomponent_index ->
              v = default)).
Proof.
  intros Hc Hs.
  split; [|split].
  - eexists. split; [apply get_field_eq|]. apply lookup_or_absent.
  - eexists. split; [apply get_component_eq; assumption|]. split.
    + intros Habs. rewrite (lookup_or_absent _ _ "" Habs). reflexivity.
    + intros f Hi Hf Habs. rewrite (lookup_or_present _ _ f Hi Hf).
      destruct f; [reflexivity|]. apply lookup_or_absent, Habs.
  - eexists. split; [apply get_subcomponent_eq; assumption|]. split; [|split].
    + intros Habs. rewrite (lookup_or_absent _ _ "" Habs). reflexivity.
    + intros f Hi Hf Habs. rewrite (lookup_or_present _ _ f Hi Hf).
      destruct f; [reflexivity|].
      rewrite (lookup_or_absent _ _ "" Habs). reflexivity.
    + intros f c Hi Hf Hci Hcomp Habs. rewrite (lookup_or_present _ _ f Hi Hf).
      destruct f as [|x f]; [reflexivity|].
      rewrite (lookup_or_present _ _ c Hci Hcomp).
      destruct c; [reflexivity|]. apply lookup_or_absent, Habs.
Qed.

Lemma C6_accessors_total_witness :
  let seg := tokenizer.mkSegment "PID" ["PID"; "1"; ""; "Doe&Jr^John"]
               "PID|1||Doe&Jr^John" in
  (exists v, tokenizer.get_field seg (-1) "N/A" = Ok v
             /\ (Spec.absent (tokenizer.fields seg) (-1) -> v = "N/A"))
  /\ (exists v, tokenizer.get_component seg 99 0 "^" "N/A" = Ok v
                /\ (Spec.absent (tokenizer.fields seg) 99 -> v = "N/A"))
  /\ (exists v, tokenizer.get_subcomponent seg 3 0 7 "^" "&" "N/A" = Ok v).
Proof.
  intros seg.
  destruct (C6_accessors_total seg (-1) 0 0 "^" "&" "N/A") as (H1 & _ & _);
    [discriminate | discriminate |].
  destruct (C6_accessors_total seg 99 0 0 "^" "&" "N/A")
    as (_ & (v2 & E2 & A2 & _) & _); [discriminate | discriminate |].
  destruct (C6_accessors_total seg 3 0 7 "^" "&" "N/A")
    as (_ & _ & (v3 & E3 & _)); [discriminate | discriminate |].
  exact (conj H1 (conj (ex_intro _ v2 (conj E2 A2)) (ex_intro _ v3 E3))).
Defined.

(** An empty separator is the one way the component accessors can raise:
    [str.split] rejects it. *)
Remark get_component_empty_separator :
  tokenizer.get_component (tokenizer.mkSegment "PID" ["PID"; "Doe^John"] "PID|Doe^John")
    1 0 "" "N/A"
  = Raise (ValueError "empty separator").
Proof. reflexivity. Qed.

(** C7.  When a scheduling segment has both a filler id (field 2,
    component 0) and a placer id (field 1, component 0), the extracted
    appointment id is the filler id; when a provider/visit segment yields
    an identifier both from the attending field 7 and from the admitting
    field 17, the extracted provider is the attending one. *)
Theorem C7_fallback_order (self : extractors.SegmentExtractor)
    (sch pv1 : tokenizer.Segment)
    (filler_id placer_id : string)
    (attending_id attending_name admission_id admission_name : string) :
  tokenizer.get_component sch 2 0 (extractors.component_sep self) "" = Ok filler_id ->
  tokenizer.get_component sch 1 0 (extractors.component_sep self) "" = Ok placer_id ->
  filler_id <> EmptyString -> placer_id <> EmptyString ->
  extractors.PV1Extractor._extract_xcn_field self pv1 7
  = Ok (attending_id, attending_name) ->
  extractors.PV1Extractor._extract_xcn_field self pv1 17
  = Ok (admission_id, admission_name) ->
  attending_id <> EmptyString -> admission_id <> EmptyString ->
  extractors.SCHExtractor.extract_appointment_id self sch = Ok filler_id
  /\ extractors.PV1Extractor.extract_provider self pv1
     = Ok (Some (models.Provider.mk attending_id
                   (extractors.or_None attending_name))).
Proof.
  intros Hf Hp Hfne Hpne H7 H17 H7ne H17ne. split.
  - unfold extractors.SCHExtractor.extract_appointment_id.
    rewrite Hf. cbn [bind]. apply truthy_true in Hfne. rewrite Hfne. reflexivity.
  - unfold extractors.PV1Extractor.extract_provider.
    rewrite H7. apply truthy_true in H7ne.
    repeat first [ rewrite H7ne
                 | progress cbv beta iota delta [negb andb bind Py.or_else] ].
    reflexivity.
Qed.

Lemma C7_fallback_order_witness :
  let self := extractors.SegmentExtractor_new None in
  let sch := tokenizer.mkSegment "SCH" ["SCH"; "PL123"; "AP456"] "SCH|PL123|AP456" in
  let pv1 :=
    tokenizer.mkSegment "PV1"
      ["PV1"; "1"; "O"; ""; ""; ""; ""; "D67890^Smith^Jane"; ""; ""; ""; ""; "";
       ""; ""; ""; ""; "A11111^Jones^Amy"]
      "PV1|1|O|||||D67890^Smith^Jane||||||||||A11111^Jones^Amy" in
  extractors.SCHExtractor.extract_appointment_id self sch = Ok "AP456"
  /\ extractors.PV1Extractor.extract_provider self pv1
     = Ok (Some (models.Provider.mk "D67890" (Some "Jane Smith"))).
Proof.
  intros self sch pv1.
  exact (C7_fallback_order self sch pv1 "AP456" "PL123"
           "D67890" "Jane Smith" "A11111" "Amy Jones"
           eq_refl eq_refl ltac:(discriminate) ltac:(discriminate)
           eq_refl eq_refl ltac:(discriminate) ltac:(discriminate)).
Defined.

(* ===================================================================== *)
(** * The extractors cannot raise once the delimiters are not empty      *)
(* ===================================================================== *)

Section ExtractorFacts.
Import Py Spec tokenizer extractors.

Lemma split_from_nonempty sep s : forall skip, split_from sep s skip <> [].
Proof.
  induction s as [|c s IH]; intros skip; cbn [split_from]; [discriminate|].
  destruct skip as [|k]; [|apply IH].
  destruct (String.prefix sep (String c s)); [discriminate|].
  destruct (split_from sep s 0); discriminate.
Qed.

Lemma getitem_split_0 sep s : exists x, getitem (split_on sep s) 0 = Ok x.
Proof.
  unfold split_on. pose proof (split_from_nonempty sep s 0%nat) as H.
  destruct (split_from sep s 0) as [|x l]; [congruence|].
  exists x. destruct (getitem_in_range (x :: l) 0) as (a & Hl & Hg).
  - cbn [length]. lia.
  - cbn in Hl. injection Hl as ->. exact Hg.
Qed.

Lemma item_or_empty_ok (components : list string) (i : nat) :
  exists v, item_or_empty components i = Ok v.
Proof.
  unfold item_or_empty. destruct (Nat.ltb_spec i (length components)) as [Hlt|_].
  - destruct (getitem_in_range components (Z.of_nat i)) as (a & _ & Hg); [lia|].
    eauto.
  - eauto.
Qed.

Variable self : SegmentExtractor.
Hypothesis Hsplit : splittable self.

Let Hcomp : component_sep self <> EmptyString := proj1 Hsplit.
Let Hrep : repetition (delimiters self) <> EmptyString := proj1 (proj2 Hsplit).
Let Hsub : subcomponent_sep self <> EmptyString := proj2 (proj2 Hsplit).

(** One step of symbolic execution of an extractor body. *)
Ltac run :=
  repeat first
    [ progress cbn [bind]
    | match goal with
      | |- context [get_field ?s ?i ?d] => rewrite (get_field_eq s i d)
      | |- context [get_component ?s ?i ?j ?sep ?d] =>
          rewrite (get_component_eq s i j sep d) by assumption
      | |- context [split ?s ?sep] =>
          rewrite (split_nonempty_sep s sep) by assumption
      | |- context [item_or_empty ?l ?i] =>
          let v := fresh "v" in
          destruct (item_or_empty_ok l i) as [v ->]
      | |- context [getitem (split_on ?sep ?s) 0] =>
          let v := fresh "v" in
          destruct (getitem_split_0 sep s) as [v ->]
      end ].

Ltac branches :=
  repeat (run;
          match goal with
          | |- context [if ?b then _ else _] => destruct b
          end);
  run.

Lemma extract_appointment_id_total segment :
  exists v, SCHExtractor.extract_appointment_id self segment = Ok v.
Proof. unfold SCHExtractor.extract_appointment_id. branches; eauto. Qed.

Lemma datetime_loop_total segment indices :
  exists v, SCHExtractor.datetime_loop self segment indices = Ok v.
Proof.
  induction indices as [|i rest IH]; cbn [SCHExtractor.datetime_loop]; [eauto|].
  run. destruct (negb _); [exact IH|]. run.
  destruct (SCHExtractor.try_component _ _); [eauto|]. run.
  destruct (SCHExtractor.try_component _ _); [eauto | exact IH].
Qed.

Lemma reason_loop_total segment indices :
  exists v, SCHExtractor.reason_loop self segment indices = Ok v.
Proof.
  induction indices as [|i rest IH]; cbn [SCHExtractor.reason_loop]; [eauto|].
  run. destruct (negb _); [exact IH|]. run.
  destruct (_ && _); [eauto|]. run.
  destruct (_ && _); [eauto | exact IH].
Qed.

Lemma sch_extract_location_total segment :
  exists v, SCHExtractor.extract_location self segment = Ok v.
Proof. unfold SCHExtractor.extract_location. branches; eauto. Qed.

Lemma extract_patient_total segment :
  exists v, PIDExtractor.extract_patient self segment = Ok v.
Proof.
  unfold PIDExtractor.extract_patient, PIDExtractor._extract_patient_id,
    PIDExtractor._extract_name, PIDExtractor._extract_dob,
    PIDExtractor._extract_gender.
  branches; eauto.
Qed.

Lemma extract_xcn_field_total segment field_index :
  exists v, PV1Extractor._extract_xcn_field self segment field_index = Ok v.
Proof. unfold PV1Extractor._extract_xcn_field. branches; eauto. Qed.

Lemma extract_provider_total segment :
  exists v, PV1Extractor.extract_provider self segment = Ok v.
Proof.
  unfold PV1Extractor.extract_provider.
  destruct (extract_xcn_field_total segment 7) as [[i7 n7] ->].
  destruct (extract_xcn_field_total segment 17) as [[i17 n17] ->].
  destruct (extract_xcn_field_total segment 8) as [[i8 n8] ->].
  cbn [bind]. branches; eauto.
Qed.

Lemma pv1_extract_location_total segment :
  exists v, PV1Extractor.extract_location self segment = Ok v.
Proof. unfold PV1Extractor.extract_location. branches; eauto. Qed.

Lemma extract_control_id_total segment :
  exists v, MSHExtractor.extract_control_id self segment = Ok v.
Proof. unfold MSHExtractor.extract_control_id. run. eauto. Qed.

Lemma extract_timestamp_total segment :
  exists v, MSHExtractor.extract_timestamp self segment = Ok v.
Proof. unfold MSHExtractor.extract_timestamp. branches; eauto. Qed.

End ExtractorFacts.

(* ===================================================================== *)
(** * Facts about [_parse_single_message]                                *)
(* ===================================================================== *)

Section ParserFacts.
Import Py Spec tokenizer tokenizer.HL7Tokenizer extractors parser parser.SIUParser.

Lemma validate_delimiters_nonempty d :
  _validate_delimiters d = Ok tt ->
  splittable (SegmentExtractor_new (Some d)) /\ field d <> EmptyString.
Proof.
  destruct d as [f c r e s]. unfold _validate_delimiters, splittable.
  cbn [field component repetition escape subcomponent check_special
       SegmentExtractor_new delimiters].
  intros H.
  destruct f; [discriminate|]. destruct c.
  { cbn [truthy negb orb] in H.
    destruct (_ || _) in H; discriminate. }
  destruct r.
  { cbn [truthy negb orb] in H.
    repeat (destruct (_ || _) in H; try discriminate). }
  destruct s.
  { cbn [truthy negb orb] in H.
    repeat (destruct (_ || _) in H; try discriminate). }
  repeat split; discriminate.
Qed.

(** A successful tokenization that produced segments has validated the
    delimiters it leaves behind. *)
Lemma tokenize_validated message_text d0 d segments :
  tokenize message_text d0 = (d, Ok segments) -> segments <> [] ->
  _validate_delimiters d = Ok tt.
Proof.
  unfold tokenize. intros H Hne.
  destruct (non_blank_lines _) as [|raw rest].
  - injection H as _ <-. congruence.
  - unfold _detect_delimiters in H.
    injection H as <- H.
    destruct (_validate_delimiters _) as [[]|e]; [reflexivity | discriminate].
Qed.

Lemma validated_has_segments d segments :
  _validate_message_type d (_build_segment_map segments) = Ok tt -> segments <> [].
Proof.
  intros H ->. unfold _validate_message_type, _build_segment_map in H.
  cbn [build_loop] in H. rewrite lookup_empty in H. discriminate.
Qed.

(** Past tokenization and validation, [_parse_single_message] is the
    extraction run on the segment map. *)
Lemma parse_single_message_validated strict_mode message_text message_index
    d0 d segments :
  tokenize message_text d0 = (d, Ok segments) ->
  _validate_message_type d (_build_segment_map segments) = Ok tt ->
  _parse_single_message strict_mode message_text message_index d0
  = (d, extract_and_assemble strict_mode d (_build_segment_map segments)
          message_index []).
Proof.
  intros Htok Hval. unfold _parse_single_message. rewrite Htok. cbn [bind].
  pose proof (validated_has_segments _ _ Hval) as Hne.
  destruct segments as [|seg rest]; [congruence|].
  rewrite Hval. reflexivity.
Qed.

Variable self : SegmentExtractor.
Hypothesis Hsplit : splittable self.

Lemma sch_block_present strict_mode m w seg :
  m !! "SCH" = Some seg ->
  exists st, sch_block strict_mode self m w = Ok st /\ sch_warnings st = w.
Proof.
  intros H. unfold sch_block. rewrite H.
  destruct (extract_appointment_id_total self Hsplit seg) as [a ->].
  unfold SCHExtractor.extract_appointment_datetime, SCHExtractor.extract_reason.
  destruct (datetime_loop_total self Hsplit seg [10; 11]) as [b ->].
  destruct (reason_loop_total self Hsplit seg [6; 7]) as [c ->].
  destruct (sch_extract_location_total self Hsplit seg) as [l ->].
  cbn [bind]. eexists. split; reflexivity.
Qed.

Lemma pid_block_present strict_mode m w seg :
  m !! "PID" = Some seg ->
  exists p, pid_block strict_mode self m w = Ok (Some p, w).
Proof.
  intros H. unfold pid_block. rewrite H.
  destruct (extract_patient_total self Hsplit seg) as [p ->].
  cbn [bind]. eauto.
Qed.

Lemma pv1_block_present m location w seg :
  m !! "PV1" = Some seg ->
  exists provider location',
    pv1_block self m location w = Ok (provider, location', w).
Proof.
  intros H. unfold pv1_block. rewrite H.
  destruct (extract_provider_total self Hsplit seg) as [p ->].
  destruct (pv1_extract_location_total self Hsplit seg) as [l ->].
  cbn [bind]. destruct (negb _); cbn [bind]; eauto.
Qed.

Lemma msh_block_total m :
  exists control_id message_datetime,
    msh_block self m = Ok (control_id, message_datetime).
Proof.
  unfold msh_block. destruct (m !! "MSH") as [seg|]; [|eauto].
  destruct (extract_control_id_total self seg) as [c ->].
  destruct (extract_timestamp_total self seg) as [t ->].
  cbn [bind]. eauto.
Qed.

(** The three ways the extraction can end: the two strict-mode errors,
    or a result whose warnings and fields record what was missing. *)
Lemma assemble_shape strict_mode d m message_index :
  self = SegmentExtractor_new (Some d) ->
  let outcome := extract_and_assemble strict_mode d m message_index [] in
  (strict_mode = true /\ m !! "SCH" = None
   /\ outcome = Raise (MissingSegmentError "SCH"))
  \/ (strict_mode = true /\ is_Some (m !! "SCH") /\ m !! "PID" = None
      /\ outcome = Raise (MissingSegmentError "PID"))
  \/ (exists r,
        outcome = Ok r
        /\ (strict_mode = false \/ (is_Some (m !! "SCH") /\ is_Some (m !! "PID")))
        /\ (m !! "SCH" = None ->
            SCH_WARNING ∈ models.ParseResult.warnings r
            /\ models.Appointment.appointment_id (models.ParseResult.appointment r)
               = "UNKNOWN")
        /\ (m !! "PID" = None ->
            PID_WARNING ∈ models.ParseResult.warnings r
            /\ models.Appointment.patient (models.ParseResult.appointment r) = None)
        /\ (m !! "PV1" = None ->
            PV1_WARNING ∈ models.ParseResult.warnings r
            /\ models.Appointment.provider (models.ParseResult.appointment r) = None)).
Proof.
  intros Hself outcome. subst outcome. unfold extract_and_assemble.
  rewrite <- Hself.
  destruct (msh_block_total m) as (cid & mdt & Hmsh).
  destruct (m !! "SCH") as [sch|] eqn:Hsch.
  - destruct (sch_block_present strict_mode m [] sch Hsch) as (st & -> & Hw).
    cbn [bind]. rewrite Hw.
    destruct (m !! "PID") as [pid|] eqn:Hpid.
    + destruct (pid_block_present strict_mode m [] pid Hpid) as (p & ->).
      cbn [bind].
      destruct (m !! "PV1") as [pv1|] eqn:Hpv1.
      * destruct (pv1_block_present m (sch_location st) [] pv1 Hpv1)
          as (pr & l & ->).
        cbn [bind]. rewrite Hmsh. cbn [bind].
        right. right. eexists. split; [reflexivity|].
        split; [right; split; eauto|].
        repeat split; intros; discriminate.
      * unfold pv1_block. rewrite Hpv1. cbn [bind]. rewrite Hmsh. cbn [bind].
        right. right. eexists. split; [reflexivity|].
        split; [right; split; eauto|].
        split; [intros; discriminate|]. split; [intros; discriminate|].
        intros _. split; [|reflexivity].
        apply list_elem_of_In. cbn. auto.
    + unfold pid_block. rewrite Hpid. destruct strict_mode.
      * right. left. repeat split; eauto.
      * cbn [bind].
        destruct (m !! "PV1") as [pv1|] eqn:Hpv1.
        -- destruct (pv1_block_present m (sch_location st)
                       ([] ++ [PID_WARNING]) pv1 Hpv1) as (pr & l & Hb).
           fold PID_WARNING. rewrite Hb.
           cbn [bind]. rewrite Hmsh. cbn [bind].
           right. right. eexists. split; [reflexivity|].
           split; [left; reflexivity|].
           split; [intros; discriminate|].
           split; [|intros; discriminate].
           intros _. split; [|reflexivity].
           apply list_elem_of_In. cbn. auto.
        -- unfold pv1_block. rewrite Hpv1. cbn [bind]. rewrite Hmsh. cbn [bind].
           right. right. eexists. split; [reflexivity|].
           split; [left; reflexivity|].
           split; [intros; discriminate|].
           split; intros _; (split; [|reflexivity]);
             apply list_elem_of_In; cbn; auto.
  - unfold sch_block. rewrite Hsch. destruct strict_mode.
    + left. repeat split.
    + cbn [bind sch_warnings sch_location].
      destruct (m !! "PID") as [pid|] eqn:Hpid.
      * destruct (pid_block_present false m ([] ++ [SCH_WARNING]) pid Hpid)
          as (p & Hb).
        fold SCH_WARNING. rewrite Hb. cbn [bind].
        destruct (m !! "PV1") as [pv1|] eqn:Hpv1.
        -- destruct (pv1_block_present m "" ([] ++ [SCH_WARNING]) pv1 Hpv1)
             as (pr & l & ->).
           cbn [bind]. rewrite Hmsh. cbn [bind].
           right. right. eexists. split; [reflexivity|].
           split; [left; reflexivity|].
           split; [|split; intros; discriminate].
           intros _. split; [|reflexivity].
           apply list_elem_of_In. cbn. auto.
        -- unfold pv1_block. rewrite Hpv1. cbn [bind]. rewrite Hmsh. cbn [bind].
           right. right. eexists. split; [reflexivity|].
           split; [left; reflexivity|].
           split; [|split; [intros; discriminate|]];
             intros _; (split; [|reflexivity]);
             apply list_elem_of_In; cbn; auto.
      * unfold pid_block. rewrite Hpid. cbn [bind].
        destruct (m !! "PV1") as [pv1|] eqn:Hpv1.
        -- fold SCH_WARNING PID_WARNING.
           destruct (pv1_block_present m ""
                       (([] ++ [SCH_WARNING]) ++ [PID_WARNING]) pv1 Hpv1)
             as (pr & l & ->).
           cbn [bind]. rewrite Hmsh. cbn [bind].
           right. right. eexists. split; [reflexivity|].
           split; [left; reflexivity|].
           split; [|split; [|intros; discriminate]];
             intros _; (split; [|reflexivity]);
             apply list_elem_of_In; cbn; auto.
        -- unfold pv1_block. rewrite Hpv1. cbn [bind]. rewrite Hmsh. cbn [bind].
           right. right. eexists. split; [reflexivity|].
           split; [left; reflexivity|].
           split; [|split];
             intros _; (split; [|reflexivity]);
             apply list_elem_of_In; cbn; auto.
Qed.

End ParserFacts.

(** C4.  For a message that tokenizes and passes the message-type gate:
    without an [SCH] segment, strict mode raises
    [MissingSegmentError("SCH")] and lenient mode returns a result with
    the [SCH] warning and the appointment id ["UNKNOWN"]; without a [PID]
    segment, strict mode raises [MissingSegmentError("PID")] (once [SCH]
    is there) and lenient mode returns a result with the [PID] warning and
    no patient; without a [PV1] segment nothing is raised on that
    account in either mode, the result carries the [PV1] warning and no
    provider.  No other error can come out of the extraction. *)
Theorem C4_missing_segments (strict_mode : bool) (message_text : string)
    (message_index : Z) (d0 d : tokenizer.Delimiters)
    (segments : list tokenizer.Segment) :
  tokenizer.HL7Tokenizer.tokenize message_text d0 = (d, Ok segments) ->
  parser.SIUParser._validate_message_type d
    (parser.SIUParser._build_segment_map segments) = Ok tt ->
  let segment_map := parser.SIUParser._build_segment_map segments in
  let outcome :=
    parser.SIUParser._parse_single_message strict_mode message_text
      message_index d0 in
  (segment_map !! "SCH" = None ->
   (strict_mode = true -> outcome = (d, Raise (MissingSegmentError "SCH")))
   /\ (strict_mode = false ->
       exists r,
         outcome = (d, Ok r)
         /\ Spec.SCH_WARNING ∈ models.ParseResult.warnings r
         /\ models.Appointment.appointment_id (models.ParseResult.appointment r)
            = "UNKNOWN"))
  /\ (segment_map !! "PID" = None ->
      (strict_mode = true -> is_Some (segment_map !! "SCH") ->
       outcome = (d, Raise (MissingSegmentError "PID")))
      /\ (strict_mode = false ->
          exists r,
            outcome = (d, Ok r)
            /\ Spec.PID_WARNING ∈ models.ParseResult.warnings r
            /\ models.Appointment.patient (models.ParseResult.appointment r) = None))
  /\ (segment_map !! "PV1" = None ->
      strict_mode = false
      \/ (is_Some (segment_map !! "SCH") /\ is_Some (segment_map !! "PID")) ->
      exists r,
        outcome = (d, Ok r)
        /\ Spec.PV1_WARNING ∈ models.ParseResult.warnings r
        /\ models.Appointment.provider (models.ParseResult.appointment r) = None)
  /\ (forall d' e,
        outcome = (d', Raise e) ->
        strict_mode = true
        /\ ((e = MissingSegmentError "SCH" /\ segment_map !! "SCH" = None)
            \/ (e = MissingSegmentError "PID" /\ segment_map !! "PID" = None))).
Proof.
  intros Htok Hval segment_map outcome. subst outcome.
  rewrite (parse_single_message_validated _ _ _ _ _ _ Htok Hval).
  fold segment_map.
  pose proof (validated_has_segments _ _ Hval) as Hne.
  pose proof (tokenize_validated _ _ _ _ Htok Hne) as Hdel.
  destruct (validate_delimiters_nonempty _ Hdel) as [Hsplit _].
  pose proof (assemble_shape _ Hsplit strict_mode d segment_map message_index
                eq_refl) as Hshape.
  cbv zeta in Hshape.
  destruct Hshape as [(Hs & Hsch & ->) | [(Hs & Hsch & Hpid & ->)
                     | (r & -> & Hmode & Hsch & Hpid & Hpv1)]].
  - subst strict_mode. split; [|split; [|split]].
    + intros _. split; [reflexivity | intros; discriminate].
    + intros _. split; [|intros; discriminate].
      intros _ [x Hx]. congruence.
    + intros _ [? | [[x Hx] _]]; [discriminate | congruence].
    + intros d' e H. injection H as _ <-.
      split; [reflexivity|]. left. split; [reflexivity | assumption].
  - subst strict_mode. destruct Hsch as [x Hx]. split; [|split; [|split]].
    + intros; congruence.
    + intros _. split; [reflexivity | intros; discriminate].
    + intros _ [? | [_ [y Hy]]]; [discriminate | congruence].
    + intros d' e H. injection H as _ <-.
      split; [reflexivity|]. right. split; [reflexivity | assumption].
  - split; [|split; [|split; [|intros d' e H; discriminate]]].
    + intros Hmiss. split.
      * intros ->. destruct Hmode as [? | [[x Hx] _]]; [discriminate | congruence].
      * intros _. exists r. destruct (Hsch Hmiss). auto.
    + intros Hmiss. split.
      * intros -> _. destruct Hmode as [? | [_ [x Hx]]]; [discriminate | congruence].
      * intros _. exists r. destruct (Hpid Hmiss). auto.
    + intros Hmiss _. exists r. destruct (Hpv1 Hmiss). auto.
Qed.

Lemma C4_missing_segments_witness :
  let header_only := "MSH|^~\&|SND|FAC||RCV|20250502||SIU^S12|1|P|2.5" in
  parser.SIUParser._parse_single_message true header_only 0 tokenizer.Delimiters_new
  = (tokenizer.Delimiters_new, Raise (MissingSegmentError "SCH"))
  /\ exists r,
       parser.SIUParser._parse_single_message false header_only 0
         tokenizer.Delimiters_new
       = (tokenizer.Delimiters_new, Ok r)
       /\ Spec.PV1_WARNING ∈ models.ParseResult.warnings r
       /\ models.Appointment.provider (models.ParseResult.appointment r) = None.
Proof.
  intros header_only.
  pose (segments :=
          [tokenizer.mkSegment "MSH"
             ["MSH"; "|"; "^~\&"; "SND"; "FAC"; ""; "RCV"; "20250502"; "";
              "SIU^S12"; "1"; "P"; "2.5"] header_only]).
  assert (tokenizer.HL7Tokenizer.tokenize header_only tokenizer.Delimiters_new
          = (tokenizer.Delimiters_new, Ok segments)) as Htok
    by (vm_compute; reflexivity).
  assert (parser.SIUParser._validate_message_type tokenizer.Delimiters_new
            (parser.SIUParser._build_segment_map segments) = Ok tt) as Hval
    by (vm_compute; reflexivity).
  assert (parser.SIUParser._build_segment_map segments !! "SCH" = None) as Hsch
    by (vm_compute; reflexivity).
  assert (parser.SIUParser._build_segment_map segments !! "PV1" = None) as Hpv1
    by (vm_compute; reflexivity).
  destruct (C4_missing_segments true header_only 0 _ _ _ Htok Hval)
    as (Hs & _ & _ & _).
  destruct (C4_missing_segments false header_only 0 _ _ _ Htok Hval)
    as (_ & _ & Hp & _).
  exact (conj (proj1 (Hs Hsch) eq_refl) (Hp Hpv1 (or_introl eq_refl))).
Defined.

(** C5.  For a message that tokenizes and whose header has its encoding
    field, if the declared message type is not ["SIU"], or a trigger event
    is present and is not ["S12"], parsing raises
    [InvalidMessageTypeError] with expected ["SIU^S12"] and with the
    actual value written [TYPE^TRIGGER] (just [TYPE] when the header has
    no trigger event); the error leaves the message loop of [parse] at
    once.  For [ADT^A01] the message of the error cites both ["ADT^A01"]
    and ["SIU^S12"]. *)
Theorem C5_invalid_message_type (strict_mode : bool) (message_text : string)
    (message_index : Z) (d0 d : tokenizer.Delimiters)
    (segments : list tokenizer.Segment) (msh : tokenizer.Segment)
    (encoding message_type trigger_event : string) :
  tokenizer.HL7Tokenizer.tokenize message_text d0 = (d, Ok segments) ->
  parser.SIUParser._build_segment_map segments !! "MSH" = Some msh ->
  tokenizer.fields msh !! 2%nat = Some encoding -> encoding <> EmptyString ->
  extractors.MSHExtractor.extract_message_type
    (extractors.SegmentExtractor_new (Some d)) msh
  = Ok (message_type, trigger_event) ->
  message_type <> "SIU" \/ (trigger_event <> EmptyString /\ trigger_event <> "S12") ->
  let actual :=
    if Py.truthy trigger_event then message_type +:+ "^" +:+ trigger_event
    else message_type in
  let error := InvalidMessageTypeError "SIU^S12" actual in
  parser.SIUParser._parse_single_message strict_mode message_text message_index d0
  = (d, Raise error)
  /\ (forall rest results,
        parser.SIUParser.parse_loop strict_mode (message_text :: rest)
          message_index results d0 = (d, Raise error))
  /\ (message_type = "ADT" -> trigger_event = "A01" ->
      actual = "ADT^A01"
      /\ Py.contains (exn_str error) "ADT^A01" = true
      /\ Py.contains (exn_str error) "SIU^S12" = true).
Proof.
  intros Htok Hmsh Henc Hne Htype Hbad actual error.
  assert (parser.SIUParser._parse_single_message strict_mode message_text
            message_index d0 = (d, Raise error)) as Hsingle.
  { unfold parser.SIUParser._parse_single_message. rewrite Htok. cbn [bind].
    destruct segments as [|seg rest].
    { unfold parser.SIUParser._build_segment_map in Hmsh.
      cbn [parser.SIUParser.build_loop] in Hmsh.
      rewrite lookup_empty in Hmsh. discriminate. }
    unfold parser.SIUParser._validate_message_type. rewrite Hmsh.
    pose proof (lookup_lt_Some _ _ _ Henc) as Hlen.
    destruct (Nat.ltb_spec (length (tokenizer.fields msh)) 3) as [|_]; [lia|].
    destruct (getitem_in_range (tokenizer.fields msh) 2) as (a & Ha & ->); [lia|].
    change (Z.to_nat 2) with 2%nat in Ha. rewrite Henc in Ha. injection Ha as <-.
    apply truthy_true in Hne. cbn [bind]. rewrite Hne. cbn [negb].
    rewrite Htype. cbn [bind].
    unfold parser.EXPECTED_MESSAGE_TYPE, parser.EXPECTED_TRIGGER_EVENT.
    fold actual.
    destruct (String.eqb_spec message_type "SIU") as [Heq|Hneq]; cbn [negb].
    - destruct Hbad as [Hbad | [Hte Hts]]; [contradiction|].
      apply truthy_true in Hte. rewrite Hte.
      destruct (String.eqb_spec trigger_event "S12"); [contradiction|].
      reflexivity.
    - reflexivity. }
  split; [exact Hsingle|]. split.
  - intros rest results. cbn [parser.SIUParser.parse_loop]. rewrite Hsingle.
    reflexivity.
  - intros -> ->. subst error actual.
    split; [reflexivity|]. split; vm_compute; reflexivity.
Qed.

Lemma C5_invalid_message_type_witness :
  let m := "MSH|^~\&|SND|FAC||RCV|20250502||ADT^A01|1|P|2.5" in
  parser.SIUParser._parse_single_message false m 0 tokenizer.Delimiters_new
  = (tokenizer.Delimiters_new, Raise (InvalidMessageTypeError "SIU^S12" "ADT^A01"))
  /\ Py.contains (exn_str (InvalidMessageTypeError "SIU^S12" "ADT^A01")) "ADT^A01"
     = true.
Proof.
  intros m.
  pose (msh := tokenizer.mkSegment "MSH"
          ["MSH"; "|"; "^~\&"; "SND"; "FAC"; ""; "RCV"; "20250502"; "";
           "ADT^A01"; "1"; "P"; "2.5"] m).
  assert (tokenizer.HL7Tokenizer.tokenize m tokenizer.Delimiters_new
          = (tokenizer.Delimiters_new, Ok [msh])) as Htok
    by (vm_compute; reflexivity).
  assert (parser.SIUParser._build_segment_map [msh] !! "MSH" = Some msh) as Hmsh
    by (vm_compute; reflexivity).
  assert (extractors.MSHExtractor.extract_message_type
            (extractors.SegmentExtractor_new (Some tokenizer.Delimiters_new)) msh
          = Ok ("ADT", "A01")) as Htype
    by (vm_compute; reflexivity).
  assert (tokenizer.fields msh !! 2%nat = Some "^~\&") as Henc
    by (vm_compute; reflexivity).
  assert ("^~\&" <> EmptyString) as Hne by discriminate.
  assert ("ADT" <> "SIU") as Hadt by discriminate.
  destruct (C5_invalid_message_type false m 0 _ _ _ msh "^~\&" "ADT" "A01"
              Htok Hmsh Henc Hne Htype (or_introl Hadt))
    as (H1 & _ & H3).
  destruct (H3 eq_refl eq_refl) as (_ & H4 & _).
  exact (conj H1 H4).
Defined.

(* ===================================================================== *)
(** * Facts about [models.py]                                            *)
(* ===================================================================== *)

Section ModelFacts.
Import Py models.

Lemma dict_get_app (d1 d2 : dict) (k : string) :
  dict_get (d1 ++ d2) k
  = match dict_get d1 k with
    | Some v => Some v
    | None => dict_get d2 k
    end.
Proof.
  induction d1 as [|[k' v] d1 IH]; [reflexivity|].
  cbn [dict_get List.app]. change ((k', v) :: d1 ++ d2) with ((k', v) :: (d1 ++ d2)).
  cbn [dict_get]. destruct (String.eqb k' k); [reflexivity | exact IH].
Qed.

Lemma entry_if_truthy_other (k k' : string) (v : option string) :
  k <> k' -> dict_get (entry_if_truthy k v) k' = None.
Proof.
  intros Hne. apply String.eqb_neq in Hne. unfold entry_if_truthy.
  destruct v as [s|]; [|reflexivity].
  destruct (truthy s); [|reflexivity].
  cbn [dict_get]. rewrite Hne. reflexivity.
Qed.

(** [to_dict] leaves the key out when the appointment id is empty. *)
Lemma to_dict_without_appointment_id (a : Appointment.t) :
  Appointment.appointment_id a = EmptyString ->
  dict_get (Appointment.to_dict a) "appointment_id" = None.
Proof.
  intros Hid. unfold Appointment.to_dict. rewrite Hid. cbn [truthy].
  rewrite !dict_get_app.
  rewrite !entry_if_truthy_other by discriminate.
  cbn [dict_get].
  destruct (Appointment.patient a), (Appointment.provider a); reflexivity.
Qed.

Lemma bind_Ok_inv {A B} (x : result A) (k : A -> result B) (b : B) :
  bind x k = Ok b -> exists a, x = Ok a /\ k a = Ok b.
Proof. destruct x as [a|e]; cbn; [eauto | discriminate]. Qed.

End ModelFacts.

(** C10.  [Appointment.to_dict] leaves the ["appointment_id"] key out
    whenever the appointment id is the empty string; and a message whose
    [SCH] segment has neither a filler id (field 2, component 0) nor a
    placer id (field 1, component 0) parses to an appointment with the
    empty id, so that its output record has no ["appointment_id"] entry. *)
Theorem C10_empty_appointment_id_omitted (strict_mode : bool)
    (message_text : string) (message_index : Z) (d0 d : tokenizer.Delimiters)
    (segments : list tokenizer.Segment) (sch : tokenizer.Segment)
    (r : models.ParseResult.t) :
  tokenizer.HL7Tokenizer.tokenize message_text d0 = (d, Ok segments) ->
  parser.SIUParser._build_segment_map segments !! "SCH" = Some sch ->
  tokenizer.get_component sch 2 0 (tokenizer.component d) "" = Ok EmptyString ->
  tokenizer.get_component sch 1 0 (tokenizer.component d) "" = Ok EmptyString ->
  parser.SIUParser._parse_single_message strict_mode message_text message_index d0
  = (d, Ok r) ->
  models.Appointment.appointment_id (models.ParseResult.appointment r) = EmptyString
  /\ models.dict_get
       (models.Appointment.to_dict (models.ParseResult.appointment r))
       "appointment_id" = None
  /\ (forall a : models.Appointment.t,
        models.Appointment.appointment_id a = EmptyString ->
        models.dict_get (models.Appointment.to_dict a) "appointment_id" = None).
Proof.
  intros Htok Hsch Hfiller Hplacer Hparse.
  assert (models.Appointment.appointment_id (models.ParseResult.appointment r)
          = EmptyString) as Hid.
  { unfold parser.SIUParser._parse_single_message in Hparse.
    rewrite Htok in Hparse. injection Hparse as Hparse. cbn [bind] in Hparse.
    destruct segments as [|seg rest]; [discriminate|].
    apply bind_Ok_inv in Hparse as (_ & _ & Hparse).
    unfold parser.SIUParser.extract_and_assemble in Hparse.
    apply bind_Ok_inv in Hparse as (st & Hst & Hparse).
    unfold parser.SIUParser.sch_block in Hst. rewrite Hsch in Hst.
    unfold extractors.SCHExtractor.extract_appointment_id in Hst.
    change (extractors.component_sep (extractors.SegmentExtractor_new (Some d)))
      with (tokenizer.component d) in Hst.
    rewrite Hfiller in Hst. cbn [bind Py.truthy] in Hst.
    rewrite Hplacer in Hst. cbn [bind Py.or_else Py.truthy] in Hst.
    apply bind_Ok_inv in Hst as (dt & _ & Hst).
    apply bind_Ok_inv in Hst as (reason & _ & Hst).
    apply bind_Ok_inv in Hst as (loc & _ & Hst).
    injection Hst as <-.
    apply bind_Ok_inv in Hparse as ([patient w1] & _ & Hparse).
    apply bind_Ok_inv in Hparse as ([[provider loc'] w2] & _ & Hparse).
    apply bind_Ok_inv in Hparse as ([cid mdt] & _ & Hparse).
    injection Hparse as <-. reflexivity. }
  split; [exact Hid|]. split.
  - apply to_dict_without_appointment_id, Hid.
  - apply to_dict_without_appointment_id.
Qed.

Lemma C10_empty_appointment_id_omitted_witness :
  let m := "MSH|^~\&|SND|FAC||RCV|20250502||SIU^S12|1|P|2.5" +:+ String "010"%char "SCH|||"
  in
  exists r,
    parser.parse_hl7_message m false = Ok [r]
    /\ models.Appointment.appointment_id (models.ParseResult.appointment r)
       = EmptyString
    /\ models.dict_get
         (models.Appointment.to_dict (models.ParseResult.appointment r))
         "appointment_id" = None.
Proof.
  intros m.
  pose (msh := tokenizer.mkSegment "MSH"
          ["MSH"; "|"; "^~\&"; "SND"; "FAC"; ""; "RCV"; "20250502"; "";
           "SIU^S12"; "1"; "P"; "2.5"]
          "MSH|^~\&|SND|FAC||RCV|20250502||SIU^S12|1|P|2.5").
  pose (sch := tokenizer.mkSegment "SCH" ["SCH"; ""; ""; ""] "SCH|||").
  pose (r := models.ParseResult.mk
          (models.Appointment.mk "" None None None None None (Some "1")
             (Some "2025-05-02"))
          [Spec.PID_WARNING; Spec.PV1_WARNING] 0).
  assert (tokenizer.HL7Tokenizer.tokenize m tokenizer.Delimiters_new
          = (tokenizer.Delimiters_new, Ok [msh; sch])) as Htok
    by (vm_compute; reflexivity).
  assert (parser.SIUParser._build_segment_map [msh; sch] !! "SCH" = Some sch) as Hsch
    by (vm_compute; reflexivity).
  assert (tokenizer.get_component sch 2 0
            (tokenizer.component tokenizer.Delimiters_new) "" = Ok EmptyString) as Hf
    by (vm_compute; reflexivity).
  assert (tokenizer.get_component sch 1 0
            (tokenizer.component tokenizer.Delimiters_new) "" = Ok EmptyString) as Hp
    by (vm_compute; reflexivity).
  assert (parser.SIUParser._parse_single_message false m 0 tokenizer.Delimiters_new
          = (tokenizer.Delimiters_new, Ok r)) as Hparse
    by (vm_compute; reflexivity).
  assert (parser.parse_hl7_message m false = Ok [r]) as Hall
    by (vm_compute; reflexivity).
  destruct (C10_empty_appointment_id_omitted false m 0 _ _ _ sch r
              Htok Hsch Hf Hp Hparse) as (H1 & H2 & _).
  exists r. exact (conj Hall (conj H1 H2)).
Defined.

(* ===================================================================== *)
(** * Delimiters from one message to the next                            *)
(* ===================================================================== *)

Section DelimiterCarryOver.
Import Py tokenizer tokenizer.HL7Tokenizer parser.SIUParser.

(** A header line of eight characters or more assigns all five
    delimiters, so nothing of the previous value survives. *)
Lemma full_header_overrides raw d d' :
  (8 <= String.length raw)%nat ->
  assign_from_header raw d = assign_from_header raw d'.
Proof.
  intros H.
  do 8 (destruct raw as [|? raw]; [cbn in H; lia|]).
  reflexivity.
Qed.

Lemma detect_loop_full_header raw_segments d d' :
  (forall raw, raw ∈ raw_segments -> startswith raw "MSH" = true ->
               (8 <= String.length raw)%nat) ->
  (exists raw, raw ∈ raw_segments /\ startswith raw "MSH" = true) ->
  detect_loop raw_segments d = detect_loop raw_segments d'.
Proof.
  intros Hlen [raw0 [Hin Hmsh]].
  induction raw_segments as [|raw rest IH]; [inversion Hin|].
  cbn [detect_loop]. destruct (startswith raw "MSH") eqn:Hs.
  - apply full_header_overrides. apply Hlen; [left | exact Hs].
  - apply IH.
    + intros x Hx. apply Hlen. right. exact Hx.
    + apply elem_of_cons in Hin as [-> | Hin]; [congruence | exact Hin].
Qed.

(** Two-run independence for messages with a full header line: the
    outcome and the delimiters left behind do not depend on the
    delimiters the tokenizer held before. *)
Lemma parse_single_message_independent strict_mode message_text message_index
    d d' :
  let raw_segments := non_blank_lines (_normalize_line_endings message_text) in
  (forall raw, raw ∈ raw_segments -> startswith raw "MSH" = true ->
               (8 <= String.length raw)%nat) ->
  (exists raw, raw ∈ raw_segments /\ startswith raw "MSH" = true) ->
  _parse_single_message strict_mode message_text message_index d
  = _parse_single_message strict_mode message_text message_index d'.
Proof.
  intros raw_segments Hlen Hex.
  unfold _parse_single_message, tokenize. fold raw_segments.
  destruct raw_segments as [|raw rest] eqn:E.
  - destruct Hex as [x [Hx _]]. inversion Hx.
  - unfold _detect_delimiters.
    rewrite (detect_loop_full_header (raw :: rest) d d' Hlen Hex). reflexivity.
Qed.

End DelimiterCarryOver.

(** C3 fails on the code: the tokenizer of a parser keeps its
    [Delimiters] object from one message to the next, and a header line
    shorter than eight characters only overwrites part of it.  Parsed
    alone, the message ["MSH^"] is rejected for a conflicting delimiter
    (field [^] against the default component [^]); parsed after a message
    whose header declares [#!~\&], it keeps [!] as component separator
    and is rejected for another reason.  The bare header ["MSH"] leaves
    whatever delimiters were there before, whereas a new tokenizer would
    hold the defaults. *)
Theorem C3_short_header_keeps_previous_delimiters :
  let first := "MSH#!~\&#S#F##R#20250502##SIU!S12#1#P#2.5" in
  let second := "MSH^" in
  parser.SIUParser.parse false second tokenizer.Delimiters_new
  = (tokenizer.mkDelimiters "^" "^" "~" "\" "&",
     Raise (MalformedSegmentError "MSH"
              "Conflicting delimiter: '^' used for multiple purposes"))
  /\ parser.SIUParser.parse false (first +:+ tokenizer.HL7Tokenizer.LF +:+ second)
       tokenizer.Delimiters_new
     = (tokenizer.mkDelimiters "^" "!" "~" "\" "&",
        Raise (MalformedSegmentError "MSH"
                 "MSH segment missing required encoding characters"))
  /\ tokenizer.split_hl7_messages (first +:+ tokenizer.HL7Tokenizer.LF +:+ second)
     = [first; second]
  /\ (forall d : tokenizer.Delimiters,
        fst (tokenizer.HL7Tokenizer.tokenize "MSH" d) = d).
Proof.
  intros first second.
  split; [vm_compute; reflexivity|].
  split; [vm_compute; reflexivity|].
  split; [vm_compute; reflexivity|].
  intros d. reflexivity.
Qed.

(* ===================================================================== *)
(** * The unit tests of the repository, replayed on the embedding        *)
(* ===================================================================== *)

Section ReplayedTests.
Import Py tokenizer tokenizer.HL7Tokenizer.

Let nl : string := LF.
Let crlf : string := CRLF.

(** [test_tokenizer.py]: [test_handles_crlf_endings],
    [test_custom_delimiters], [test_split_handles_empty_lines]. *)
Example test_handles_crlf_endings :
  option_map (@length Segment)
    (match tokenize ("MSH|^~\&|TEST" +:+ crlf +:+ "PID|1|P123" +:+ crlf +:+ "PV1|1")
             Delimiters_new with
     | (_, Ok segments) => Some segments
     | _ => None
     end) = Some 3%nat.
Proof. vm_compute. reflexivity. Qed.

Example test_custom_delimiters :
  fst (tokenize "MSH#!~\&#SENDER#FACILITY" Delimiters_new)
  = mkDelimiters "#" "!" "~" "\" "&".
Proof. vm_compute. reflexivity. Qed.

Example test_split_handles_empty_lines :
  split_hl7_messages
    ("MSH|^~\&|TEST" +:+ nl +:+ "PID|1" +:+ nl +:+ nl +:+ nl
     +:+ "MSH|^~\&|TEST2" +:+ nl +:+ "PID|2")
  = ["MSH|^~\&|TEST" +:+ nl +:+ "PID|1"; "MSH|^~\&|TEST2" +:+ nl +:+ "PID|2"].
Proof. vm_compute. reflexivity. Qed.

(** [test_timestamps.py] *)
Example test_datetime_with_fraction_and_timezone :
  timestamps.parse_hl7_timestamp "20250502130045.1234+0500" true
  = Ok (Some "2025-05-02T13:00:45.123+05:00").
Proof. vm_compute. reflexivity. Qed.

Example test_datetime_with_utc_offset :
  timestamps.parse_hl7_timestamp "20250502130000+0000" true
  = Ok (Some "2025-05-02T13:00:00Z").
Proof. vm_compute. reflexivity. Qed.

Example test_invalid_date_raises_error :
  timestamps.parse_hl7_date "19850230"
  = Raise (InvalidTimestampError "19850230" "day is out of range for month").
Proof. vm_compute. reflexivity. Qed.

Example test_strips_time_from_datetime :
  timestamps.parse_hl7_date "19850210120000" = Ok (Some "1985-02-10").
Proof. vm_compute. reflexivity. Qed.

(** [test_parser.py]: [test_parse_valid_message],
    [test_parse_invalid_delimiters], [test_parse_malformed_msh_segment],
    [test_parse_missing_msh_segment]. *)
Example test_parse_valid_message :
  parser.parse_hl7_message
    ("MSH|^~\&|SCHEDULING|HOSPITAL|RECEIVER|CLINIC|20250502130000||SIU^S12|MSG001|P|2.5"
     +:+ nl +:+
     "SCH|PL123|AP456|||||CONSULT^General Consultation||||20250502140000||||||||||||Clinic A^Room 203"
     +:+ nl +:+ "PID|1||P12345^^^HOSP||Doe^John^M||19850210|M"
     +:+ nl +:+ "PV1|1|O|CLINIC^101^^MainHospital||||D67890^Smith^Jane^^Dr.")
    false
  = Ok [models.ParseResult.mk
          (models.Appointment.mk "AP456" (Some "2025-05-02T14:00:00Z")
             (Some (models.Patient.mk "P12345" (Some "John") (Some "Doe")
                      (Some "1985-02-10") (Some "M")))
             (Some (models.Provider.mk "D67890" (Some "Jane Smith Dr.")))
             (Some "Clinic A Room 203") (Some "General Consultation")
             (Some "MSG001") (Some "2025-05-02T13:00:00Z"))
          [] 0].
Proof. vm_compute. reflexivity. Qed.

Example test_parse_invalid_delimiters :
  parser.parse_hl7_message "MSH1^~\&|" false
  = Raise (MalformedSegmentError "MSH"
             "Invalid field delimiter '1': must be a non-alphanumeric, non-whitespace character").
Proof. vm_compute. reflexivity. Qed.

Example test_parse_malformed_msh_segment :
  parser.parse_hl7_message "MSH|" false
  = Raise (MalformedSegmentError "MSH"
             "MSH segment missing required encoding characters").
Proof. vm_compute. reflexivity. Qed.

Example test_parse_missing_msh_segment :
  parser.parse_hl7_message ("PID|1||P123" +:+ nl +:+ "SCH|1|1") false = Ok [].
Proof. vm_compute. reflexivity. Qed.

End ReplayedTests.


(* ===================================================================== *)
(** * Beyond the claims: splitting and joining                           *)
(* ===================================================================== *)

Section SplitFacts.
Import Py SpecMore.

Lemma prefix_drop p : forall s,
  String.prefix p s = true ->
  s = p +:+ drop_chars (String.length p) s /\ (String.length p <= String.length s)%nat.
Proof.
  induction p as [|a p IH]; intros s H.
  - split; [reflexivity | cbn; lia].
  - destruct s as [|b s]; [discriminate|]. cbn [String.prefix] in H.
    destruct (ascii_dec a b) as [->|]; [|discriminate].
    destruct (IH s H) as [Heq Hlen]. split.
    + rewrite app_cons. cbn [String.length drop_chars]. rewrite <- Heq. reflexivity.
    + cbn [String.length]. lia.
Qed.

Lemma concat_cons_nonempty sep x l :
  l <> [] -> String.concat sep (x :: l) = x +:+ sep +:+ String.concat sep l.
Proof. destruct l; [congruence | reflexivity]. Qed.

(** Joining what [split] produced gives the string back. *)
Lemma concat_split_from sep : sep <> EmptyString -> forall s k,
  (k <= String.length s)%nat ->
  String.concat sep (split_from sep s k) = drop_chars k s.
Proof.
  intros Hsep. induction s as [|c s IH]; intros k Hk.
  - cbn in Hk. assert (k = 0)%nat as -> by lia. reflexivity.
  - cbn [split_from]. destruct k as [|k].
    + destruct (String.prefix sep (String c s)) eqn:Hp.
      * destruct sep as [|a sep']; [congruence|].
        cbn [String.prefix] in Hp.
        destruct (ascii_dec a c) as [->|]; [|discriminate].
        destruct (prefix_drop sep' s Hp) as [Heq Hlen].
        rewrite concat_cons_nonempty by apply split_from_nonempty.
        cbn [String.length]. replace (S (String.length sep') - 1)%nat
          with (String.length sep') by lia.
        rewrite IH by exact Hlen.
        change (EmptyString +:+ ?x) with x.
        cbn [drop_chars]. rewrite app_cons. rewrite <- Heq. reflexivity.
      * pose proof (IH 0%nat ltac:(lia)) as IH0. cbn [drop_chars] in *.
        pose proof (split_from_nonempty sep s 0%nat) as Hne.
        destruct (split_from sep s 0) as [|p ps]; [congruence|].
        destruct ps as [|q ps].
        -- cbn [String.concat] in *. rewrite IH0. reflexivity.
        -- rewrite concat_cons_nonempty in * by discriminate.
           rewrite app_cons. rewrite IH0. reflexivity.
    + cbn [drop_chars]. apply IH. cbn [String.length] in Hk. lia.
Qed.

Lemma join_split_on sep s :
  sep <> EmptyString -> join sep (split_on sep s) = s.
Proof.
  intros Hsep. unfold join, split_on.
  rewrite (concat_split_from sep Hsep s 0%nat) by lia. reflexivity.
Qed.

End SplitFacts.

(* ===================================================================== *)
(** * Beyond the claims: the tokenizer                                   *)
(* ===================================================================== *)

Section TokenizerMore.
Import Py SpecMore tokenizer tokenizer.HL7Tokenizer.

Lemma get_in_range s : forall n,
  (n < String.length s)%nat -> exists c, String.get n s = Some c.
Proof.
  induction s as [|a s IH]; intros n H; [cbn in H; lia|].
  destruct n as [|n]; [exists a; reflexivity|].
  cbn [String.get]. apply IH. cbn [String.length] in H. lia.
Qed.

Lemma getitem_head {A} (x : A) (l : list A) : getitem (x :: l) 0 = Ok x.
Proof.
  destruct (getitem_in_range (x :: l) 0) as (a & Hl & Hg).
  - cbn [length]. lia.
  - cbn in Hl. injection Hl as ->. exact Hg.
Qed.

End TokenizerMore.

(** X1.  Splitting a segment line into fields loses nothing.  For a line
    that is not a header, the fields joined by the field separator are
    the line again, and the segment type is the first field.  For a
    header line, the field separator (its fourth character) is stored as
    field 1, and the other fields joined by it are the line again. *)
Theorem X1_segment_fields_rebuild_line (d : tokenizer.Delimiters) (raw : string) :
  raw <> EmptyString -> tokenizer.field d <> EmptyString ->
  (Py.startswith raw "MSH" = false ->
   exists seg,
     tokenizer.HL7Tokenizer._parse_segment d raw = Ok (Some seg)
     /\ tokenizer.raw_text seg = raw
     /\ Py.join (tokenizer.field d) (tokenizer.fields seg) = raw
     /\ tokenizer.fields seg !! 0%nat = Some (tokenizer.segment_type seg))
  /\ (Py.startswith raw "MSH" = true -> (3 < String.length raw)%nat ->
      exists p0 rest,
        tokenizer.HL7Tokenizer._parse_segment d raw
        = Ok (Some (tokenizer.mkSegment "MSH" (p0 :: Py.item raw 3 :: rest) raw))
        /\ Py.join (Py.item raw 3) (p0 :: rest) = raw).
Proof.
  intros Hraw Hsep. apply truthy_true in Hraw.
  unfold tokenizer.HL7Tokenizer._parse_segment. rewrite Hraw. cbn [negb].
  split.
  - intros Hmsh. rewrite Hmsh. rewrite split_nonempty_sep by exact Hsep.
    cbn [bind].
    pose proof (join_split_on (tokenizer.field d) raw Hsep) as Hjoin.
    unfold Py.split_on in *.
    pose proof (split_from_nonempty (tokenizer.field d) raw 0%nat) as Hne.
    destruct (Py.split_from (tokenizer.field d) raw 0) as [|f fs]; [congruence|].
    rewrite getitem_head. cbn [bind]. eexists. split; [reflexivity|].
    cbn [tokenizer.raw_text tokenizer.fields tokenizer.segment_type].
    repeat split; assumption.
  - intros Hmsh Hlen. rewrite Hmsh.
    unfold tokenizer.HL7Tokenizer._parse_msh_segment.
    destruct (Nat.ltb_spec 3 (String.length raw)) as [_|]; [|lia].
    destruct (get_in_range raw 3 Hlen) as [c Hc].
    assert (Py.item raw 3 <> EmptyString) as Hitem
      by (unfold Py.item; rewrite Hc; discriminate).
    rewrite split_nonempty_sep by exact Hitem. cbn [bind].
    pose proof (join_split_on (Py.item raw 3) raw Hitem) as Hjoin.
    unfold Py.split_on in *.
    pose proof (split_from_nonempty (Py.item raw 3) raw 0%nat) as Hne.
    destruct (Py.split_from (Py.item raw 3) raw 0) as [|p0 rest]; [congruence|].
    rewrite getitem_head. cbn [bind List.app].
    exists p0, rest. split; [reflexivity | exact Hjoin].
Qed.

Lemma X1_segment_fields_rebuild_line_witness :
  (exists seg,
     tokenizer.HL7Tokenizer._parse_segment tokenizer.Delimiters_new
       "PID|1||P12345^^^HOSP" = Ok (Some seg)
     /\ Py.join "|" (tokenizer.fields seg) = "PID|1||P12345^^^HOSP")
  /\ (exists p0 rest,
        tokenizer.HL7Tokenizer._parse_segment tokenizer.Delimiters_new
          "MSH|^~\&|SND"
        = Ok (Some (tokenizer.mkSegment "MSH" (p0 :: "|" :: rest) "MSH|^~\&|SND"))
        /\ Py.join "|" (p0 :: rest) = "MSH|^~\&|SND").
Proof.
  assert ("PID|1||P12345^^^HOSP" <> EmptyString) as H1 by discriminate.
  assert ("MSH|^~\&|SND" <> EmptyString) as H2 by discriminate.
  assert (tokenizer.field tokenizer.Delimiters_new <> EmptyString) as Hs
    by discriminate.
  assert (Py.startswith "PID|1||P12345^^^HOSP" "MSH" = false) as Hp
    by (vm_compute; reflexivity).
  assert (Py.startswith "MSH|^~\&|SND" "MSH" = true) as Hm
    by (vm_compute; reflexivity).
  assert (3 < String.length "MSH|^~\&|SND")%nat as Hl by (vm_compute; lia).
  destruct (X1_segment_fields_rebuild_line tokenizer.Delimiters_new
              "PID|1||P12345^^^HOSP" H1 Hs) as [Ha _].
  destruct (X1_segment_fields_rebuild_line tokenizer.Delimiters_new
              "MSH|^~\&|SND" H2 Hs) as [_ Hb].
  destruct (Ha Hp) as (seg & E1 & _ & E2 & _).
  exact (conj (ex_intro _ seg (conj E1 E2)) (Hb Hm Hl)).
Defined.

(** X2.  Delimiter detection reads the first header line only: when that
    line has at least eight characters, the five delimiters become its
    characters 3 to 7, whatever they were before and whatever lines
    follow (later header lines included). *)
Theorem X2_first_full_header_sets_delimiters
    (before after : list string) (raw : string) (d : tokenizer.Delimiters) :
  Forall (fun line => Py.startswith line "MSH" = false) before ->
  Py.startswith raw "MSH" = true ->
  (8 <= String.length raw)%nat ->
  fst (tokenizer.HL7Tokenizer._detect_delimiters (before ++ raw :: after) d)
  = tokenizer.mkDelimiters (Py.item raw 3) (Py.item raw 4) (Py.item raw 5)
      (Py.item raw 6) (Py.item raw 7).
Proof.
  intros Hbefore Hmsh Hlen.
  unfold tokenizer.HL7Tokenizer._detect_delimiters. cbn [fst].
  induction Hbefore as [|line before Hline _ IH].
  - cbn [List.app tokenizer.HL7Tokenizer.detect_loop]. rewrite Hmsh.
    do 8 (destruct raw as [|? raw]; [cbn in Hlen; lia|]).
    reflexivity.
  - cbn [List.app tokenizer.HL7Tokenizer.detect_loop]. rewrite Hline. exact IH.
Qed.

Lemma X2_first_full_header_sets_delimiters_witness :
  fst (tokenizer.HL7Tokenizer._detect_delimiters
         ["EVN|S12"; "MSH#!~\&#SENDER"; "MSH|^~\&|LATER"]
         tokenizer.Delimiters_new)
  = tokenizer.mkDelimiters "#" "!" "~" "\" "&".
Proof.
  assert (Py.startswith "MSH#!~\&#SENDER" "MSH" = true) as Hm
    by (vm_compute; reflexivity).
  assert (8 <= String.length "MSH#!~\&#SENDER")%nat as Hl by (vm_compute; lia).
  assert (Forall (fun line => Py.startswith line "MSH" = false) ["EVN|S12"]) as Hb
    by (repeat constructor).
  exact (X2_first_full_header_sets_delimiters ["EVN|S12"] ["MSH|^~\&|LATER"]
           "MSH#!~\&#SENDER" tokenizer.Delimiters_new Hb Hm Hl).
Defined.

Section SplitMessagesFacts.
Import Py SpecMore tokenizer tokenizer.HL7Tokenizer.

Lemma prefix_app p : forall h x,
  String.prefix p h = true -> String.prefix p (h +:+ x) = true.
Proof.
  induction p as [|a p IH]; intros h x H; [destruct (h +:+ x); reflexivity|].
  destruct h as [|b h]; [discriminate|]. rewrite app_cons.
  cbn [String.prefix] in *. destruct (ascii_dec a b); [|discriminate].
  apply IH. exact H.
Qed.

Lemma startswith_join sep h t p :
  startswith h p = true -> startswith (join sep (h :: t)) p = true.
Proof.
  unfold startswith, join. intros H. destruct t as [|x t]; [exact H|].
  rewrite concat_cons_nonempty by discriminate. apply prefix_app. exact H.
Qed.

(** How many messages a pair [(messages, current_message_lines)] stands
    for. *)
Let pending (current : list string) : nat :=
  match current with [] => 0%nat | _ => 1%nat end.

Let headed (current : list string) : Prop :=
  match current with
  | [] => True
  | h :: _ => startswith h "MSH" = true
  end.

Lemma headed_snoc current x : headed current -> current <> [] -> headed (current ++ [x]).
Proof. destruct current; [congruence | intros H _; exact H]. Qed.

Lemma split_loop_invariant lines : forall messages current,
  Forall (fun m => startswith m "MSH" = true) messages -> headed current ->
  Forall (fun m => startswith m "MSH" = true) (fst (split_loop lines messages current))
  /\ headed (snd (split_loop lines messages current))
  /\ (length (fst (split_loop lines messages current))
      + pending (snd (split_loop lines messages current))
      = length messages + pending current
        + length (List.filter opens_message lines))%nat.
Proof.
  induction lines as [|line lines IH]; intros messages current Hm Hc.
  - cbn [split_loop fst snd List.filter length]. repeat split; try assumption. lia.
  - cbn [split_loop List.filter]. unfold opens_message at 1.
    destruct (truthy (strip line)) eqn:Ht; cbn [negb].
    + destruct (startswith (strip line) "MSH") eqn:Hs.
      * match goal with
        | |- context [split_loop lines ?m ?c] =>
            destruct (IH m c) as (H1 & H2 & H3)
        end.
        { destruct current as [|h t]; [exact Hm|].
          apply Forall_app. split; [exact Hm|]. constructor; [|constructor].
          apply startswith_join. exact Hc. }
        { exact Hs. }
        split; [exact H1|]. split; [exact H2|].
        rewrite H3. cbn [length pending].
        destruct current as [|h t]; cbn [pending length].
        -- lia.
        -- rewrite length_app. cbn [length]. lia.
      * destruct current as [|h t].
        -- destruct (IH messages [] Hm I) as (H1 & H2 & H3). auto.
        -- destruct (IH messages ((h :: t) ++ [strip line]) Hm) as (H1 & H2 & H3).
           { apply headed_snoc; [exact Hc | discriminate]. }
           split; [exact H1|]. split; [exact H2|]. rewrite H3. reflexivity.
    + apply truthy_false in Ht. rewrite Ht.
      change (startswith "" "MSH") with false.
      destruct (IH messages current Hm Hc) as (H1 & H2 & H3). auto.
Qed.

End SplitMessagesFacts.

(** X3.  [split_hl7_messages] returns one message per line that, once
    stripped, starts with [MSH], and every message it returns starts
    with [MSH]: what comes before the first header line is dropped, and a
    content without header line gives no message at all. *)
Theorem X3_one_message_per_header_line (content : string) :
  let lines :=
    Py.split_on tokenizer.HL7Tokenizer.LF
      (Py.replace (Py.replace content tokenizer.HL7Tokenizer.CRLF
                     tokenizer.HL7Tokenizer.LF)
         tokenizer.HL7Tokenizer.CR tokenizer.HL7Tokenizer.LF) in
  length (tokenizer.split_hl7_messages content)
  = length (List.filter SpecMore.opens_message lines)
  /\ Forall (fun m => Py.startswith m "MSH" = true)
       (tokenizer.split_hl7_messages content)
  /\ (Forall (fun line => SpecMore.opens_message line = false) lines ->
      tokenizer.split_hl7_messages content = []).
Proof.
  intros lines. unfold tokenizer.split_hl7_messages. fold lines.
  destruct (split_loop_invariant lines [] [] ltac:(constructor) I) as (H1 & H2 & H3).
  destruct (tokenizer.split_loop lines [] []) as [messages current].
  cbn [fst snd length] in *.
  assert (length (match current with
                  | [] => messages
                  | _ :: _ => messages ++ [Py.join tokenizer.HL7Tokenizer.LF current]
                  end)
          = length (List.filter SpecMore.opens_message lines)) as Hlen.
  { destruct current as [|h t]; cbn in H3.
    - lia.
    - rewrite length_app. cbn [length]. lia. }
  split; [exact Hlen|]. split.
  - destruct current as [|h t]; [exact H1|].
    apply Forall_app. split; [exact H1|]. constructor; [|constructor].
    apply startswith_join. exact H2.
  - intros Hnone.
    assert (List.filter SpecMore.opens_message lines = []) as Hf.
    { clear -Hnone. induction Hnone as [|l ls Hl _ IH]; [reflexivity|].
      cbn [List.filter]. rewrite Hl. exact IH. }
    rewrite Hf in Hlen. cbn [length] in Hlen.
    apply length_zero_iff_nil. exact Hlen.
Qed.

(* ===================================================================== *)
(** * Beyond the claims: the parser                                      *)
(* ===================================================================== *)

Section SegmentMapFacts.
Import SpecMore tokenizer parser.SIUParser.

Lemma build_loop_lookup segments : forall (m : gmap string Segment) t,
  build_loop segments m !! t
  = match m !! t with
    | Some seg => Some seg
    | None => first_of_type t segments
    end.
Proof.
  induction segments as [|seg rest IH]; intros m t; cbn [build_loop first_of_type].
  - destruct (m !! t); reflexivity.
  - destruct (m !! segment_type seg) eqn:Hseg.
    + rewrite IH. destruct (m !! t) eqn:Ht; [reflexivity|].
      destruct (String.eqb_spec (segment_type seg) t) as [Heq|Hne];
        [congruence | reflexivity].
    + rewrite IH.
      destruct (String.eqb_spec (segment_type seg) t) as [Heq|Hne].
      * rewrite Heq in *. rewrite lookup_insert_eq, Hseg. reflexivity.
      * rewrite lookup_insert_ne by exact Hne. reflexivity.
Qed.

End SegmentMapFacts.

(** X4.  The segment map gives, for every segment type, the first segment
    of the message with that type: later segments of the same type are
    never seen by the extractors, and a type is missing from the map
    exactly when no segment has it. *)
Theorem X4_segment_map_first_occurrence (segments : list tokenizer.Segment)
    (t : string) :
  parser.SIUParser._build_segment_map segments !! t
  = SpecMore.first_of_type t segments.
Proof.
  unfold parser.SIUParser._build_segment_map.
  rewrite build_loop_lookup, lookup_empty. reflexivity.
Qed.

(* ===================================================================== *)
(** * Beyond the claims: timestamps                                    *)
(* ===================================================================== *)

Section TimestampMore.
Import Py Spec SpecMore timestamps.

Lemma ljust_millis f : ljust (slice f 0 3) 3 "0"%char = millis f.
Proof.
  destruct f as [|a [|b [|c f]]]; try reflexivity.
  unfold slice. cbn [Nat.sub String.substring].
  destruct f; reflexivity.
Qed.

Lemma group2_chars g : digit_group 2 g -> exists a b, g = String a (String b EmptyString).
Proof.
  intros [Hl _]. destruct g as [|a [|b [|c g]]]; try discriminate. eauto.
Qed.

Lemma digit_group_app w1 w2 a b :
  digit_group w1 a -> digit_group w2 b -> digit_group (w1 + w2) (a +:+ b).
Proof.
  intros [Hl1 Hd1] [Hl2 Hd2]. split.
  - rewrite length_app_str. lia.
  - rewrite forall_chars_app, Hd1, Hd2. reflexivity.
Qed.

Lemma convert_tz_offset_sign sign HH MM :
  sign = "+"%char \/ sign = "-"%char -> digit_group 2 HH -> digit_group 2 MM ->
  _convert_tz_offset (String sign (HH +:+ MM)) = iso_offset sign HH MM.
Proof.
  intros Hsign HH' MM'.
  destruct (group2_chars _ HH') as (a & b & ->).
  destruct (group2_chars _ MM') as (c & d & ->).
  unfold _convert_tz_offset, iso_offset.
  cbn [truthy negb]. rewrite !app_cons. change (EmptyString +:+ ?x) with x.
  destruct Hsign as [-> | ->].
  - change (String.eqb (String "+" (String a (String b (String c (String d ""))))) "Z")
      with false.
    change (String.eqb (String "+" (String a (String b (String c (String d ""))))) "-0000")
      with false.
    change (String.eqb (String "+" (String a (String b (String c (String d ""))))) "+0000")
      with (String.eqb (String a (String b (String c (String d "")))) "0000").
    rewrite orb_false_r. cbn [orb].
    destruct (String.eqb (String a (String b (String c (String d "")))) "0000");
      reflexivity.
  - change (String.eqb (String "-" (String a (String b (String c (String d ""))))) "Z")
      with false.
    change (String.eqb (String "-" (String a (String b (String c (String d ""))))) "+0000")
      with false.
    change (String.eqb (String "-" (String a (String b (String c (String d ""))))) "-0000")
      with (String.eqb (String a (String b (String c (String d "")))) "0000").
    cbn [orb].
    destruct (String.eqb (String a (String b (String c (String d "")))) "0000");
      reflexivity.
Qed.

End TimestampMore.

(** X5.  An explicit offset is carried into the result: a valid
    timestamp with seconds, or with minutes only, followed by [+HHMM] or
    [-HHMM] gives the ISO form followed by [+HH:MM] or [-HH:MM], and by
    [Z] when the offset is [0000].  [assume_utc] plays no role then, and
    the digits of the offset are not range-checked. *)
Theorem X5_explicit_offset (Y M D h mi s HH MM : string) (sign : ascii)
    (assume_utc : bool) :
  Spec.digit_group 4 Y -> Spec.digit_group 2 M -> Spec.digit_group 2 D ->
  Spec.digit_group 2 h -> Spec.digit_group 2 mi -> Spec.digit_group 2 s ->
  sign = "+"%char \/ sign = "-"%char ->
  Spec.digit_group 2 HH -> Spec.digit_group 2 MM ->
  Spec.valid_date (Spec.value_of Y) (Spec.value_of M) (Spec.value_of D) ->
  Spec.valid_time (Spec.value_of h) (Spec.value_of mi) (Spec.value_of s) ->
  timestamps.parse_hl7_timestamp
    (Y +:+ M +:+ D +:+ h +:+ mi +:+ s +:+ String sign (HH +:+ MM)) assume_utc
  = Ok (Some (Y +:+ "-" +:+ M +:+ "-" +:+ D +:+ "T" +:+ h +:+ ":" +:+ mi
              +:+ ":" +:+ s +:+ SpecMore.iso_offset sign HH MM))
  /\ timestamps.parse_hl7_timestamp
       (Y +:+ M +:+ D +:+ h +:+ mi +:+ String sign (HH +:+ MM)) assume_utc
     = Ok (Some (Y +:+ "-" +:+ M +:+ "-" +:+ D +:+ "T" +:+ h +:+ ":" +:+ mi
                 +:+ ":00" +:+ SpecMore.iso_offset sign HH MM)).
Proof.
  intros HY HM HD Hh Hmi Hs Hsign HHH HMM Hdate Htime.
  pose proof (digit_group_app 2 2 HH MM HHH HMM) as Hz.
  rewrite <- (convert_tz_offset_sign sign HH MM Hsign HHH HMM).
  split.
  - apply full_with_tz_accepted; assumption.
  - apply minutes_with_tz_accepted; try assumption.
    destruct Htime as (H1 & H2 & _). repeat split; try apply H1; try apply H2; lia.
Qed.

Lemma X5_explicit_offset_witness :
  timestamps.parse_hl7_timestamp "20250502130745+0530" true
  = Ok (Some "2025-05-02T13:07:45+05:30")
  /\ timestamps.parse_hl7_timestamp "202505021307+0530" true
     = Ok (Some "2025-05-02T13:07:00+05:30").
Proof.
  assert (Spec.digit_group 4 "2025") as HY by (split; reflexivity).
  assert (Spec.digit_group 2 "05") as HM by (split; reflexivity).
  assert (Spec.digit_group 2 "02") as HD by (split; reflexivity).
  assert (Spec.digit_group 2 "13") as Hh by (split; reflexivity).
  assert (Spec.digit_group 2 "07") as Hmi by (split; reflexivity).
  assert (Spec.digit_group 2 "45") as Hs by (split; reflexivity).
  assert (Spec.digit_group 2 "30") as H30 by (split; reflexivity).
  assert ("+"%char = "+"%char \/ "+"%char = "-"%char) as Hsign by (left; reflexivity).
  assert (Spec.valid_date (Spec.value_of "2025") (Spec.value_of "05") (Spec.value_of "02"))
    as Hdate by (vm_compute; intuition discriminate).
  assert (Spec.valid_time (Spec.value_of "13") (Spec.value_of "07") (Spec.value_of "45"))
    as Htime by (vm_compute; intuition discriminate).
  exact (X5_explicit_offset "2025" "05" "02" "13" "07" "45" "05" "30" "+"%char true
           HY HM HD Hh Hmi Hs Hsign HM H30 Hdate Htime).
Defined.

(** X6.  Fractional seconds are normalized to milliseconds by
    truncation and zero padding: the result holds exactly the first
    three digits of the fraction, with zeros for missing ones, then [Z]
    (when [assume_utc]) or the offset of the input. *)
Theorem X6_fraction_to_milliseconds (Y M D h mi s f HH MM : string) (sign : ascii)
    (assume_utc : bool) :
  Spec.digit_group 4 Y -> Spec.digit_group 2 M -> Spec.digit_group 2 D ->
  Spec.digit_group 2 h -> Spec.digit_group 2 mi -> Spec.digit_group 2 s ->
  Spec.fraction_digits f ->
  sign = "+"%char \/ sign = "-"%char ->
  Spec.digit_group 2 HH -> Spec.digit_group 2 MM ->
  Spec.valid_date (Spec.value_of Y) (Spec.value_of M) (Spec.value_of D) ->
  Spec.valid_time (Spec.value_of h) (Spec.value_of mi) (Spec.value_of s) ->
  timestamps.parse_hl7_timestamp
    (Y +:+ M +:+ D +:+ h +:+ mi +:+ s +:+ "." +:+ f) assume_utc
  = Ok (Some (Y +:+ "-" +:+ M +:+ "-" +:+ D +:+ "T" +:+ h +:+ ":" +:+ mi
              +:+ ":" +:+ s +:+ "." +:+ SpecMore.millis f
              +:+ (if assume_utc then "Z" else "")))
  /\ timestamps.parse_hl7_timestamp
       (Y +:+ M +:+ D +:+ h +:+ mi +:+ s +:+ "." +:+ f +:+ String sign (HH +:+ MM))
       assume_utc
     = Ok (Some (Y +:+ "-" +:+ M +:+ "-" +:+ D +:+ "T" +:+ h +:+ ":" +:+ mi
                 +:+ ":" +:+ s +:+ "." +:+ SpecMore.millis f
                 +:+ SpecMore.iso_offset sign HH MM))
  /\ String.length (SpecMore.millis f) = 3%nat.
Proof.
  intros HY HM HD Hh Hmi Hs Hf Hsign HHH HMM Hdate Htime.
  pose proof (digit_group_app 2 2 HH MM HHH HMM) as Hz.
  rewrite <- (convert_tz_offset_sign sign HH MM Hsign HHH HMM).
  rewrite <- ljust_millis.
  split; [|split].
  - apply full_with_fraction_accepted; assumption.
  - apply full_with_tz_fraction_accepted; assumption.
  - rewrite ljust_millis. destruct f as [|a [|b [|c f]]]; reflexivity.
Qed.

Lemma X6_fraction_to_milliseconds_witness :
  timestamps.parse_hl7_timestamp "20250502130745.5" false
  = Ok (Some "2025-05-02T13:07:45.500")
  /\ timestamps.parse_hl7_timestamp "20250502130745.5-0800" false
     = Ok (Some "2025-05-02T13:07:45.500-08:00").
Proof.
  assert (Spec.digit_group 4 "2025") as HY by (split; reflexivity).
  assert (Spec.digit_group 2 "05") as HM by (split; reflexivity).
  assert (Spec.digit_group 2 "02") as HD by (split; reflexivity).
  assert (Spec.digit_group 2 "13") as Hh by (split; reflexivity).
  assert (Spec.digit_group 2 "07") as Hmi by (split; reflexivity).
  assert (Spec.digit_group 2 "45") as Hs by (split; reflexivity).
  assert (Spec.digit_group 2 "08") as H08 by (split; reflexivity).
  assert (Spec.digit_group 2 "00") as H00 by (split; reflexivity).
  assert (Spec.fraction_digits "5") as Hf by (split; [discriminate | reflexivity]).
  assert ("-"%char = "+"%char \/ "-"%char = "-"%char) as Hsign by (right; reflexivity).
  assert (Spec.valid_date (Spec.value_of "2025") (Spec.value_of "05") (Spec.value_of "02"))
    as Hdate by (vm_compute; intuition discriminate).
  assert (Spec.valid_time (Spec.value_of "13") (Spec.value_of "07") (Spec.value_of "45"))
    as Htime by (vm_compute; intuition discriminate).
  destruct (X6_fraction_to_milliseconds "2025" "05" "02" "13" "07" "45" "5" "08" "00"
              "-"%char false HY HM HD Hh Hmi Hs Hf Hsign H08 H00 Hdate Htime)
    as (E1 & E2 & _).
  exact (conj E1 E2).
Defined.

Section DateOnly.
Import Py Spec SpecMore timestamps.

Lemma group4_chars g :
  digit_group 4 g ->
  exists a b c d, g = String a (String b (String c (String d EmptyString))).
Proof.
  intros [Hl _]. destruct g as [|a [|b [|c [|d [|e g]]]]]; try discriminate.
  eauto 6.
Qed.

Lemma no_blank_groups Y M D t :
  digit_group 4 Y -> digit_group 2 M -> digit_group 2 D ->
  forall_chars is_digit t = true ->
  forall_chars (fun c => negb (isspace c)) (Y +:+ M +:+ D +:+ t) = true.
Proof.
  intros HY HM HD Ht. rewrite !forall_chars_app.
  rewrite (group_no_blank _ _ HY), (group_no_blank _ _ HM), (group_no_blank _ _ HD).
  rewrite (digits_no_blank _ Ht). reflexivity.
Qed.

(** The date path of [parse_hl7_date] on a stripped, non-empty value. *)
Lemma parse_hl7_date_stripped value :
  forall_chars (fun c => negb (isspace c)) value = true -> value <> EmptyString ->
  parse_hl7_date value =
  if Nat.eqb (String.length value) 8 then
    match (let* y := int (slice value 0 4) in
           let* m := int (slice value 4 6) in
           let* d := int (slice value 6 8) in
           let* _ := _validate_date y m d in
           Ok (Some (fmt_date y m d))) with
    | Raise (ValueError msg) => Raise (InvalidTimestampError value msg)
    | r => r
    end
  else
    let* result := parse_hl7_timestamp value false in
    match result with
    | Some result =>
        if truthy result
        then Ok (Some (if Nat.leb 10 (String.length result)
                       then slice result 0 10 else result))
        else Ok None
    | None => Ok None
    end.
Proof.
  intros Hb Hne. unfold parse_hl7_date.
  rewrite strip_no_blank by assumption.
  apply truthy_true in Hne. rewrite Hne. cbn [negb orb].
  destruct (Nat.eqb (String.length value) 8); [|reflexivity].
  destruct (let* y := int (slice value 0 4) in
            let* m := int (slice value 4 6) in
            let* d := int (slice value 6 8) in
            let* _ := _validate_date y m d in
            Ok (Some (fmt_date y m d))) as [?|[]]; reflexivity.
Qed.

Lemma date_of_timestamp Y M D t :
  digit_group 4 Y -> digit_group 2 M -> digit_group 2 D ->
  forall_chars is_digit t = true -> t <> EmptyString ->
  forall rest,
  parse_hl7_timestamp (Y +:+ M +:+ D +:+ t) false
  = Ok (Some (Y +:+ "-" +:+ M +:+ "-" +:+ D +:+ "T" +:+ rest)) ->
  parse_hl7_date (Y +:+ M +:+ D +:+ t) = Ok (Some (Y +:+ "-" +:+ M +:+ "-" +:+ D)).
Proof.
  intros HY HM HD Ht Hne rest Hparse.
  rewrite parse_hl7_date_stripped.
  - rewrite Hparse.
    destruct (group4_chars _ HY) as (y1 & y2 & y3 & y4 & ->).
    destruct (group2_chars _ HM) as (m1 & m2 & ->).
    destruct (group2_chars _ HD) as (d1 & d2 & ->).
    destruct t as [|c t]; [congruence|]. reflexivity.
  - apply no_blank_groups; assumption.
  - apply app_nonempty_l. eapply digit_group_nonempty, HY.
Qed.

Lemma date_of_date Y M D :
  digit_group 4 Y -> digit_group 2 M -> digit_group 2 D ->
  valid_date (value_of Y) (value_of M) (value_of D) ->
  parse_hl7_date (Y +:+ M +:+ D) = Ok (Some (Y +:+ "-" +:+ M +:+ "-" +:+ D)).
Proof.
  intros HY HM HD Hdate.
  rewrite parse_hl7_date_stripped.
  - assert (slice (Y +:+ M +:+ D) 0 4 = Y /\ slice (Y +:+ M +:+ D) 4 6 = M
            /\ slice (Y +:+ M +:+ D) 6 8 = D
            /\ Nat.eqb (String.length (Y +:+ M +:+ D)) 8 = true)
      as (-> & -> & -> & ->).
    { destruct (group4_chars _ HY) as (y1 & y2 & y3 & y4 & ->).
      destruct (group2_chars _ HM) as (m1 & m2 & ->).
      destruct (group2_chars _ HD) as (d1 & d2 & ->).
      repeat split; reflexivity. }
    rewrite (int_of_group _ _ HY), (int_of_group _ _ HM), (int_of_group _ _ HD).
    cbn [bind]. rewrite validate_date_ok by assumption. cbn [bind].
    unfold fmt_date. rewrite !format_0d_value by assumption.
    repeat rewrite app_assoc_str. reflexivity.
  - rewrite !forall_chars_app.
    rewrite (group_no_blank _ _ HY), (group_no_blank _ _ HM), (group_no_blank _ _ HD).
    reflexivity.
  - apply app_nonempty_l. eapply digit_group_nonempty, HY.
Qed.

Lemma date_of_short value iso :
  forall_chars (fun c => negb (isspace c)) value = true -> value <> EmptyString ->
  Nat.eqb (String.length value) 8 = false ->
  parse_hl7_timestamp value false = Ok (Some iso) ->
  iso <> EmptyString -> (String.length iso < 10)%nat ->
  parse_hl7_date value = Ok (Some iso).
Proof.
  intros Hb Hne Hl Hparse Hiso Hlen.
  rewrite parse_hl7_date_stripped by assumption. rewrite Hl, Hparse. cbn [bind].
  apply truthy_true in Hiso. rewrite Hiso.
  destruct (Nat.leb_spec 10 (String.length iso)); [lia | reflexivity].
Qed.

End DateOnly.

(** X7.  [parse_hl7_date] returns the date portion only: [YYYY] and
    [YYYY-MM] for the two short forms, and [YYYY-MM-DD] for a valid date
    whether or not hours, minutes and seconds follow. *)
Theorem X7_date_drops_the_time (Y M D h mi s : string) :
  Spec.digit_group 4 Y -> Spec.digit_group 2 M -> Spec.digit_group 2 D ->
  Spec.digit_group 2 h -> Spec.digit_group 2 mi -> Spec.digit_group 2 s ->
  Spec.valid_date (Spec.value_of Y) (Spec.value_of M) (Spec.value_of D) ->
  Spec.valid_time (Spec.value_of h) (Spec.value_of mi) (Spec.value_of s) ->
  let date := Y +:+ "-" +:+ M +:+ "-" +:+ D in
  timestamps.parse_hl7_date Y = Ok (Some Y)
  /\ timestamps.parse_hl7_date (Y +:+ M) = Ok (Some (Y +:+ "-" +:+ M))
  /\ timestamps.parse_hl7_date (Y +:+ M +:+ D) = Ok (Some date)
  /\ timestamps.parse_hl7_date (Y +:+ M +:+ D +:+ h) = Ok (Some date)
  /\ timestamps.parse_hl7_date (Y +:+ M +:+ D +:+ h +:+ mi) = Ok (Some date)
  /\ timestamps.parse_hl7_date (Y +:+ M +:+ D +:+ h +:+ mi +:+ s) = Ok (Some date).
Proof.
  intros HY HM HD Hh Hmi Hs Hdate Htime date. subst date.
  assert (Spec.valid_time (Spec.value_of h) 0 0) as Ht1
    by (destruct Htime as (H1 & _); repeat split; try apply H1; lia).
  assert (Spec.valid_time (Spec.value_of h) (Spec.value_of mi) 0) as Ht2
    by (destruct Htime as (H1 & H2 & _);
        repeat split; try apply H1; try apply H2; lia).
  pose proof (proj2 Hh) as Dh. pose proof (proj2 Hmi) as Dmi.
  pose proof (proj2 Hs) as Ds.
  pose proof (digit_group_nonempty _ _ Hh) as Nh.
  split; [|split; [|split; [|split; [|split]]]].
  - apply date_of_short.
    + apply (group_no_blank _ _ HY).
    + apply (digit_group_nonempty _ _ HY).
    + rewrite (proj1 HY). reflexivity.
    + apply year_precision, HY.
    + apply (digit_group_nonempty _ _ HY).
    + rewrite (proj1 HY). lia.
  - apply date_of_short.
    + rewrite forall_chars_app, (group_no_blank _ _ HY), (group_no_blank _ _ HM).
      reflexivity.
    + apply app_nonempty_l, (digit_group_nonempty _ _ HY).
    + rewrite length_app_str, (proj1 HY), (proj1 HM). reflexivity.
    + apply month_precision; assumption.
    + apply app_nonempty_l, (digit_group_nonempty _ _ HY).
    + rewrite !length_app_str, (proj1 HY), (proj1 HM). cbn. lia.
  - apply date_of_date; assumption.
  - apply (date_of_timestamp Y M D h HY HM HD Dh Nh (h +:+ ":00:00")).
    rewrite (hours_precision Y M D h false) by assumption.
    unfold timestamps.tz_suffix_of. rewrite app_empty_r.
    repeat rewrite app_assoc_str. reflexivity.
  - apply (date_of_timestamp Y M D (h +:+ mi) HY HM HD) with
      (rest := h +:+ ":" +:+ mi +:+ ":00").
    + rewrite forall_chars_app, Dh, Dmi. reflexivity.
    + apply app_nonempty_l, Nh.
    + rewrite (minutes_precision Y M D h mi false) by assumption.
      unfold timestamps.tz_suffix_of. rewrite app_empty_r.
      repeat rewrite app_assoc_str. reflexivity.
  - apply (date_of_timestamp Y M D (h +:+ mi +:+ s) HY HM HD) with
      (rest := h +:+ ":" +:+ mi +:+ ":" +:+ s).
    + rewrite !forall_chars_app, Dh, Dmi, Ds. reflexivity.
    + apply app_nonempty_l, Nh.
    + rewrite (full_precision Y M D h mi s false) by assumption.
      unfold timestamps.tz_suffix_of. rewrite app_empty_r.
      repeat rewrite app_assoc_str. reflexivity.
Qed.

Lemma X7_date_drops_the_time_witness :
  timestamps.parse_hl7_date "1985" = Ok (Some "1985")
  /\ timestamps.parse_hl7_date "198503" = Ok (Some "1985-03")
  /\ timestamps.parse_hl7_date "19850310" = Ok (Some "1985-03-10")
  /\ timestamps.parse_hl7_date "1985031014" = Ok (Some "1985-03-10")
  /\ timestamps.parse_hl7_date "198503101430" = Ok (Some "1985-03-10")
  /\ timestamps.parse_hl7_date "19850310143059" = Ok (Some "1985-03-10").
Proof.
  assert (Spec.digit_group 4 "1985") as HY by (split; reflexivity).
  assert (Spec.digit_group 2 "03") as HM by (split; reflexivity).
  assert (Spec.digit_group 2 "10") as HD by (split; reflexivity).
  assert (Spec.digit_group 2 "14") as Hh by (split; reflexivity).
  assert (Spec.digit_group 2 "30") as Hmi by (split; reflexivity).
  assert (Spec.digit_group 2 "59") as Hs by (split; reflexivity).
  assert (Spec.valid_date (Spec.value_of "1985") (Spec.value_of "03") (Spec.value_of "10"))
    as Hdate by (vm_compute; intuition discriminate).
  assert (Spec.valid_time (Spec.value_of "14") (Spec.value_of "30") (Spec.value_of "59"))
    as Htime by (vm_compute; intuition discriminate).
  exact (X7_date_drops_the_time "1985" "03" "10" "14" "30" "59"
           HY HM HD Hh Hmi Hs Hdate Htime).
Defined.

Section TimestampErrors.
Import Py Spec SpecMore timestamps.


Lemma bind_value_error_only {A B} (x : result A) (k : A -> result B) :
  value_error_only x -> (forall a, value_error_only (k a)) ->
  value_error_only (bind x k).
Proof. destruct x as [a|e]; intros Hx Hk; [apply Hk | exact Hx]. Qed.

Lemma int_value_error_only s : value_error_only (int s).
Proof.
  unfold int.
  destruct (match strip s with
            | String c r =>
                if Ascii.eqb c "+" then (false, r)
                else if Ascii.eqb c "-" then (true, r) else (false, strip s)
            | EmptyString => (false, strip s)
            end) as [neg body].
  destruct (int_digits 0 false body); exact I.
Qed.

Lemma ints_value_error_only gs : value_error_only (ints gs).
Proof.
  induction gs as [|g gs IH]; [exact I|]. cbn [ints].
  apply bind_value_error_only; [apply int_value_error_only|]. intros n.
  apply bind_value_error_only; [exact IH|]. intros ns. exact I.
Qed.

Lemma unpack_error_value_error_only {A} n l :
  value_error_only (@unpack_error A n l).
Proof. unfold unpack_error. destruct (Nat.ltb (length l) n); exact I. Qed.

Lemma unpack4_value_error_only l : value_error_only (unpack4 l).
Proof.
  destruct l as [|a [|b [|c [|d [|e l]]]]]; cbn [unpack4];
    first [exact I | apply unpack_error_value_error_only].
Qed.

Lemma unpack5_value_error_only l : value_error_only (unpack5 l).
Proof.
  destruct l as [|a [|b [|c [|d [|e [|f l]]]]]]; cbn [unpack5];
    first [exact I | apply unpack_error_value_error_only].
Qed.

Lemma unpack6_value_error_only l : value_error_only (unpack6 l).
Proof.
  destruct l as [|a [|b [|c [|d [|e [|f [|g l]]]]]]]; cbn [unpack6];
    first [exact I | apply unpack_error_value_error_only].
Qed.

Lemma validate_date_value_error_only y m d : value_error_only (_validate_date y m d).
Proof.
  unfold _validate_date, datetime.check_date.
  repeat match goal with
         | |- context [if ?b then _ else _] => destruct b
         end; exact I.
Qed.

Lemma validate_time_value_error_only h m s : value_error_only (_validate_time h m s).
Proof.
  unfold _validate_time.
  repeat match goal with
         | |- context [if ?b then _ else _] => destruct b
         end; exact I.
Qed.

Lemma getitem_value_error_only {A} (l : list A) i :
  0 <= i < Z.of_nat (length l) -> value_error_only (getitem l i).
Proof.
  intros H. destruct (getitem_in_range l i H) as (a & _ & ->). exact I.
Qed.


Ltac step_value_error_only :=
  first
    [ exact I
    | apply ints_value_error_only
    | apply int_value_error_only
    | apply unpack4_value_error_only
    | apply unpack5_value_error_only
    | apply unpack6_value_error_only
    | apply validate_date_value_error_only
    | apply validate_time_value_error_only
    | apply getitem_value_error_only; cbn [length]; lia
    | apply bind_value_error_only; [|intros] ].

Lemma convert_body_value_error_only groups ft assume_utc :
  length groups = group_count ft ->
  value_error_only (convert_body groups ft assume_utc).
Proof.
  intros Hlen.
  destruct ft; cbn [group_count] in Hlen;
    repeat match goal with
           | H : length ?g = S _ |- _ =>
               destruct g as [|? g]; [discriminate H|];
               cbn [length] in H; apply Nat.succ_inj in H
           | H : length ?g = O |- _ =>
               destruct g; [clear H | discriminate H]
           end;
    unfold convert_body;
    repeat first
      [ step_value_error_only
      | match goal with
        | |- value_error_only (let '(_, _) := ?p in _) => destruct p
        end ].
Qed.

Lemma match_digit_groups_length ws : forall s gs r,
  match_digit_groups ws s = Some (gs, r) -> length gs = length ws.
Proof.
  induction ws as [|w ws IH]; intros s gs r H; cbn [match_digit_groups] in H.
  - injection H as <- _. reflexivity.
  - destruct (take_digits w s) as [[g r1]|]; [|discriminate].
    destruct (match_digit_groups ws r1) as [[gs1 r2]|] eqn:E; [|discriminate].
    injection H as <- _. cbn [length]. f_equal. eapply IH, E.
Qed.

Lemma re_match_length p value groups :
  re_match p value = Some groups ->
  length groups
  = (length (digit_groups p) + (if fraction_group p then 1 else 0)
     + (if tz_group p then 1 else 0))%nat.
Proof.
  unfold re_match. intros H.
  destruct (match_digit_groups (digit_groups p) value) as [[gs r]|] eqn:E;
    [|discriminate].
  apply match_digit_groups_length in E.
  destruct (fraction_group p), (tz_group p);
    repeat match type of H with
           | context [match_fraction ?x] => destruct (match_fraction x) as [[? ?]|]
           | context [match_tz ?x] => destruct (match_tz x) as [[? ?]|]
           | match ?x with EmptyString => _ | String _ _ => _ end = _ => destruct x
           end;
    try discriminate; injection H as <-; rewrite ?length_app; cbn [length]; lia.
Qed.

Lemma first_match_length value groups ft :
  first_match HL7_TIMESTAMP_PATTERNS value = Some (groups, ft) ->
  length groups = group_count ft.
Proof.
  unfold HL7_TIMESTAMP_PATTERNS. cbn [first_match].
  repeat match goal with
         | |- context [re_match ?p value] =>
             let E := fresh "E" in
             destruct (re_match p value) eqn:E;
             [ intros H; injection H as <- <-;
               apply re_match_length in E; exact E |]
         end.
  discriminate.
Qed.


Lemma bind_returns_nonempty {A} (x : result A) (k : A -> result string) :
  (forall a, returns_nonempty (k a)) -> returns_nonempty (bind x k).
Proof. destruct x as [a|e]; intros Hk; [apply Hk | exact I]. Qed.

Lemma app_nonempty_r (a b : string) : b <> EmptyString -> a +:+ b <> EmptyString.
Proof.
  intros Hb. destruct a; [exact Hb | discriminate].
Qed.

Lemma digits_of_nonempty f n : digits_of (S f) n <> EmptyString.
Proof.
  cbn [digits_of]. destruct (Nat.ltb n 10); [discriminate|].
  apply app_nonempty_r. discriminate.
Qed.

Lemma format_0d_nonempty w z : format_0d w z <> EmptyString.
Proof.
  unfold format_0d. destruct (z <? 0); [discriminate|].
  apply app_nonempty_r, digits_of_nonempty.
Qed.

Lemma convert_body_returns_nonempty groups ft assume_utc :
  returns_nonempty (convert_body groups ft assume_utc).
Proof.
  destruct ft; unfold convert_body, fmt_date;
    repeat first
      [ apply bind_returns_nonempty; intros
      | match goal with
        | |- returns_nonempty (let '(_, _) := ?p in _) => destruct p
        end ];
    cbn [returns_nonempty]; repeat apply app_nonempty_l;
    apply format_0d_nonempty.
Qed.

End TimestampErrors.

Lemma parse_hl7_timestamp_outcome (value : string) (assume_utc : bool) :
  match timestamps.parse_hl7_timestamp value assume_utc with
  | Ok None => Py.strip value = EmptyString
  | Ok (Some iso) => Py.strip value <> EmptyString /\ iso <> EmptyString
  | Raise e => Py.strip value <> EmptyString
               /\ exists reason, e = InvalidTimestampError (Py.strip value) reason
  end.
Proof.
  unfold timestamps.parse_hl7_timestamp.
  destruct (Py.truthy value) eqn:Hv; cbn [negb orb].
  - destruct (Py.truthy (Py.strip value)) eqn:Hs; cbn [negb].
    + apply truthy_true in Hs.
      destruct (timestamps.first_match timestamps.HL7_TIMESTAMP_PATTERNS
                  (Py.strip value)) as [[groups ft]|] eqn:E.
      * apply first_match_length in E.
        pose proof (convert_body_value_error_only groups ft assume_utc E) as Hc.
        pose proof (convert_body_returns_nonempty groups ft assume_utc) as Hn.
        unfold timestamps._convert_matched_timestamp.
        destruct (timestamps.convert_body groups ft assume_utc) as [iso|[]];
          cbn [bind]; try contradiction; eauto.
      * eauto.
    + apply truthy_false in Hs. exact Hs.
  - apply truthy_false in Hv. subst value. reflexivity.
Qed.

Section StripFacts.
Import Py Spec SpecMore timestamps.

Lemma rstrip_blank s : forall_chars isspace s = true -> rstrip s = EmptyString.
Proof.
  induction s as [|c s IH]; [reflexivity|]. cbn [forall_chars rstrip].
  intros H. apply andb_true_iff in H as [Hc Hs]. rewrite (IH Hs), Hc. reflexivity.
Qed.

Lemma lstrip_app_blank pre s :
  forall_chars isspace pre = true -> lstrip (pre +:+ s) = lstrip s.
Proof.
  induction pre as [|c pre IH]; [reflexivity|]. cbn [forall_chars].
  intros H. apply andb_true_iff in H as [Hc Hs].
  rewrite app_cons. cbn [lstrip]. rewrite Hc. exact (IH Hs).
Qed.

Lemma rstrip_app_blank s post :
  forall_chars isspace post = true -> rstrip (s +:+ post) = rstrip s.
Proof.
  intros Hpost. induction s as [|c s IH].
  - change (EmptyString +:+ post) with post. rewrite rstrip_blank by exact Hpost.
    reflexivity.
  - rewrite app_cons. cbn [rstrip]. rewrite IH. reflexivity.
Qed.

Lemma lstrip_app s t :
  lstrip (s +:+ t)
  = if forall_chars isspace s then lstrip t else lstrip s +:+ t.
Proof.
  induction s as [|c s IH]; [reflexivity|].
  rewrite app_cons. cbn [lstrip forall_chars].
  destruct (isspace c); cbn [andb]; [exact IH | reflexivity].
Qed.

Lemma strip_surrounded pre s post :
  forall_chars isspace pre = true -> forall_chars isspace post = true ->
  strip (pre +:+ s +:+ post) = strip s.
Proof.
  intros Hpre Hpost. unfold strip.
  rewrite lstrip_app_blank by exact Hpre. rewrite lstrip_app.
  destruct (forall_chars isspace s) eqn:Hs.
  - rewrite (lstrip_blank post Hpost), (lstrip_blank s Hs). reflexivity.
  - apply rstrip_app_blank, Hpost.
Qed.

Lemma rstrip_idempotent s : rstrip (rstrip s) = rstrip s.
Proof.
  induction s as [|c s IH]; [reflexivity|]. cbn [rstrip].
  destruct (rstrip s) as [|d r] eqn:E.
  - destruct (isspace c) eqn:Hc; [reflexivity|].
    cbn [rstrip]. rewrite Hc. reflexivity.
  - cbn [rstrip]. cbn [rstrip] in IH. rewrite IH. reflexivity.
Qed.

Lemma rstrip_head c s :
  isspace c = false -> exists r, rstrip (String c s) = String c r.
Proof.
  intros Hc. cbn [rstrip]. destruct (rstrip s); rewrite ?Hc; eauto.
Qed.

Lemma lstrip_rstrip_lstrip s : lstrip (rstrip (lstrip s)) = rstrip (lstrip s).
Proof.
  induction s as [|c s IH]; [reflexivity|]. cbn [lstrip].
  destruct (isspace c) eqn:Hc; [exact IH|].
  destruct (rstrip_head c s Hc) as [r ->]. cbn [lstrip]. rewrite Hc. reflexivity.
Qed.

Lemma strip_idempotent s : strip (strip s) = strip s.
Proof.
  unfold strip. rewrite lstrip_rstrip_lstrip. apply rstrip_idempotent.
Qed.

(** Both normalizers only look at the stripped value. *)
Lemma parse_hl7_timestamp_strip v w assume_utc :
  strip v = strip w ->
  parse_hl7_timestamp v assume_utc = parse_hl7_timestamp w assume_utc.
Proof.
  intros H. unfold parse_hl7_timestamp.
  assert (forall x, negb (truthy x) || negb (truthy (strip x))
                    = negb (truthy (strip x))) as Hx
    by (intros [|? ?]; [reflexivity | cbn [truthy negb orb]; reflexivity]).
  rewrite (Hx v), (Hx w), H. reflexivity.
Qed.

Lemma parse_hl7_date_strip v w :
  strip v = strip w -> parse_hl7_date v = parse_hl7_date w.
Proof.
  intros H. unfold parse_hl7_date.
  assert (forall x, negb (truthy x) || negb (truthy (strip x))
                    = negb (truthy (strip x))) as Hx
    by (intros [|? ?]; [reflexivity | cbn [truthy negb orb]; reflexivity]).
  rewrite (Hx v), (Hx w), H. reflexivity.
Qed.

Lemma lstrip_cases s :
  (lstrip s = EmptyString /\ forall_chars isspace s = true)
  \/ exists c r, lstrip s = String c r /\ isspace c = false.
Proof.
  induction s as [|c s IH]; [left; split; reflexivity|].
  cbn [lstrip forall_chars]. destruct (isspace c) eqn:Hc; cbn [andb].
  - exact IH.
  - right. eauto.
Qed.

Lemma strip_empty_blank s : strip s = EmptyString -> forall_chars isspace s = true.
Proof.
  unfold strip. intros H.
  destruct (lstrip_cases s) as [[_ Hb] | (c & r & Hl & Hc)]; [exact Hb|].
  rewrite Hl in H. cbn [rstrip] in H.
  destruct (rstrip r); rewrite ?Hc in H; discriminate.
Qed.

Lemma replace_from_forall p old new s : forall k,
  forall_chars p s = true -> forall_chars p new = true ->
  forall_chars p (replace_from old new s k) = true.
Proof.
  induction s as [|c s IH]; intros k Hs Hnew; [reflexivity|].
  cbn [forall_chars] in Hs. apply andb_true_iff in Hs as [Hc Hs].
  cbn [replace_from]. destruct k as [|k]; [|apply IH; assumption].
  destruct (String.prefix old (String c s)).
  - rewrite forall_chars_app, Hnew. cbn [andb]. apply IH; assumption.
  - cbn [forall_chars]. rewrite Hc. cbn [andb]. apply IH; assumption.
Qed.

Lemma split_from_forall p sep s : forall k,
  forall_chars p s = true ->
  Forall (fun x => forall_chars p x = true) (split_from sep s k).
Proof.
  induction s as [|c s IH]; intros k Hs; [repeat constructor|].
  cbn [forall_chars] in Hs. apply andb_true_iff in Hs as [Hc Hs].
  cbn [split_from]. destruct k as [|k]; [|apply IH; assumption].
  destruct (String.prefix sep (String c s)).
  - constructor; [reflexivity | apply IH; assumption].
  - pose proof (IH 0%nat Hs) as H0.
    destruct (split_from sep s 0) as [|x xs]; [repeat constructor; cbn; rewrite Hc; reflexivity|].
    inversion H0 as [|? ? Hx Hxs]; subst.
    constructor; [cbn [forall_chars]; rewrite Hc, Hx; reflexivity | exact Hxs].
Qed.

End StripFacts.

(** X8.  Blanks around a value are ignored by both normalizers. *)
Theorem X8_surrounding_blanks_ignored (pre value post : string) (assume_utc : bool) :
  Py.forall_chars Py.isspace pre = true ->
  Py.forall_chars Py.isspace post = true ->
  timestamps.parse_hl7_timestamp (pre +:+ value +:+ post) assume_utc
  = timestamps.parse_hl7_timestamp value assume_utc
  /\ timestamps.parse_hl7_date (pre +:+ value +:+ post)
     = timestamps.parse_hl7_date value.
Proof.
  intros Hpre Hpost.
  pose proof (strip_surrounded pre value post Hpre Hpost) as H.
  split; [apply parse_hl7_timestamp_strip | apply parse_hl7_date_strip]; exact H.
Qed.

Lemma X8_surrounding_blanks_ignored_witness :
  timestamps.parse_hl7_timestamp "  20250502 " true
  = timestamps.parse_hl7_timestamp "20250502" true
  /\ timestamps.parse_hl7_date "  20250502 " = timestamps.parse_hl7_date "20250502".
Proof.
  assert (Py.forall_chars Py.isspace "  " = true) as H1 by (vm_compute; reflexivity).
  assert (Py.forall_chars Py.isspace " " = true) as H2 by (vm_compute; reflexivity).
  exact (X8_surrounding_blanks_ignored "  " "20250502" " " true H1 H2).
Defined.

Lemma slice_nonempty s n : s <> EmptyString -> Py.slice s 0 (S n) <> EmptyString.
Proof. destruct s; [congruence | discriminate]. Qed.

Lemma parse_hl7_date_outcome (value : string) :
  match timestamps.parse_hl7_date value with
  | Ok None => Py.strip value = EmptyString
  | Ok (Some iso) => Py.strip value <> EmptyString /\ iso <> EmptyString
  | Raise e => Py.strip value <> EmptyString
               /\ exists reason, e = InvalidTimestampError (Py.strip value) reason
  end.
Proof.
  unfold timestamps.parse_hl7_date.
  destruct (Py.truthy value) eqn:Hv; cbn [negb orb].
  - destruct (Py.truthy (Py.strip value)) eqn:Hs; cbn [negb].
    + apply truthy_true in Hs.
      destruct (Nat.eqb (String.length (Py.strip value)) 8).
      * repeat match goal with
               | |- context [bind ?x _] =>
                   let Hp := fresh "Hp" in
                   assert (SpecMore.value_error_only x) as Hp
                     by first [ apply int_value_error_only
                              | apply validate_date_value_error_only ];
                   destruct x as [?|[]]; try contradiction; clear Hp; cbn [bind]
               end; eauto.
        split; [exact Hs|]. unfold timestamps.fmt_date.
        apply app_nonempty_l, format_0d_nonempty.
      * pose proof (parse_hl7_timestamp_outcome (Py.strip value) false) as H8.
        rewrite strip_idempotent in H8.
        destruct (timestamps.parse_hl7_timestamp (Py.strip value) false)
          as [[iso|]|e]; cbn [bind].
        -- destruct H8 as [_ Hiso]. pose proof Hiso as Hne.
           apply truthy_true in Hiso. rewrite Hiso.
           split; [exact Hs|].
           destruct (Nat.leb 10 (String.length iso)); [|exact Hne].
           apply slice_nonempty, Hne.
        -- congruence.
        -- exact H8.
    + apply truthy_false in Hs. exact Hs.
  - apply truthy_false in Hv. subst value. reflexivity.
Qed.

(** X9.  The outcomes of the two normalizers: [None] exactly for a
    blank value; a string that is never empty; or
    [InvalidTimestampError], carrying the stripped value.  No
    [ValueError] or [IndexError] of the conversion escapes. *)
Theorem X9_only_invalid_timestamp_error (value : string) (assume_utc : bool) :
  match timestamps.parse_hl7_timestamp value assume_utc with
  | Ok None => Py.strip value = EmptyString
  | Ok (Some iso) => Py.strip value <> EmptyString /\ iso <> EmptyString
  | Raise e => Py.strip value <> EmptyString
               /\ exists reason, e = InvalidTimestampError (Py.strip value) reason
  end
  /\ match timestamps.parse_hl7_date value with
     | Ok None => Py.strip value = EmptyString
     | Ok (Some iso) => Py.strip value <> EmptyString /\ iso <> EmptyString
     | Raise e => Py.strip value <> EmptyString
                  /\ exists reason, e = InvalidTimestampError (Py.strip value) reason
     end.
Proof.
  split; [apply parse_hl7_timestamp_outcome | apply parse_hl7_date_outcome].
Qed.

Section ShapeFacts.
Import Py Spec SpecMore timestamps.

Lemma take_digits_group w : forall s g r,
  take_digits w s = Some (g, r) -> s = g +:+ r /\ digit_group w g.
Proof.
  induction w as [|w IH]; intros s g r H; cbn [take_digits] in H.
  - injection H as <- <-. split; [reflexivity | split; reflexivity].
  - destruct s as [|c s]; [discriminate|].
    destruct (is_digit c) eqn:Hc; [|discriminate].
    destruct (take_digits w s) as [[g' r']|] eqn:E; [|discriminate].
    injection H as <- <-. apply IH in E as [-> [Hl Hd]].
    split; [reflexivity|]. split; cbn; [rewrite Hl | rewrite Hc, Hd]; reflexivity.
Qed.

Lemma span_digits_inv : forall s g r,
  span_digits s = (g, r) -> s = g +:+ r /\ forall_chars is_digit g = true.
Proof.
  induction s as [|c s IH]; intros g r H; cbn [span_digits] in H.
  - injection H as <- <-. split; reflexivity.
  - destruct (is_digit c) eqn:Hc.
    + destruct (span_digits s) as [g' r'] eqn:E. injection H as <- <-.
      destruct (IH g' r' eq_refl) as [-> Hd].
      split; [reflexivity|]. cbn. rewrite Hc, Hd. reflexivity.
    + injection H as <- <-. split; reflexivity.
Qed.

Lemma match_fraction_inv s g r :
  match_fraction s = Some (g, r) -> s = "." +:+ g +:+ r /\ fraction_digits g.
Proof.
  unfold match_fraction. destruct s as [|c s]; [discriminate|].
  destruct (Ascii.eqb_spec c ".") as [->|Hc].
  - destruct (span_digits s) as [g' r'] eqn:E.
    destruct (truthy g') eqn:Ht; [|discriminate]. intros H. injection H as <- <-.
    apply span_digits_inv in E as [-> Hd].
    split; [reflexivity|]. split; [apply truthy_true, Ht | exact Hd].
  - intros H. exfalso.
    destruct c as [[] [] [] [] [] [] [] []]; try discriminate H. apply Hc. reflexivity.
Qed.

Lemma match_tz_inv s g r :
  match_tz s = Some (g, r) -> s = g +:+ r /\ tz_offset g.
Proof.
  unfold match_tz. destruct s as [|c s]; [discriminate|].
  destruct (Ascii.eqb c "+" || Ascii.eqb c "-") eqn:Hc; [|discriminate].
  destruct (take_digits 4 s) as [[g' r']|] eqn:E; [|discriminate].
  intros H. injection H as <- <-. apply take_digits_group in E as [-> Hg].
  split; [reflexivity|]. exists c, g'. split; [reflexivity|]. split; [|exact Hg].
  apply orb_true_iff in Hc as [Hc|Hc]; apply Ascii.eqb_eq in Hc; auto.
Qed.

Lemma validate_date_inv y m d : _validate_date y m d = Ok tt -> valid_date y m d.
Proof.
  unfold _validate_date, datetime.check_date, datetime.MINYEAR, datetime.MAXYEAR,
    valid_date.
  intros H.
  repeat match type of H with
         | context [if ?c then _ else _] =>
             let E := fresh "E" in destruct c eqn:E; [discriminate H|]
         end.
  repeat match goal with
         | E : negb _ = false |- _ => apply negb_false_iff in E
         | E : _ && _ = true |- _ => apply andb_true_iff in E as [? ?]
         | E : (_ <=? _) = true |- _ => apply Z.leb_le in E
         end.
  lia.
Qed.

Lemma validate_time_inv h m s : _validate_time h m s = Ok tt -> valid_time h m s.
Proof.
  unfold _validate_time, valid_time.
  intros H.
  repeat match type of H with
         | context [if ?c then _ else _] =>
             let E := fresh "E" in destruct c eqn:E; [discriminate H|]
         end.
  repeat match goal with
         | E : negb _ = false |- _ => apply negb_false_iff in E
         | E : _ && _ = true |- _ => apply andb_true_iff in E as [? ?]
         | E : (_ <=? _) = true |- _ => apply Z.leb_le in E
         end.
  lia.
Qed.

Lemma first_match_in table value groups ft :
  first_match table value = Some (groups, ft) ->
  exists p, In (p, ft) table /\ re_match p value = Some groups.
Proof.
  induction table as [|[p ft'] table IH]; cbn [first_match]; [discriminate|].
  destruct (re_match p value) as [gs|] eqn:E.
  - intros H. injection H as <- <-. exists p. split; [left; reflexivity | exact E].
  - intros H. destruct (IH H) as (p' & Hin & Hm). exists p'. split; [right|]; assumption.
Qed.

End ShapeFacts.

Section ShapeComplete.
Import Py Spec SpecMore timestamps.

Ltac invert_re H :=
  unfold re_match in H;
  cbn [digit_groups fraction_group tz_group match_digit_groups List.app] in H;
  repeat (match type of H with
          | context [take_digits ?w ?s] =>
              let E := fresh "E" in
              destruct (take_digits w s) as [[? ?]|] eqn:E; [|discriminate H];
              apply take_digits_group in E as [? ?]
          | context [match_fraction ?s] =>
              let E := fresh "E" in
              destruct (match_fraction s) as [[? ?]|] eqn:E; [|discriminate H];
              apply match_fraction_inv in E as [? ?]
          | context [match_tz ?s] =>
              let E := fresh "E" in
              destruct (match_tz s) as [[? ?]|] eqn:E; [|discriminate H];
              apply match_tz_inv in E as [? ?]
          end; subst;
          cbn [match_digit_groups List.app] in H);
  match type of H with
  | match ?r with EmptyString => _ | String _ _ => _ end = _ =>
      destruct r; [|discriminate H]
  end;
  injection H as <-.

Ltac run_body Hc :=
  unfold convert_body, take_first in Hc; cbn [firstn ints] in Hc;
  repeat match type of Hc with
         | context [getitem ?l ?i] =>
             let r := eval vm_compute in (getitem l i) in
             change (getitem l i) with r in Hc; cbn [bind] in Hc
         | context [int ?g] =>
             match goal with
             | Hg : digit_group (S _) g |- _ =>
                 rewrite (int_of_group _ _ Hg) in Hc; cbn [bind ints] in Hc
             end
         end;
  cbn [unpack4 unpack5 unpack6 bind] in Hc;
  repeat match type of Hc with
         | context [_validate_date ?y ?m ?d] =>
             let E := fresh "Hdate" in
             destruct (_validate_date y m d) as [[]|] eqn:E; [|discriminate Hc];
             apply validate_date_inv in E; cbn [bind] in Hc
         | context [_validate_time ?h ?m ?s] =>
             let E := fresh "Htime" in
             destruct (_validate_time h m s) as [[]|] eqn:E; [|discriminate Hc];
             apply validate_time_inv in E; cbn [bind] in Hc
         end.

Lemma first_match_shape value groups ft iso assume_utc :
  first_match HL7_TIMESTAMP_PATTERNS value = Some (groups, ft) ->
  convert_body groups ft assume_utc = Ok iso ->
  timestamp_shape value.
Proof.
  intros Hm Hc. apply first_match_in in Hm as (p & Hin & Hre).
  unfold HL7_TIMESTAMP_PATTERNS in Hin. cbn [In] in Hin.
  repeat destruct Hin as [Hin|Hin]; try contradiction;
    injection Hin as <- <-; invert_re Hre; run_body Hc;
    rewrite ?app_empty_r;
    first [ solve [apply shape_year; assumption]
          | solve [apply shape_month; assumption]
          | solve [apply shape_date; assumption]
          | solve [apply shape_hours; assumption]
          | solve [apply shape_minutes; assumption]
          | solve [apply shape_minutes_tz; assumption]
          | solve [apply shape_full; assumption]
          | solve [apply shape_full_tz; assumption]
          | solve [apply shape_full_fraction; assumption]
          | solve [apply shape_full_fraction_tz; assumption] ].
Qed.


Lemma shape_accepted value assume_utc :
  timestamp_shape value -> accepted value assume_utc.
Proof.
  unfold accepted.
  destruct 1;
    repeat match goal with
           | H : tz_offset _ |- _ => destruct H as (? & ? & -> & ? & ?)
           end;
    eexists;
    first [ apply year_precision; assumption
          | apply month_precision; assumption
          | apply date_precision; assumption
          | apply hours_precision; assumption
          | apply minutes_precision; assumption
          | apply minutes_with_tz_accepted; assumption
          | apply full_precision; assumption
          | apply full_with_tz_accepted; assumption
          | apply full_with_fraction_accepted; assumption
          | apply full_with_tz_fraction_accepted; assumption ].
Qed.

End ShapeComplete.

(** X10.  The normalizer accepts a value exactly when, once stripped,
    it has one of the ten forms of the pattern table with a calendar
    date and a time of day that exist: nothing else is accepted. *)
Theorem X10_accepted_timestamps_are_the_ten_forms (value : string)
    (assume_utc : bool) :
  Spec.accepted value assume_utc <-> SpecMore.timestamp_shape (Py.strip value).
Proof.
  split.
  - intros [iso H]. unfold timestamps.parse_hl7_timestamp in H.
    destruct (negb (Py.truthy value) || negb (Py.truthy (Py.strip value)));
      [discriminate|].
    destruct (timestamps.first_match timestamps.HL7_TIMESTAMP_PATTERNS
                (Py.strip value)) as [[groups ft]|] eqn:E; [|discriminate].
    apply bind_Ok_inv in H as (iso' & Hc & _).
    unfold timestamps._convert_matched_timestamp in Hc.
    destruct (timestamps.convert_body groups ft assume_utc) as [iso''|e] eqn:Hb.
    + eapply first_match_shape; eassumption.
    + destruct e; discriminate.
  - intros Hshape. unfold Spec.accepted.
    rewrite (parse_hl7_timestamp_strip value (Py.strip value) assume_utc)
      by (symmetry; apply strip_idempotent).
    apply shape_accepted, Hshape.
Qed.

(* ===================================================================== *)
(** * Beyond the claims: tokenizing a message                          *)
(* ===================================================================== *)

Section TokenizeLines.
Import Py Spec SpecMore tokenizer tokenizer.HL7Tokenizer.

Lemma check_special_error l e :
  check_special l = Raise e -> exists reason, e = MalformedSegmentError "MSH" reason.
Proof.
  induction l as [|[name char] l IH]; cbn [check_special]; [discriminate|].
  destruct (negb (truthy char) || str_isalnum char || str_isspace char).
  - intros H. injection H as <-. eauto.
  - exact IH.
Qed.

Lemma check_conflicts_error l : forall used e,
  check_conflicts l used = Raise e ->
  exists reason, e = MalformedSegmentError "MSH" reason.
Proof.
  induction l as [|[name char] l IH]; intros used e; cbn [check_conflicts];
    [discriminate|].
  destruct (bool_decide (char ∈ used)).
  - intros H. injection H as <-. eauto.
  - apply IH.
Qed.

Lemma validate_delimiters_error d e :
  _validate_delimiters d = Raise e ->
  exists reason, e = MalformedSegmentError "MSH" reason.
Proof.
  unfold _validate_delimiters.
  destruct (check_special _) as [[]|e'] eqn:E; cbn [bind].
  - apply check_conflicts_error.
  - intros H. injection H as <-. eapply check_special_error, E.
Qed.

Lemma parse_segment_nonempty d raw :
  field d <> EmptyString -> raw <> EmptyString ->
  exists seg, _parse_segment d raw = Ok (Some seg) /\ raw_text seg = raw.
Proof.
  intros Hsep Hraw. unfold _parse_segment.
  apply truthy_true in Hraw. rewrite Hraw. cbn [negb].
  destruct (startswith raw "MSH").
  - unfold _parse_msh_segment.
    assert ((if Nat.ltb 3 (String.length raw) then item raw 3 else field d)
            <> EmptyString) as Hs.
    { destruct (Nat.ltb_spec 3 (String.length raw)) as [Hlen|_]; [|exact Hsep].
      destruct (get_in_range raw 3 Hlen) as [c Hc]. unfold item. rewrite Hc.
      discriminate. }
    rewrite split_nonempty_sep by exact Hs. cbn [bind]. unfold split_on.
    pose proof (split_from_nonempty
                  (if Nat.ltb 3 (String.length raw) then item raw 3 else field d)
                  raw 0%nat) as Hne.
    destruct (split_from _ raw 0) as [|p0 rest]; [congruence|].
    rewrite getitem_head. cbn [bind]. eexists. split; reflexivity.
  - rewrite split_nonempty_sep by exact Hsep. cbn [bind]. unfold split_on.
    pose proof (split_from_nonempty (field d) raw 0%nat) as Hne.
    destruct (split_from (field d) raw 0) as [|f fs]; [congruence|].
    rewrite getitem_head. cbn [bind]. eexists. split; reflexivity.
Qed.

Lemma parse_segments_lines d raws :
  field d <> EmptyString -> Forall (fun raw => raw <> EmptyString) raws ->
  exists segments,
    parse_segments d raws = Ok segments /\ List.map raw_text segments = raws.
Proof.
  intros Hsep. induction 1 as [|raw raws Hraw _ (segments & IH & Hmap)].
  - exists []. split; reflexivity.
  - destruct (parse_segment_nonempty d raw Hsep Hraw) as (seg & Hseg & Htext).
    exists (seg :: segments). cbn [parse_segments]. rewrite Hseg, IH. cbn [bind].
    split; [reflexivity|]. cbn [List.map]. rewrite Htext, Hmap. reflexivity.
Qed.

Lemma non_blank_lines_nonempty normalized :
  Forall (fun raw => raw <> EmptyString) (non_blank_lines normalized).
Proof.
  unfold non_blank_lines. apply List.Forall_forall. intros x Hx.
  apply List.filter_In in Hx as [_ Hx]. apply truthy_true, Hx.
Qed.

End TokenizeLines.

Lemma tokenize_outcome (message_text : string)
    (d : tokenizer.Delimiters) :
  let lines :=
    tokenizer.HL7Tokenizer.non_blank_lines
      (tokenizer.HL7Tokenizer._normalize_line_endings message_text) in
  match tokenizer.HL7Tokenizer.tokenize message_text d with
  | (d', Ok segments) => List.map tokenizer.raw_text segments = lines
  | (d', Raise e) =>
      lines <> []
      /\ tokenizer.HL7Tokenizer._validate_delimiters d' = Raise e
      /\ exists reason, e = MalformedSegmentError "MSH" reason
  end.
Proof.
  cbv zeta. unfold tokenizer.HL7Tokenizer.tokenize.
  pose proof (non_blank_lines_nonempty
                (tokenizer.HL7Tokenizer._normalize_line_endings message_text)) as Hne.
  destruct (tokenizer.HL7Tokenizer.non_blank_lines _) as [|raw rest] eqn:E;
    [reflexivity|].
  unfold tokenizer.HL7Tokenizer._detect_delimiters.
  destruct (tokenizer.HL7Tokenizer._validate_delimiters
              (tokenizer.HL7Tokenizer.detect_loop (raw :: rest) d)) as [[]|e] eqn:Hval;
    cbn [bind].
  - destruct (validate_delimiters_nonempty _ Hval) as [_ Hsep].
    destruct (parse_segments_lines _ (raw :: rest) Hsep Hne) as (segments & -> & Hmap).
    exact Hmap.
  - split; [discriminate|]. split; [reflexivity|].
    eapply validate_delimiters_error, Hval.
Qed.

(** X11.  The tokenizer keeps every line: when it returns, the raw
    texts of the segments are the stripped non-blank lines of the
    message, in order (one segment per line, none dropped or merged).
    Its only failure is the validation of the delimiters, a
    [MalformedSegmentError] on [MSH]. *)
Theorem X11_one_segment_per_non_blank_line (message_text : string)
    (d : tokenizer.Delimiters) :
  let lines :=
    tokenizer.HL7Tokenizer.non_blank_lines
      (tokenizer.HL7Tokenizer._normalize_line_endings message_text) in
  match tokenizer.HL7Tokenizer.tokenize message_text d with
  | (d', Ok segments) => List.map tokenizer.raw_text segments = lines
  | (d', Raise e) =>
      lines <> []
      /\ tokenizer.HL7Tokenizer._validate_delimiters d' = Raise e
      /\ exists reason, e = MalformedSegmentError "MSH" reason
  end.
Proof. exact (tokenize_outcome message_text d). Qed.

Section LineBreakFacts.
Import Py Spec SpecMore tokenizer tokenizer.HL7Tokenizer.

Lemma replace_from_removes (a : ascii) new s :
  forall_chars (fun c => negb (Ascii.eqb c a)) new = true ->
  forall_chars (fun c => negb (Ascii.eqb c a))
    (replace_from (String a EmptyString) new s 0) = true.
Proof.
  intros Hnew. induction s as [|c s IH]; [reflexivity|].
  cbn [replace_from String.prefix String.length Nat.sub].
  destruct (ascii_dec a c) as [->|Hac].
  - assert (String.prefix EmptyString s = true) as -> by (destruct s; reflexivity).
    rewrite forall_chars_app, Hnew. exact IH.
  - cbn [forall_chars]. rewrite IH, andb_true_r.
    apply negb_true_iff, Ascii.eqb_neq. congruence.
Qed.

Lemma split_from_removes (a : ascii) s :
  Forall (fun x => forall_chars (fun c => negb (Ascii.eqb c a)) x = true)
    (split_from (String a EmptyString) s 0).
Proof.
  induction s as [|c s IH]; [repeat constructor|].
  cbn [split_from String.prefix String.length Nat.sub].
  destruct (ascii_dec a c) as [->|Hac].
  - assert (String.prefix EmptyString s = true) as -> by (destruct s; reflexivity).
    constructor; [reflexivity | exact IH].
  - destruct (split_from (String a EmptyString) s 0) as [|p ps].
    + repeat constructor. cbn [forall_chars]. rewrite andb_true_r.
      apply negb_true_iff, Ascii.eqb_neq. congruence.
    + inversion IH as [|? ? Hp Hps]; subst. constructor; [|exact Hps].
      cbn [forall_chars]. rewrite Hp, andb_true_r.
      apply negb_true_iff, Ascii.eqb_neq. congruence.
Qed.

Lemma lstrip_forall p s : forall_chars p s = true -> forall_chars p (lstrip s) = true.
Proof.
  induction s as [|c s IH]; [reflexivity|]. intros H. cbn [lstrip].
  destruct (isspace c); [|exact H].
  cbn [forall_chars] in H. apply andb_true_iff in H as [_ H]. exact (IH H).
Qed.

Lemma rstrip_forall p s : forall_chars p s = true -> forall_chars p (rstrip s) = true.
Proof.
  induction s as [|c s IH]; [reflexivity|]. intros H.
  cbn [forall_chars] in H. apply andb_true_iff in H as [Hc H].
  cbn [rstrip]. destruct (rstrip s) as [|d r] eqn:E.
  - destruct (isspace c); [reflexivity|]. cbn [forall_chars]. rewrite Hc. reflexivity.
  - cbn [forall_chars] in *. rewrite Hc. exact (IH H).
Qed.

Lemma strip_forall p s : forall_chars p s = true -> forall_chars p (strip s) = true.
Proof. intros H. unfold strip. apply rstrip_forall, lstrip_forall, H. Qed.

Lemma forall_chars_and p q s :
  forall_chars (fun c => p c && q c) s = forall_chars p s && forall_chars q s.
Proof.
  induction s as [|c s IH]; [reflexivity|]. cbn [forall_chars]. rewrite IH.
  destruct (p c), (q c), (forall_chars p s), (forall_chars q s); reflexivity.
Qed.

Lemma lines_without_breaks text :
  Forall no_line_break (non_blank_lines (_normalize_line_endings text)).
Proof.
  unfold non_blank_lines, _normalize_line_endings, replace, split_on, CR, LF.
  set (inner := replace_from CRLF (String "010" EmptyString) text 0).
  apply List.Forall_forall. intros x Hx.
  apply List.filter_In in Hx as [Hx _]. apply List.in_map_iff in Hx as (y & <- & Hy).
  unfold no_line_break. rewrite forall_chars_and. apply andb_true_iff. split.
  - apply strip_forall.
    match type of Hy with
    | In _ (split_from ?sep ?s 0) =>
        pose proof (split_from_forall (fun c => negb (Ascii.eqb c "013")) sep s 0%nat
                      (replace_from_removes "013" (String "010" EmptyString) inner eq_refl)) as HF
    end.
    rewrite List.Forall_forall in HF. exact (HF y Hy).
  - apply strip_forall.
    match type of Hy with
    | In _ (split_from _ ?s 0) => pose proof (split_from_removes "010" s) as HF
    end.
    rewrite List.Forall_forall in HF. exact (HF y Hy).
Qed.

Lemma item_no_line_break raw n :
  no_line_break raw -> no_line_break (item raw n).
Proof.
  unfold no_line_break, item. revert n.
  induction raw as [|c raw IH]; intros n H; [destruct n; reflexivity|].
  cbn [forall_chars] in H. apply andb_true_iff in H as [Hc H].
  destruct n as [|n]; cbn [String.get].
  - cbn [forall_chars]. rewrite Hc. reflexivity.
  - apply IH, H.
Qed.

Lemma detect_loop_field lines : forall d,
  no_line_break (field d) -> Forall no_line_break lines ->
  no_line_break (field (detect_loop lines d)).
Proof.
  induction lines as [|raw lines IH]; intros d Hd Hl; [exact Hd|].
  inversion Hl as [|? ? Hraw Hrest]; subst.
  cbn [detect_loop]. destruct (startswith raw "MSH"); [|apply IH; assumption].
  unfold assign_from_header.
  assert (no_line_break
            (field (if Nat.leb 4 (String.length raw)
                    then set_field d (item raw 3) else d))) as H4.
  { destruct (Nat.leb 4 (String.length raw)); [|exact Hd].
    cbn [set_field field]. apply item_no_line_break, Hraw. }
  destruct (Nat.leb 8 (String.length raw)); [|exact H4].
  repeat match goal with
         | |- context [if ?b then _ else _] => destruct b
         end; exact H4.
Qed.

Lemma parse_segment_no_line_break d raw seg :
  no_line_break (field d) -> no_line_break raw ->
  _parse_segment d raw = Ok (Some seg) ->
  no_line_break (raw_text seg) /\ Forall no_line_break (fields seg).
Proof.
  intros Hd Hraw. unfold _parse_segment.
  destruct (negb (truthy raw)); [discriminate|].
  destruct (startswith raw "MSH").
  - intros H. apply bind_Ok_inv in H as (seg' & Hseg & H). injection H as <-.
    unfold _parse_msh_segment in Hseg.
    set (sep := if Nat.ltb 3 (String.length raw) then item raw 3 else field d) in *.
    assert (no_line_break sep) as Hsep.
    { subst sep. destruct (Nat.ltb 3 (String.length raw)); [|exact Hd].
      apply item_no_line_break, Hraw. }
    apply bind_Ok_inv in Hseg as (parts & Hparts & Hseg).
    apply bind_Ok_inv in Hseg as (fs & Hfs & Hseg). injection Hseg as <-.
    cbn [raw_text fields]. split; [exact Hraw|].
    assert (Forall no_line_break parts) as Hp.
    { unfold split in Hparts. destruct (truthy sep); [|discriminate].
      injection Hparts as <-. apply split_from_forall, Hraw. }
    destruct parts as [|p0 tail]; [injection Hfs as <-; repeat constructor; exact Hsep|].
    apply bind_Ok_inv in Hfs as (p0' & Hp0 & Hfs). injection Hfs as <-.
    rewrite getitem_head in Hp0. injection Hp0 as <-.
    inversion Hp as [|? ? H0 Ht]; subst.
    cbn [List.app]. repeat constructor; assumption.
  - intros H. apply bind_Ok_inv in H as (fs & Hfs & H).
    assert (Forall no_line_break fs) as Hp.
    { unfold split in Hfs. destruct (truthy (field d)); [|discriminate].
      injection Hfs as <-. apply split_from_forall, Hraw. }
    destruct fs as [|f fs']; [discriminate|].
    apply bind_Ok_inv in H as (t & _ & H). injection H as <-.
    cbn [raw_text fields]. split; assumption.
Qed.

Lemma parse_segments_no_line_break d raws : forall segments,
  no_line_break (field d) -> Forall no_line_break raws ->
  parse_segments d raws = Ok segments ->
  Forall (fun seg => no_line_break (raw_text seg)
                     /\ Forall no_line_break (fields seg)) segments.
Proof.
  induction raws as [|raw raws IH]; intros segments Hd Hl H; cbn [parse_segments] in H.
  - injection H as <-. constructor.
  - inversion Hl as [|? ? Hraw Hrest]; subst.
    apply bind_Ok_inv in H as (o & Ho & H).
    apply bind_Ok_inv in H as (rest & Hr & H). injection H as <-.
    specialize (IH rest Hd Hrest Hr).
    destruct o as [seg|]; [|exact IH].
    constructor; [|exact IH].
    eapply parse_segment_no_line_break; eassumption.
Qed.

End LineBreakFacts.

(** X12.  No segment holds a line break: when the field separator the
    tokenizer starts with has none, the raw text and every field of
    every segment are free of carriage returns and line feeds, whatever
    mix of line endings the message uses. *)
Theorem X12_segments_hold_no_line_break (message_text : string)
    (d d' : tokenizer.Delimiters) (segments : list tokenizer.Segment) :
  SpecMore.no_line_break (tokenizer.field d) ->
  tokenizer.HL7Tokenizer.tokenize message_text d = (d', Ok segments) ->
  Forall (fun seg =>
            SpecMore.no_line_break (tokenizer.raw_text seg)
            /\ Forall SpecMore.no_line_break (tokenizer.fields seg)) segments.
Proof.
  intros Hd. unfold tokenizer.HL7Tokenizer.tokenize.
  pose proof (lines_without_breaks message_text) as Hl.
  destruct (tokenizer.HL7Tokenizer.non_blank_lines _) as [|raw rest] eqn:E.
  - intros H. injection H as _ <-. constructor.
  - unfold tokenizer.HL7Tokenizer._detect_delimiters.
    pose proof (detect_loop_field (raw :: rest) d Hd Hl) as Hd1.
    remember (tokenizer.HL7Tokenizer.detect_loop (raw :: rest) d) as d1 eqn:Ed1.
    remember (raw :: rest) as raws eqn:Eraws.
    intros H. injection H as _ H.
    apply bind_Ok_inv in H as ([] & _ & H).
    eapply parse_segments_no_line_break; eassumption.
Qed.

Lemma X12_segments_hold_no_line_break_witness :
  let message_text :=
    "MSH|^~\&|SND" +:+ tokenizer.HL7Tokenizer.CRLF +:+ "PID|1||P77"
    +:+ tokenizer.HL7Tokenizer.CR +:+ "PV1|1" in
  exists segments,
    tokenizer.HL7Tokenizer.tokenize message_text tokenizer.Delimiters_new
    = (tokenizer.Delimiters_new, Ok segments)
    /\ length segments = 3%nat
    /\ Forall (fun seg =>
                 SpecMore.no_line_break (tokenizer.raw_text seg)
                 /\ Forall SpecMore.no_line_break (tokenizer.fields seg)) segments.
Proof.
  intros message_text.
  assert (SpecMore.no_line_break (tokenizer.field tokenizer.Delimiters_new)) as Hd
    by (vm_compute; reflexivity).
  assert (exists s0 s1 s2,
            tokenizer.HL7Tokenizer.tokenize message_text tokenizer.Delimiters_new
            = (tokenizer.Delimiters_new, Ok [s0; s1; s2])) as (s0 & s1 & s2 & H)
    by (do 3 eexists; vm_compute; reflexivity).
  exists [s0; s1; s2].
  exact (conj H (conj eq_refl
           (X12_segments_hold_no_line_break message_text _ _ _ Hd H))).
Defined.

(* ===================================================================== *)
(** * Beyond the claims: parsing a message                             *)
(* ===================================================================== *)

Section MessageTypeGate.
Import Py Spec SpecMore tokenizer tokenizer.HL7Tokenizer extractors parser parser.SIUParser.

Lemma item_or_empty_lookup (l : list string) (i : nat) :
  item_or_empty l i = Ok (match l !! i with Some x => x | None => EmptyString end).
Proof.
  unfold item_or_empty. destruct (Nat.ltb_spec i (length l)) as [Hlt|Hge].
  - destruct (getitem_in_range l (Z.of_nat i)) as (a & Hl & Hg); [lia|].
    rewrite Nat2Z.id in Hl. rewrite Hl. exact Hg.
  - rewrite (proj2 (lookup_ge_None l i)) by lia. reflexivity.
Qed.

Lemma lookup_or_second (l : list string) :
  lookup_or l 2 "" <> EmptyString <->
  exists f2, l !! 2%nat = Some f2 /\ f2 <> EmptyString /\ (3 <= length l)%nat.
Proof.
  unfold lookup_or. cbn [Z.ltb Z.compare orb].
  destruct (Z.leb_spec (Z.of_nat (length l)) 2) as [Hle|Hgt].
  - split; [congruence|]. intros (f2 & _ & _ & H). lia.
  - change (Z.to_nat 2) with 2%nat.
    destruct (l !! 2%nat) as [f2|] eqn:E.
    + unfold or_else. destruct f2 as [|c f2]; cbn [truthy].
      * split; [congruence|]. intros (f & Hf & Hne & _). congruence.
      * split; [|discriminate]. intros _. eexists. repeat split; [discriminate | lia].
    + split; [congruence|]. intros (f & Hf & _). discriminate.
Qed.

End MessageTypeGate.

(** X13.  The message-type gate, for a message with a header and a
    non-empty component separator: it passes exactly when MSH-2 is not
    empty, the first component of MSH-9 is [SIU] and the second one is
    missing, empty or [S12].  Further components are not looked at. *)
Theorem X13_message_type_gate (d : tokenizer.Delimiters)
    (m : gmap string tokenizer.Segment) (msh : tokenizer.Segment) :
  tokenizer.component d <> EmptyString ->
  m !! "MSH" = Some msh ->
  let components :=
    Py.split_on (tokenizer.component d)
      (Spec.lookup_or (tokenizer.fields msh) 9 "") in
  parser.SIUParser._validate_message_type d m = Ok tt <->
  Spec.lookup_or (tokenizer.fields msh) 2 "" <> EmptyString
  /\ components !! 0%nat = Some "SIU"
  /\ (components !! 1%nat = None \/ components !! 1%nat = Some ""
      \/ components !! 1%nat = Some "S12").
Proof.
  intros Hsep Hm components. subst components.
  unfold parser.SIUParser._validate_message_type. rewrite Hm.
  rewrite lookup_or_second.
  destruct (Nat.ltb_spec (length (tokenizer.fields msh)) 3) as [Hlt|Hge]; cbn [bind].
  { split; [discriminate|]. intros [(f2 & _ & _ & H) _]. lia. }
  destruct (getitem_in_range (tokenizer.fields msh) 2) as (f2 & Hl & Hg); [lia|].
  change (Z.to_nat 2) with 2%nat in Hl. rewrite Hg. cbn [bind].
  destruct f2 as [|c f2]; cbn [Py.truthy negb].
  { split; [discriminate|]. intros [(f & Hf & Hne & _) _]. congruence. }
  unfold extractors.MSHExtractor.extract_message_type.
  rewrite get_field_eq. cbn [bind].
  unfold extractors.component_sep, extractors.SegmentExtractor_new, extractors.delimiters.
  set (f9 := Spec.lookup_or (tokenizer.fields msh) 9 "").
  assert (exists f, tokenizer.fields msh !! 2%nat = Some f /\ f <> EmptyString
                    /\ (3 <= length (tokenizer.fields msh))%nat) as Hsecond
    by (eexists; repeat split; [exact Hl | discriminate | exact Hge]).
  destruct f9 as [|c9 f9'] eqn:E9; cbn [Py.truthy negb].
  { cbn [bind]. split; [discriminate|]. intros (_ & H & _). discriminate. }
  rewrite <- E9. rewrite split_nonempty_sep by exact Hsep. cbn [bind].
  rewrite !item_or_empty_lookup. cbn [bind].
  pose proof (split_from_nonempty (tokenizer.component d) f9 0%nat) as Hne.
  unfold Py.split_on.
  destruct (Py.split_from (tokenizer.component d) f9 0) as [|x0 xs]; [congruence|].
  cbn [lookup list_lookup].
  destruct (String.eqb_spec x0 parser.EXPECTED_MESSAGE_TYPE) as [->|Hx0]; cbn [negb].
  - destruct xs as [|x1 xs]; cbn [lookup list_lookup Py.truthy andb].
    + split; [intros _|reflexivity]. split; [exact Hsecond|]. split; [reflexivity|].
      left. reflexivity.
    + destruct x1 as [|c1 x1]; cbn [Py.truthy andb].
      * split; [intros _|reflexivity]. split; [exact Hsecond|]. split; [reflexivity|].
        right. left. reflexivity.
      * destruct (String.eqb_spec (String c1 x1) parser.EXPECTED_TRIGGER_EVENT)
          as [->|Hx1]; cbn [negb].
        -- split; [intros _|reflexivity]. split; [exact Hsecond|].
           split; [reflexivity|]. right. right. reflexivity.
        -- unfold parser.EXPECTED_TRIGGER_EVENT in Hx1.
           split; [discriminate|]. intros (_ & _ & [H | [H | H]]); congruence.
  - unfold parser.EXPECTED_MESSAGE_TYPE in Hx0.
    split; [discriminate|]. intros (_ & H & _). congruence.
Qed.

Lemma X13_message_type_gate_witness :
  let msh :=
    tokenizer.mkSegment "MSH"
      ["MSH"; "|"; "^~\&"; "SND"; "FAC"; ""; "RCV"; "20250502"; ""; "SIU"; "1"; "P"; "2.5"]
      "MSH|^~\&|SND|FAC||RCV|20250502||SIU|1|P|2.5" in
  parser.SIUParser._validate_message_type tokenizer.Delimiters_new
    (parser.SIUParser._build_segment_map [msh]) = Ok tt.
Proof.
  intros msh.
  assert (tokenizer.component tokenizer.Delimiters_new <> EmptyString) as Hsep
    by discriminate.
  assert (parser.SIUParser._build_segment_map [msh] !! "MSH" = Some msh) as Hm
    by (vm_compute; reflexivity).
  assert (Spec.lookup_or (tokenizer.fields msh) 2 "" <> EmptyString) as H2
    by (vm_compute; discriminate).
  assert (Py.split_on (tokenizer.component tokenizer.Delimiters_new)
            (Spec.lookup_or (tokenizer.fields msh) 9 "") !! 0%nat = Some "SIU") as H0
    by (vm_compute; reflexivity).
  assert (Py.split_on (tokenizer.component tokenizer.Delimiters_new)
            (Spec.lookup_or (tokenizer.fields msh) 9 "") !! 1%nat = None) as H1
    by (vm_compute; reflexivity).
  exact (proj2 (X13_message_type_gate tokenizer.Delimiters_new _ msh Hsep Hm)
           (conj H2 (conj H0 (or_introl H1)))).
Defined.

Section StrictFacts.
Import Py Spec SpecMore tokenizer tokenizer.HL7Tokenizer extractors parser parser.SIUParser.

Lemma assemble_strict_irrelevant d m idx w :
  is_Some (m !! "SCH") -> is_Some (m !! "PID") ->
  extract_and_assemble true d m idx w = extract_and_assemble false d m idx w.
Proof.
  intros [sch Hsch] [pid Hpid].
  unfold extract_and_assemble, sch_block, pid_block. rewrite Hsch, Hpid.
  reflexivity.
Qed.

Lemma assemble_strict_or_lenient d m idx :
  _validate_delimiters d = Ok tt ->
  extract_and_assemble true d m idx [] = extract_and_assemble false d m idx []
  \/ exists seg r,
       (seg = "SCH" \/ seg = "PID")
       /\ m !! seg = None
       /\ extract_and_assemble true d m idx [] = Raise (MissingSegmentError seg)
       /\ extract_and_assemble false d m idx [] = Ok r
       /\ models.ParseResult.warnings r <> [].
Proof.
  intros Hval.
  destruct (validate_delimiters_nonempty d Hval) as [Hsplit _].
  pose proof (assemble_shape _ Hsplit true d m idx eq_refl) as Ht.
  pose proof (assemble_shape _ Hsplit false d m idx eq_refl) as Hf.
  cbv zeta in Ht, Hf.
  destruct Hf as [(Hcontra & _) | [(Hcontra & _) | (r & Hr & _ & Hsch & Hpid & _)]];
    try discriminate.
  destruct Ht as [(_ & Hnone & He) | [(_ & Hsome & Hnone & He) | (r' & Hr' & Hboth & _)]].
  - right. exists "SCH", r. split; [left; reflexivity|].
    split; [exact Hnone|]. split; [exact He|]. split; [exact Hr|].
    destruct (Hsch Hnone) as [Hin _]. intros Hnil. rewrite Hnil in Hin.
    apply elem_of_nil in Hin. exact Hin.
  - right. exists "PID", r. split; [right; reflexivity|].
    split; [exact Hnone|]. split; [exact He|]. split; [exact Hr|].
    destruct (Hpid Hnone) as [Hin _]. intros Hnil. rewrite Hnil in Hin.
    apply elem_of_nil in Hin. exact Hin.
  - left. destruct Hboth as [Hcontra | [H1 H2]]; [discriminate|].
    apply assemble_strict_irrelevant; assumption.
Qed.

End StrictFacts.

(** X14.  Strict mode changes the outcome of a message in one way
    only: where the lenient parser returns a result with warnings
    because [SCH] or [PID] is missing, the strict one raises
    [MissingSegmentError] for that segment.  Otherwise both give the
    same outcome, and they always leave the same delimiters behind. *)
Theorem X14_strict_mode_only_adds_missing_segment_errors
    (message_text : string) (message_index : Z) (d : tokenizer.Delimiters) :
  let strict := parser.SIUParser._parse_single_message true message_text message_index d in
  let lenient := parser.SIUParser._parse_single_message false message_text message_index d in
  fst strict = fst lenient
  /\ (snd strict = snd lenient
      \/ exists seg r,
           (seg = "SCH" \/ seg = "PID")
           /\ snd strict = Raise (MissingSegmentError seg)
           /\ snd lenient = Ok r
           /\ models.ParseResult.warnings r <> []).
Proof.
  cbv zeta. unfold parser.SIUParser._parse_single_message.
  destruct (tokenizer.HL7Tokenizer.tokenize message_text d) as [d' tokenized] eqn:Htok.
  cbn [fst snd]. split; [reflexivity|].
  destruct tokenized as [segments|e]; cbn [bind]; [|left; reflexivity].
  destruct segments as [|seg rest] eqn:Hsegs; [left; reflexivity|].
  rewrite <- Hsegs in *.
  destruct (parser.SIUParser._validate_message_type d'
              (parser.SIUParser._build_segment_map segments)) as [[]|e] eqn:Hval;
    cbn [bind]; [|left; reflexivity].
  assert (segments <> []) as Hne by (rewrite Hsegs; discriminate).
  pose proof (tokenize_validated _ _ _ _ Htok Hne) as Hd.
  destruct (assemble_strict_or_lenient d' (parser.SIUParser._build_segment_map segments)
              message_index Hd) as [Heq | (s & r & Hs & _ & H1 & H2 & H3)].
  - left. exact Heq.
  - right. exists s, r. auto.
Qed.

Section IndexFacts.
Import Py Spec SpecMore tokenizer tokenizer.HL7Tokenizer extractors parser parser.SIUParser.

Lemma assemble_index strict_mode d m idx w r :
  extract_and_assemble strict_mode d m idx w = Ok r ->
  models.ParseResult.source_message_index r = idx.
Proof.
  unfold extract_and_assemble. intros H.
  apply bind_Ok_inv in H as (sch & _ & H).
  apply bind_Ok_inv in H as ([patient w1] & _ & H).
  apply bind_Ok_inv in H as ([[provider location] w2] & _ & H).
  apply bind_Ok_inv in H as ([control_id message_datetime] & _ & H).
  injection H as <-. reflexivity.
Qed.

Lemma parse_single_message_index strict_mode message_text idx d d' r :
  _parse_single_message strict_mode message_text idx d = (d', Ok r) ->
  models.ParseResult.source_message_index r = idx.
Proof.
  unfold _parse_single_message.
  destruct (tokenize message_text d) as [d1 tokenized].
  intros H. injection H as _ H.
  apply bind_Ok_inv in H as (segments & _ & H).
  destruct segments as [|seg rest]; [discriminate|].
  apply bind_Ok_inv in H as (u & _ & H).
  eapply assemble_index, H.
Qed.

Lemma parse_loop_indices strict_mode messages : forall idx results d d' out,
  parse_loop strict_mode messages idx results d = (d', Ok out) ->
  exists new,
    out = results ++ new /\ length new = length messages
    /\ forall (i : nat) r, new !! i = Some r ->
         models.ParseResult.source_message_index r = idx + Z.of_nat i.
Proof.
  induction messages as [|message_text rest IH]; intros idx results d d' out H;
    cbn [parse_loop] in H.
  - injection H as _ <-. exists []. rewrite app_nil_r.
    split; [reflexivity|]. split; [reflexivity|]. intros i r Hi. discriminate.
  - destruct (_parse_single_message strict_mode message_text idx d)
      as [d1 [result|e]] eqn:E; [|discriminate].
    apply IH in H as (new & -> & Hlen & Hidx).
    exists (result :: new). rewrite <- app_assoc. split; [reflexivity|].
    split; [cbn [length]; lia|].
    intros [|i] r Hi.
    + injection Hi as <-. rewrite Z.add_0_r.
      eapply parse_single_message_index, E.
    + cbn in Hi. rewrite (Hidx i r Hi). lia.
Qed.

Lemma blank_lines_open_nothing lines :
  Forall (fun x => forall_chars isspace x = true) lines ->
  List.filter opens_message lines = [].
Proof.
  induction 1 as [|line lines Hline _ IH]; [reflexivity|].
  cbn [List.filter]. unfold opens_message at 1.
  rewrite (strip_blank line Hline). exact IH.
Qed.

Lemma blank_content_lines content :
  strip content = EmptyString ->
  List.filter opens_message
    (split_on LF (replace (replace content CRLF LF) CR LF)) = [].
Proof.
  intros H. apply strip_empty_blank in H.
  apply blank_lines_open_nothing. unfold split_on, replace.
  apply split_from_forall. apply replace_from_forall; [|reflexivity].
  apply replace_from_forall; [exact H | reflexivity].
Qed.

Lemma split_hl7_messages_length content :
  length (split_hl7_messages content)
  = length (List.filter opens_message
              (split_on LF (replace (replace content CRLF LF) CR LF))).
Proof.
  unfold split_hl7_messages.
  set (lines := split_on LF (replace (replace content CRLF LF) CR LF)).
  destruct (split_loop_invariant lines [] [] ltac:(constructor) I) as (_ & _ & H3).
  destruct (split_loop lines [] []) as [messages current].
  cbn [fst snd length] in H3.
  destruct current as [|h t]; [lia|].
  rewrite length_app. cbn [length]. lia.
Qed.

End IndexFacts.

(** X15.  When [parse] returns, it returns one result per header
    line of the content (a line that starts with [MSH] once stripped),
    and the result at position [i] carries [source_message_index = i]. *)
Theorem X15_one_indexed_result_per_header_line
    (strict_mode : bool) (content : string) (d d' : tokenizer.Delimiters)
    (results : list models.ParseResult.t) :
  parser.SIUParser.parse strict_mode content d = (d', Ok results) ->
  length results
  = length (List.filter SpecMore.opens_message
              (Py.split_on tokenizer.HL7Tokenizer.LF
                 (Py.replace (Py.replace content tokenizer.HL7Tokenizer.CRLF
                                tokenizer.HL7Tokenizer.LF)
                    tokenizer.HL7Tokenizer.CR tokenizer.HL7Tokenizer.LF)))
  /\ forall (i : nat) r,
       results !! i = Some r ->
       models.ParseResult.source_message_index r = Z.of_nat i.
Proof.
  unfold parser.SIUParser.parse. intros H.
  destruct (Py.truthy content) eqn:Hc; cbn [negb orb] in H.
  - destruct (Py.truthy (Py.strip content)) eqn:Hs; cbn [negb] in H.
    + apply parse_loop_indices in H as (new & -> & Hlen & Hidx).
      cbn [List.app]. split.
      * rewrite Hlen. apply split_hl7_messages_length.
      * intros i r Hi. rewrite (Hidx i r Hi). lia.
    + injection H as _ <-. apply truthy_false in Hs.
      rewrite (blank_content_lines content Hs).
      split; [reflexivity|]. intros i r Hi. discriminate.
  - injection H as _ <-. apply truthy_false in Hc. subst content.
    split; [reflexivity|]. intros i r Hi. discriminate.
Qed.

Lemma X15_one_indexed_result_per_header_line_witness :
  let content :=
    "MSH|^~\&|SND|FAC||RCV|20250502||SIU^S12|1|P|2.5" +:+ tokenizer.HL7Tokenizer.LF
    +:+ "SCH|A1|A2" +:+ tokenizer.HL7Tokenizer.LF
    +:+ "MSH|^~\&|SND|FAC||RCV|20250503||SIU^S12|2|P|2.5" +:+ tokenizer.HL7Tokenizer.LF
    +:+ "PID|1||P77" in
  exists r0 r1,
    parser.parse_hl7_message content false = Ok [r0; r1]
    /\ models.ParseResult.source_message_index r0 = 0
    /\ models.ParseResult.source_message_index r1 = 1.
Proof.
  intros content.
  assert (exists r0 r1,
            parser.SIUParser.parse false content tokenizer.Delimiters_new
            = (tokenizer.Delimiters_new, Ok [r0; r1])) as (r0 & r1 & H)
    by (do 2 eexists; vm_compute; reflexivity).
  destruct (X15_one_indexed_result_per_header_line false content _ _ _ H)
    as [_ Hidx].
  exists r0, r1. split.
  - unfold parser.parse_hl7_message. rewrite H. reflexivity.
  - exact (conj (Hidx 0%nat r0 eq_refl) (Hidx 1%nat r1 eq_refl)).
Defined.

Section ResultInvariants.
Import Py Spec SpecMore tokenizer tokenizer.HL7Tokenizer extractors parser parser.SIUParser.












End ResultInvariants.



Section ErrorFacts.
Import Py Spec SpecMore tokenizer tokenizer.HL7Tokenizer extractors parser parser.SIUParser.

Lemma messages_headed content :
  Forall (fun m => startswith m "MSH" = true) (split_hl7_messages content).
Proof.
  unfold split_hl7_messages.
  set (lines := split_on LF (replace (replace content CRLF LF) CR LF)).
  destruct (split_loop_invariant lines [] [] ltac:(constructor) I) as (H1 & H2 & _).
  destruct (split_loop lines [] []) as [messages current]. cbn [fst snd] in *.
  destruct current as [|h t]; [exact H1|].
  apply Forall_app. split; [exact H1|]. constructor; [|constructor].
  apply startswith_join. exact H2.
Qed.

Lemma startswith_MSH m :
  startswith m "MSH" = true -> exists r, m = "MSH" +:+ r.
Proof.
  intros H. destruct (prefix_drop "MSH" m H) as [Heq _]. eauto.
Qed.

Lemma rstrip_keep c s : isspace c = false -> rstrip (String c s) = String c (rstrip s).
Proof. intros Hc. cbn [rstrip]. destruct (rstrip s); rewrite ?Hc; reflexivity. Qed.

Lemma prefix_other_head a sep c s :
  a <> c -> String.prefix (String a sep) (String c s) = false.
Proof. intros Hac. cbn [String.prefix]. destruct (ascii_dec a c); [contradiction | reflexivity]. Qed.

Lemma not_space_not_break c :
  isspace c = false -> "013"%char <> c /\ "010"%char <> c.
Proof. intros Hc. split; intros <-; discriminate Hc. Qed.

Lemma replace_from_head a old new c s :
  a <> c ->
  replace_from (String a old) new (String c s) 0
  = String c (replace_from (String a old) new s 0).
Proof.
  intros Hac. cbn [replace_from]. rewrite (prefix_other_head a old c s Hac).
  reflexivity.
Qed.

Lemma split_from_head a sep c s :
  a <> c ->
  exists p ps,
    split_from (String a sep) s 0 = p :: ps
    /\ split_from (String a sep) (String c s) 0 = String c p :: ps.
Proof.
  intros Hac. cbn [split_from]. rewrite (prefix_other_head a sep c s Hac).
  pose proof (split_from_nonempty (String a sep) s 0%nat) as Hne.
  destruct (split_from (String a sep) s 0) as [|p ps]; [congruence|]. eauto.
Qed.

Lemma normalize_head c s :
  isspace c = false ->
  _normalize_line_endings (String c s) = String c (_normalize_line_endings s).
Proof.
  intros Hc. destruct (not_space_not_break c Hc) as [Hcr Hlf].
  unfold _normalize_line_endings, replace, CRLF, CR, LF.
  rewrite !replace_from_head by assumption. reflexivity.
Qed.

(** A run of non-blank characters at the start of a message is the
    start of its first line. *)
Lemma first_part_head h r :
  forall_chars (fun c => negb (isspace c)) h = true ->
  exists p ps, split_on LF (_normalize_line_endings (h +:+ r)) = (h +:+ p) :: ps.
Proof.
  unfold split_on. induction h as [|c h IH]; intros Hh.
  - change (EmptyString +:+ r) with r.
    pose proof (split_from_nonempty LF (_normalize_line_endings r) 0%nat) as Hne.
    destruct (split_from LF (_normalize_line_endings r) 0) as [|p ps]; [congruence|].
    exists p, ps. reflexivity.
  - cbn [forall_chars] in Hh. apply andb_true_iff in Hh as [Hc Hh].
    apply negb_true_iff in Hc. destruct (not_space_not_break c Hc) as [_ Hlf].
    rewrite app_cons, normalize_head by exact Hc.
    destruct (IH Hh) as (p & ps & Hp).
    destruct (split_from_head "010" EmptyString c
                (_normalize_line_endings (h +:+ r)) Hlf) as (q & qs & Hq & Hs).
    unfold LF in *. rewrite Hs. rewrite Hp in Hq. injection Hq as <- <-.
    exists p, ps. rewrite app_cons. reflexivity.
Qed.

Lemma rstrip_head_run h p :
  forall_chars (fun c => negb (isspace c)) h = true ->
  rstrip (h +:+ p) = h +:+ rstrip p.
Proof.
  induction h as [|c h IH]; intros Hh; [reflexivity|].
  cbn [forall_chars] in Hh. apply andb_true_iff in Hh as [Hc Hh].
  apply negb_true_iff in Hc.
  rewrite app_cons, rstrip_keep by exact Hc. rewrite IH by exact Hh.
  rewrite app_cons. reflexivity.
Qed.

Lemma strip_head_run h p :
  forall_chars (fun c => negb (isspace c)) h = true -> h <> EmptyString ->
  strip (h +:+ p) = h +:+ rstrip p.
Proof.
  intros Hh Hne. unfold strip. destruct h as [|c h]; [congruence|].
  pose proof Hh as Hh'. cbn [forall_chars] in Hh'.
  apply andb_true_iff in Hh' as [Hc _]. apply negb_true_iff in Hc.
  rewrite app_cons. cbn [lstrip]. rewrite Hc. rewrite <- app_cons.
  apply rstrip_head_run, Hh.
Qed.

Lemma header_line_first m :
  startswith m "MSH" = true ->
  exists raw rest,
    non_blank_lines (_normalize_line_endings m) = raw :: rest
    /\ startswith raw "MSH" = true.
Proof.
  intros H. destruct (startswith_MSH m H) as [r ->].
  destruct (first_part_head "MSH" r eq_refl) as (p & ps & Hp).
  unfold non_blank_lines. rewrite Hp. cbn [List.map].
  rewrite strip_head_run by (reflexivity || discriminate).
  assert (truthy ("MSH" +:+ rstrip p) = true) as Ht by reflexivity.
  cbn [List.filter]. rewrite Ht.
  eexists _, _. split; [reflexivity|].
  apply prefix_app. vm_compute. reflexivity.
Qed.

Lemma tokenize_header_first m d d' segments :
  startswith m "MSH" = true ->
  tokenize m d = (d', Ok segments) ->
  exists seg rest, segments = seg :: rest /\ segment_type seg = "MSH".
Proof.
  intros Hm. destruct (header_line_first m Hm) as (raw & raws & Hlines & Hraw).
  unfold tokenize. rewrite Hlines. unfold _detect_delimiters.
  intros H. injection H as <- H.
  apply bind_Ok_inv in H as ([] & _ & H).
  cbn [parse_segments] in H.
  apply bind_Ok_inv in H as (o & Ho & H).
  apply bind_Ok_inv in H as (rest & _ & H).
  assert (truthy raw = true) as Ht by (destruct raw; [discriminate Hraw | reflexivity]).
  unfold _parse_segment in Ho. rewrite Hraw, Ht in Ho. cbn [negb] in Ho.
  apply bind_Ok_inv in Ho as (seg & Hseg & Ho). injection Ho as <-.
  injection H as <-. exists seg, rest. split; [reflexivity|].
  unfold _parse_msh_segment in Hseg.
  apply bind_Ok_inv in Hseg as (parts & _ & Hseg).
  apply bind_Ok_inv in Hseg as (fs & _ & Hseg).
  injection Hseg as <-. reflexivity.
Qed.

Lemma validate_message_type_errors d m msh e :
  component d <> EmptyString -> m !! "MSH" = Some msh ->
  _validate_message_type d m = Raise e ->
  (exists reason, e = MalformedSegmentError "MSH" reason)
  \/ (exists actual, e = InvalidMessageTypeError "SIU^S12" actual).
Proof.
  intros Hsep Hm. unfold _validate_message_type. rewrite Hm.
  destruct (Nat.ltb_spec (length (fields msh)) 3) as [Hlt|Hge]; cbn [bind].
  { intros H. injection H as <-. eauto. }
  destruct (getitem_in_range (fields msh) 2) as (f2 & _ & ->); [lia|]. cbn [bind].
  destruct (negb (truthy f2)).
  { intros H. injection H as <-. eauto. }
  unfold MSHExtractor.extract_message_type. rewrite get_field_eq. cbn [bind].
  unfold component_sep, SegmentExtractor_new, delimiters.
  destruct (negb (truthy (lookup_or (fields msh) 9 ""))).
  - cbn [bind]. change (negb (String.eqb "" EXPECTED_MESSAGE_TYPE)) with true.
    cbn iota. intros H. injection H as <-. eauto.
  - rewrite split_nonempty_sep by exact Hsep. cbn [bind].
    rewrite !item_or_empty_lookup. cbn [bind].
    repeat match goal with
           | |- context [if ?b then _ else _] => destruct b
           end; intros H; try discriminate H; injection H as <-; eauto.
Qed.

Lemma parse_single_message_errors strict_mode m idx d d' e :
  startswith m "MSH" = true ->
  _parse_single_message strict_mode m idx d = (d', Raise e) ->
  parse_error strict_mode e.
Proof.
  intros Hm. unfold _parse_single_message.
  destruct (tokenize m d) as [d1 tokenized] eqn:Htok.
  intros H. injection H as <- H.
  destruct tokenized as [segments|e']; cbn [bind] in H.
  - destruct (tokenize_header_first m d d1 segments Hm Htok)
      as (seg & rest & -> & Hseg).
    pose proof (tokenize_validated _ _ _ _ Htok ltac:(discriminate)) as Hval.
    destruct (validate_delimiters_nonempty d1 Hval) as [Hsplit _].
    assert (_build_segment_map (seg :: rest) !! "MSH" = Some seg) as Hmsh.
    { unfold _build_segment_map. rewrite build_loop_lookup, lookup_empty.
      cbn [first_of_type]. rewrite Hseg. reflexivity. }
    destruct (_validate_message_type d1 (_build_segment_map (seg :: rest)))
      as [[]|e'] eqn:Hv; cbn [bind] in H.
    + pose proof (assemble_shape _ Hsplit strict_mode d1
                    (_build_segment_map (seg :: rest)) idx eq_refl) as Hs.
      cbv zeta in Hs. rewrite H in Hs.
      destruct Hs as [(Hst & _ & He) | [(Hst & _ & _ & He) | (r & He & _)]];
        try discriminate He; injection He as ->;
        right; right; split; auto.
    + injection H as <-.
      destruct (validate_message_type_errors d1 _ seg e' (proj1 Hsplit) Hmsh Hv)
        as [Hr | Ha]; [left | right; left]; exact Hr || exact Ha.
  - injection H as <-.
    pose proof (tokenize_outcome m d) as Ho. cbv zeta in Ho. rewrite Htok in Ho.
    destruct Ho as (_ & _ & Hr). left. exact Hr.
Qed.

Lemma parse_loop_errors strict_mode messages : forall idx out d d' e,
  Forall (fun m => startswith m "MSH" = true) messages ->
  parse_loop strict_mode messages idx out d = (d', Raise e) ->
  parse_error strict_mode e.
Proof.
  induction messages as [|m rest IH]; intros idx out d d' e Hh H;
    cbn [parse_loop] in H; [discriminate|].
  inversion Hh as [|? ? Hm Hrest]; subst.
  destruct (_parse_single_message strict_mode m idx d) as [d1 [r|e1]] eqn:E.
  - eapply IH; eassumption.
  - injection H as _ <-. eapply parse_single_message_errors; eassumption.
Qed.

End ErrorFacts.

(** X17.  The errors of [parse]: a [MalformedSegmentError] on [MSH]
    (delimiters or encoding characters), an [InvalidMessageTypeError]
    expecting [SIU^S12], or, in strict mode only, a
    [MissingSegmentError] for [SCH] or [PID].  Every message [parse]
    hands on starts with a header, so a missing [MSH] and a message
    without segments are never reported. *)
Theorem X17_errors_of_parse (strict_mode : bool) (content : string)
    (d d' : tokenizer.Delimiters) (e : exn) :
  parser.SIUParser.parse strict_mode content d = (d', Raise e) ->
  (exists reason, e = MalformedSegmentError "MSH" reason)
  \/ (exists actual, e = InvalidMessageTypeError "SIU^S12" actual)
  \/ (strict_mode = true
      /\ (e = MissingSegmentError "SCH" \/ e = MissingSegmentError "PID")).
Proof.
  unfold parser.SIUParser.parse.
  destruct (negb (Py.truthy content) || negb (Py.truthy (Py.strip content)));
    [discriminate|].
  apply parse_loop_errors, messages_headed.
Qed.

Lemma X17_errors_of_parse_witness :
  let content := "MSH|^~\&|SND|FAC||RCV|20250502||ADT^A01|1|P|2.5" in
  exists e,
    parser.parse_hl7_message content true = Raise e
    /\ ((exists reason, e = MalformedSegmentError "MSH" reason)
        \/ (exists actual, e = InvalidMessageTypeError "SIU^S12" actual)
        \/ (true = true
            /\ (e = MissingSegmentError "SCH" \/ e = MissingSegmentError "PID"))).
Proof.
  intros content.
  assert (parser.SIUParser.parse true content tokenizer.Delimiters_new
          = (tokenizer.Delimiters_new,
             Raise (InvalidMessageTypeError "SIU^S12" "ADT^A01"))) as H
    by (vm_compute; reflexivity).
  exists (InvalidMessageTypeError "SIU^S12" "ADT^A01"). split.
  - unfold parser.parse_hl7_message. rewrite H. reflexivity.
  - exact (X17_errors_of_parse true content _ _ _ H).
Defined.

(* ===================================================================== *)
(** * Beyond the claims: the extractors                                *)
(* ===================================================================== *)

Section TimingFacts.
Import Py Spec SpecMore tokenizer extractors.

Let pick (components : list string) (i : nat) : string :=
  match components !! i with Some c => c | None => EmptyString end.

Lemma guard_pick components i :
  Nat.ltb i (length components) && truthy (pick components i)
  = truthy (pick components i).
Proof.
  unfold pick. destruct (components !! i) eqn:E; [|apply andb_false_r].
  apply lookup_lt_Some in E. apply Nat.ltb_lt in E. rewrite E. reflexivity.
Qed.

Lemma datetime_loop_first_parsed self segment indices :
  component_sep self <> EmptyString ->
  SCHExtractor.datetime_loop self segment indices
  = Ok (first_parsed
          (flat_map (timing_candidates (component_sep self) segment) indices)).
Proof.
  intros Hsep. induction indices as [|i rest IH]; [reflexivity|].
  cbn [SCHExtractor.datetime_loop flat_map]. rewrite get_field_eq. cbn [bind].
  unfold timing_candidates at 1.
  destruct (truthy (lookup_or (fields segment) i "")) eqn:Hf; cbn [negb];
    [|exact IH].
  rewrite split_nonempty_sep by exact Hsep. cbn [bind].
  rewrite !item_or_empty_lookup. cbn [bind].
  set (components := split_on (component_sep self) (lookup_or (fields segment) i "")).
  fold (pick components 3) (pick components 0). rewrite !guard_pick.
  unfold SCHExtractor.try_component. cbn [List.filter].
  destruct (truthy (pick components 3)) eqn:H3;
    destruct (truthy (pick components 0)) eqn:H0;
    cbn [List.app first_parsed];
    repeat match goal with
           | |- context [timestamps.parse_hl7_timestamp ?c true] =>
               destruct (timestamps.parse_hl7_timestamp c true)
           end;
    first [reflexivity | exact IH].
Qed.

End TimingFacts.

(** X18.  The appointment time is the first value, in the order SCH-10
    component 4, SCH-10 component 1, SCH-11 component 4, SCH-11
    component 1, that is not empty and that the normalizer does not
    reject; rejected values are skipped silently, and a value that is
    only blanks ends the search with no time. *)
Theorem X18_appointment_time_is_first_candidate_that_parses
    (self : extractors.SegmentExtractor) (segment : tokenizer.Segment) :
  extractors.component_sep self <> EmptyString ->
  extractors.SCHExtractor.extract_appointment_datetime self segment
  = Ok (SpecMore.first_parsed
          (SpecMore.timing_candidates (extractors.component_sep self) segment 10
           ++ SpecMore.timing_candidates (extractors.component_sep self) segment 11)).
Proof.
  intros Hsep. unfold extractors.SCHExtractor.extract_appointment_datetime.
  rewrite datetime_loop_first_parsed by exact Hsep.
  cbn [flat_map]. rewrite app_nil_r. reflexivity.
Qed.

Lemma X18_appointment_time_is_first_candidate_that_parses_witness :
  let sch :=
    tokenizer.mkSegment "SCH"
      ["SCH"; "1"; "2"; ""; ""; ""; ""; ""; ""; ""; "^^^tomorrow"; "^^^20250503140000"]
      "SCH|1|2||||||||^^^tomorrow|^^^20250503140000" in
  extractors.SCHExtractor.extract_appointment_datetime
    (extractors.SegmentExtractor_new None) sch
  = Ok (Some "2025-05-03T14:00:00Z").
Proof.
  intros sch.
  assert (extractors.component_sep (extractors.SegmentExtractor_new None)
          <> EmptyString) as Hsep by discriminate.
  pose proof (X18_appointment_time_is_first_candidate_that_parses
                (extractors.SegmentExtractor_new None) sch Hsep) as H.
  assert (SpecMore.first_parsed
            (SpecMore.timing_candidates
               (extractors.component_sep (extractors.SegmentExtractor_new None)) sch 10
             ++ SpecMore.timing_candidates
                  (extractors.component_sep (extractors.SegmentExtractor_new None))
                  sch 11)
          = Some "2025-05-03T14:00:00Z") as Hc by (vm_compute; reflexivity).
  rewrite Hc in H. exact H.
Defined.

(* ===================================================================== *)
(** * Beyond the claims: streaming a file                              *)
(* ===================================================================== *)

Section StreamFacts.
Import Py Spec SpecMore tokenizer tokenizer.HL7Tokenizer parser parser.SIUParser io_handler.

Lemma rstrip_chars_split chars s :
  forallb isspace chars = true ->
  exists post, s = rstrip_chars chars s +:+ post /\ forall_chars isspace post = true.
Proof.
  intros Hchars. induction s as [|c s (post & Hs & Hpost)].
  - exists EmptyString. split; reflexivity.
  - cbn [rstrip_chars]. destruct (rstrip_chars chars s) as [|a r] eqn:E.
    + change (EmptyString +:+ post) with post in Hs. subst post.
      destruct (existsb (Ascii.eqb c) chars) eqn:Hc.
      * exists (String c s). split; [reflexivity|]. cbn [forall_chars].
        rewrite Hpost, andb_true_r.
        apply existsb_exists in Hc as (x & Hx & Hcx).
        apply Ascii.eqb_eq in Hcx. subst x.
        rewrite forallb_forall in Hchars. apply Hchars, Hx.
      * exists s. split; [reflexivity | exact Hpost].
    + exists post. split; [|exact Hpost]. rewrite !app_cons. rewrite app_cons in Hs.
      rewrite <- Hs. reflexivity.
Qed.

Lemma strip_rstrip_chars chars s :
  forallb isspace chars = true -> strip (rstrip_chars chars s) = strip s.
Proof.
  intros Hchars. destruct (rstrip_chars_split chars s Hchars) as (post & Hs & Hpost).
  rewrite Hs at 2.
  symmetry. apply (strip_surrounded EmptyString (rstrip_chars chars s) post eq_refl Hpost).
Qed.

Lemma split_loop_group lines : forall messages current,
  split_loop lines messages current = group_loop (significant lines) messages current.
Proof.
  unfold significant.
  induction lines as [|line lines IH]; intros messages current; [reflexivity|].
  cbn [split_loop List.map List.filter].
  destruct (truthy (strip line)); cbn [negb]; [|apply IH].
  cbn [group_loop]. destruct (startswith (strip line) "MSH"); [apply IH|].
  destruct current; apply IH.
Qed.

Lemma group_loop_acc stripped : forall messages current,
  group_loop stripped messages current
  = (messages ++ fst (group_loop stripped [] current),
     snd (group_loop stripped [] current)).
Proof.
  induction stripped as [|line rest IH]; intros messages current;
    cbn [group_loop fst snd].
  - rewrite app_nil_r. reflexivity.
  - destruct (startswith line "MSH").
    + rewrite IH. rewrite (IH (match current with
                               | [] => []
                               | _ :: _ => [] ++ [join LF current]
                               end)).
      cbn [fst snd]. destruct current; [reflexivity|].
      rewrite <- app_assoc. reflexivity.
    + destruct current; apply IH.
Qed.

Lemma finish_cons m stripped current :
  finish (group_loop stripped [m] current) = m :: finish (group_loop stripped [] current).
Proof.
  rewrite group_loop_acc. unfold finish. cbn [fst snd].
  destruct (snd (group_loop stripped [] current)); reflexivity.
Qed.


Lemma stream_loop_group strict lines : forall current idx out d,
  stream_loop strict lines current idx out d
  = stream_group strict (significant lines) current idx out d.
Proof.
  unfold significant.
  induction lines as [|line lines IH]; intros current idx out d; [reflexivity|].
  cbn [stream_loop List.map List.filter].
  rewrite strip_rstrip_chars by reflexivity.
  destruct (truthy (strip line)); cbn [negb]; [|apply IH].
  cbn [stream_group]. destruct (startswith (strip line) "MSH").
  - destruct current; [apply IH|].
    destruct (_parse_single_message strict _ idx d) as [d' [result|e]];
      [apply IH | reflexivity].
  - destruct current; apply IH.
Qed.

Lemma stream_group_collect strict stripped : forall current idx out d,
  stream_group strict stripped current idx out d
  = collect strict (finish (group_loop stripped [] current)) idx out d.
Proof.
  induction stripped as [|line rest IH]; intros current idx out d.
  - cbn [stream_group group_loop]. unfold finish. cbn [fst snd].
    destruct current as [|h t]; [reflexivity|].
    cbn [List.app collect].
    destruct (_parse_single_message strict _ idx d) as [d' [result|e]]; reflexivity.
  - cbn [stream_group group_loop]. destruct (startswith line "MSH").
    + destruct current as [|h t]; [apply IH|].
      cbn [List.app]. rewrite finish_cons. cbn [collect].
      destruct (_parse_single_message strict _ idx d) as [d' [result|e]];
        [apply IH | reflexivity].
    + destruct current as [|h t]; apply IH.
Qed.

Lemma collect_parse_loop strict messages : forall idx out d,
  match parse_loop strict messages idx out d with
  | (d', Ok results) => collect strict messages idx out d = (d', mkOutcome results None)
  | (d', Raise e) =>
      exists before, collect strict messages idx out d = (d', mkOutcome before (Some e))
  end.
Proof.
  induction messages as [|m rest IH]; intros idx out d; cbn [parse_loop collect];
    [reflexivity|].
  destruct (_parse_single_message strict m idx d) as [d' [result|e]]; [apply IH|].
  eauto.
Qed.

Lemma split_hl7_messages_group content :
  split_hl7_messages content
  = finish (group_loop
              (significant (split_on LF (replace (replace content CRLF LF) CR LF)))
              [] []).
Proof.
  unfold split_hl7_messages. rewrite split_loop_group.
  destruct (group_loop _ [] []) as [messages current]. reflexivity.
Qed.

Lemma blank_lines_insignificant lines :
  Forall (fun x => forall_chars isspace x = true) lines -> significant lines = [].
Proof.
  unfold significant. induction 1 as [|line lines Hline _ IH]; [reflexivity|].
  cbn [List.map List.filter]. rewrite (strip_blank line Hline). exact IH.
Qed.

End StreamFacts.

(** X19.  Streaming agrees with batch parsing.  When the lines a file
    handle delivers and the lines of [content] are the same once
    stripped and with blank lines dropped, [stream_hl7_file] yields
    exactly the results [parse] returns; and when [parse] raises,
    the stream ends with the same exception (after the results of the
    messages before the failing one). *)
Theorem X19_streaming_agrees_with_parse (strict : bool) (content : string)
    (lines : list string) :
  SpecMore.significant lines
  = SpecMore.significant
      (Py.split_on tokenizer.HL7Tokenizer.LF
         (Py.replace (Py.replace content tokenizer.HL7Tokenizer.CRLF
                        tokenizer.HL7Tokenizer.LF)
            tokenizer.HL7Tokenizer.CR tokenizer.HL7Tokenizer.LF)) ->
  match parser.parse_hl7_message content strict with
  | Ok results =>
      io_handler.stream_lines lines strict = io_handler.mkOutcome results None
  | Raise e =>
      exists before,
        io_handler.stream_lines lines strict = io_handler.mkOutcome before (Some e)
  end.
Proof.
  intros Hlines. unfold io_handler.stream_lines, parser.parse_hl7_message,
    parser.SIUParser.parse.
  rewrite stream_loop_group, Hlines.
  destruct (Py.truthy content) eqn:Hc; cbn [negb orb].
  - destruct (Py.truthy (Py.strip content)) eqn:Hs; cbn [negb snd].
    + rewrite stream_group_collect, <- split_hl7_messages_group.
      pose proof (collect_parse_loop strict (tokenizer.split_hl7_messages content)
                    0 [] tokenizer.Delimiters_new) as H.
      destruct (parser.SIUParser.parse_loop strict _ 0 [] tokenizer.Delimiters_new)
        as [d' [results|e]]; cbn [snd].
      * rewrite H. reflexivity.
      * destruct H as [before ->]. exists before. reflexivity.
    + apply truthy_false, strip_empty_blank in Hs.
      rewrite blank_lines_insignificant; [reflexivity|].
      unfold Py.split_on, Py.replace.
      apply split_from_forall. apply replace_from_forall; [|reflexivity].
      apply replace_from_forall; [exact Hs | reflexivity].
  - apply truthy_false in Hc. subst content. reflexivity.
Qed.

Lemma X19_streaming_agrees_with_parse_witness :
  let nl := tokenizer.HL7Tokenizer.LF in
  let content :=
    "MSH|^~\&|SND|FAC||RCV|20250502||SIU^S12|1|P|2.5" +:+ nl
    +:+ "SCH|A1|A2" +:+ nl +:+ nl
    +:+ "MSH|^~\&|SND|FAC||RCV|20250503||SIU^S12|2|P|2.5" +:+ nl
    +:+ "PID|1||P77" +:+ nl in
  let lines :=
    [ "MSH|^~\&|SND|FAC||RCV|20250502||SIU^S12|1|P|2.5" +:+ nl;
      "SCH|A1|A2" +:+ nl;
      nl;
      "MSH|^~\&|SND|FAC||RCV|20250503||SIU^S12|2|P|2.5" +:+ nl;
      "PID|1||P77" +:+ nl ] in
  exists results,
    parser.parse_hl7_message content false = Ok results
    /\ length results = 2%nat
    /\ io_handler.stream_lines lines false = io_handler.mkOutcome results None.
Proof.
  intros nl content lines.
  assert (SpecMore.significant lines
          = SpecMore.significant
              (Py.split_on tokenizer.HL7Tokenizer.LF
                 (Py.replace (Py.replace content tokenizer.HL7Tokenizer.CRLF
                                tokenizer.HL7Tokenizer.LF)
                    tokenizer.HL7Tokenizer.CR tokenizer.HL7Tokenizer.LF))) as Hsig
    by (vm_compute; reflexivity).
  pose proof (X19_streaming_agrees_with_parse false content lines Hsig) as Hx.
  assert (exists r0 r1, parser.parse_hl7_message content false = Ok [r0; r1])
    as (r0 & r1 & Hp) by (do 2 eexists; vm_compute; reflexivity).
  rewrite Hp in Hx.
  exists [r0; r1]. exact (conj Hp (conj eq_refl Hx)).
Defined.
